(** * Tetracore oscillation engine: a shallow embedding and its properties

    The development follows [oscillation_engine.py] (the engine used by
    [api_server.py]) and the trimmed copy of the same classes that lives in
    [backend/server.py].

    Numbers.  Python floats are read as real numbers (Stdlib [R]): rounding,
    infinities and NaN are outside the model, so every statement below is a
    statement about the exact-arithmetic reading of the formulas.  The two
    operations of the code that can raise are kept fallible: [/] raises
    [ZeroDivisionError] on a zero divisor and [math.sqrt] raises [ValueError]
    on a negative argument.

    What is not modelled.  On floats that leave the finite range Python
    raises as well: [x ** 2] raises [OverflowError] once the square exceeds
    the largest float (for [x] beyond about 1.34e154), and [math.sin] raises
    [ValueError] on an infinity (which [2 * pi * base_frequency * t]
    overflows to for a base frequency near the largest float).  With
    infinities outside the model these two raises are outside it too, so an
    [Ok] below is the result of the exact-arithmetic reading.  The statements
    say what an operation that completes leaves behind; where one says that
    nothing is raised, it is about the division and the square root above.

    Inputs from the outside world are explicit arguments: the wall clock
    ([time.time()]) is a value [now], the Gaussian generator is a stream [z]
    of standard normal variates, the uniform generator a stream [u] of
    variates of the unit interval. *)

From Stdlib Require Import String Reals Lra Lia ZArith Bool Arith List.
Import ListNotations.
Open Scope R_scope.

(** ** Exceptions *)

Inductive exn : Type :=
| ZeroDivisionError
| ValueError.

Inductive result (A : Type) : Type :=
| Ok (a : A)
| Raise (e : exn).

Arguments Ok {A} a.
Arguments Raise {A} e.

Definition bind {A B : Type} (c : result A) (k : A -> result B) : result B :=
  match c with
  | Ok a => k a
  | Raise e => Raise e
  end.

Notation "x <- c ;; k" := (bind c (fun x => k))
  (at level 61, c at next level, right associativity).

(** [x / y] on Python floats. *)
Definition float_div (x y : R) : result R :=
  if Req_dec_T y 0 then Raise ZeroDivisionError else Ok (x / y).

(** [math.sqrt]. *)
Definition math_sqrt (x : R) : result R :=
  if Rlt_dec x 0 then Raise ValueError else Ok (sqrt x).

(** [np.random.normal(loc, scale)], from the standard normal variate [z]. *)
Definition np_random_normal (loc scale z : R) : R := loc + scale * z.

(** [np.random.uniform(low, high)], from the unit-interval variate [u]. *)
Definition np_random_uniform (low high u : R) : R := low + (high - low) * u.

(** ** Python list slicing [l[start:]] *)

Definition slice_from {A : Type} (start : Z) (l : list A) : list A :=
  if (start <? 0)%Z
  then skipn (Z.to_nat (Z.max 0 (Z.of_nat (length l) + start))) l
  else skipn (Z.to_nat start) l.

(** [sum(l)]: a left fold that starts from 0. *)
Definition py_sum (l : list R) : R := fold_left Rplus l 0.

(** ** FourDimensionalState *)

Record FourDimensionalState : Type := mkState {
  w1_projection : R;
  w2_energy : R;
  w3_spin : R;
  w4_mass : R
}.

(** [magnitude], in exact arithmetic: the [OverflowError] that [** 2] raises
    on floats beyond about 1.34e154 has no counterpart here. *)
Definition magnitude (self : FourDimensionalState) : result R :=
  math_sqrt (w1_projection self ^ 2 + w2_energy self ^ 2 +
             w3_spin self ^ 2 + w4_mass self ^ 2).

(** ** OscillationParameters *)

Record OscillationParameters : Type := mkParams {
  base_frequency : R;
  amplitude_w1 : R;
  amplitude_w2 : R;
  amplitude_w3 : R;
  amplitude_w4 : R;
  phase_w1 : R;
  phase_w2 : R;
  phase_w3 : R;
  phase_w4 : R;
  damping_factor : R;
  coupling_strength : R
}.

(** The dataclass defaults. *)
Definition default_parameters : OscillationParameters :=
  {| base_frequency := 1.0;
     amplitude_w1 := 1.0;
     amplitude_w2 := 1.5;
     amplitude_w3 := 0.8;
     amplitude_w4 := 1.2;
     phase_w1 := 0.0;
     phase_w2 := PI / 4;
     phase_w3 := PI / 2;
     phase_w4 := 3 * PI / 4;
     damping_factor := 0.98;
     coupling_strength := 0.1 |}.

(** ** TetrahedronOscillator *)

Record TetrahedronOscillator : Type := mkOscillator {
  particle_id : string;
  params : OscillationParameters;
  creation_time : R;
  current_time : R;
  osc_dt : R;                      (* the attribute [dt] of the oscillator *)
  current_state : FourDimensionalState;
  state_history : list (R * FourDimensionalState);
  max_history : nat;
  stability_factor : R;
  energy_total : R;
  phase_coherence : R
}.

(** [TetrahedronOscillator.__init__]; [now] is [time.time()]. *)
Definition new_oscillator (now : R) (particle_id : string)
    (params : OscillationParameters) : TetrahedronOscillator :=
  {| particle_id := particle_id;
     params := params;
     creation_time := now;
     current_time := 0.0;
     osc_dt := 0.016;
     current_state := {| w1_projection := 0.0; w2_energy := 1.0;
                         w3_spin := 0.0; w4_mass := 1.0 |};
     state_history := [];
     max_history := 1000;
     stability_factor := 1.0;
     energy_total := 0.0;
     phase_coherence := 1.0 |}.

(** Attribute assignments. *)
Definition set_current_time (self : TetrahedronOscillator) (v : R) :=
  mkOscillator (particle_id self) (params self) (creation_time self) v
    (osc_dt self) (current_state self) (state_history self)
    (max_history self) (stability_factor self) (energy_total self)
    (phase_coherence self).

Definition set_current_state (self : TetrahedronOscillator)
    (v : FourDimensionalState) :=
  mkOscillator (particle_id self) (params self) (creation_time self)
    (current_time self) (osc_dt self) v (state_history self)
    (max_history self) (stability_factor self) (energy_total self)
    (phase_coherence self).

Definition set_state_history (self : TetrahedronOscillator)
    (v : list (R * FourDimensionalState)) :=
  mkOscillator (particle_id self) (params self) (creation_time self)
    (current_time self) (osc_dt self) (current_state self) v
    (max_history self) (stability_factor self) (energy_total self)
    (phase_coherence self).

Definition set_stability_factor (self : TetrahedronOscillator) (v : R) :=
  mkOscillator (particle_id self) (params self) (creation_time self)
    (current_time self) (osc_dt self) (current_state self)
    (state_history self) (max_history self) v (energy_total self)
    (phase_coherence self).

Definition set_energy_total (self : TetrahedronOscillator) (v : R) :=
  mkOscillator (particle_id self) (params self) (creation_time self)
    (current_time self) (osc_dt self) (current_state self)
    (state_history self) (max_history self) (stability_factor self) v
    (phase_coherence self).

Definition set_phase_coherence (self : TetrahedronOscillator) (v : R) :=
  mkOscillator (particle_id self) (params self) (creation_time self)
    (current_time self) (osc_dt self) (current_state self)
    (state_history self) (max_history self) (stability_factor self)
    (energy_total self) v.

(** [max(0.0, min(1.0, x))]. *)
Definition clamp01 (x : R) : R := Rmax 0.0 (Rmin 1.0 x).

(** The balance expression shared by both stability routines, from the four
    ratios. *)
Definition balance_factor (w1_ratio w2_ratio w3_ratio w4_ratio : R) : R :=
  1.0 - Rabs (0.25 - w1_ratio) - Rabs (0.25 - w2_ratio)
      - Rabs (0.25 - w3_ratio) - Rabs (0.25 - w4_ratio).

(** [_calculate_total_energy]. *)
Definition _calculate_total_energy (self : TetrahedronOscillator)
    : TetrahedronOscillator :=
  let kinetic := 0.5 * (w1_projection (current_state self) ^ 2 +
                        w2_energy (current_state self) ^ 2 +
                        w3_spin (current_state self) ^ 2 +
                        w4_mass (current_state self) ^ 2) in
  let potential := 0.25 * coupling_strength (params self) * (
      w1_projection (current_state self) * w2_energy (current_state self) +
      w2_energy (current_state self) * w3_spin (current_state self) +
      w3_spin (current_state self) * w4_mass (current_state self) +
      w4_mass (current_state self) * w1_projection (current_state self)) in
  set_energy_total self (kinetic + potential).

(** The body of the loop of [_calculate_phase_coherence]: one value per
    pair of neighbours of [recent_states]. *)
Definition state_diff (prev_state curr_state : FourDimensionalState) : R :=
  Rabs (w1_projection curr_state - w1_projection prev_state) +
  Rabs (w2_energy curr_state - w2_energy prev_state) +
  Rabs (w3_spin curr_state - w3_spin prev_state) +
  Rabs (w4_mass curr_state - w4_mass prev_state).

Fixpoint phase_diffs (recent_states : list (R * FourDimensionalState))
    : list R :=
  match recent_states with
  | prev :: ((curr :: _) as rest) =>
      state_diff (snd prev) (snd curr) :: phase_diffs rest
  | _ => []
  end.

(** [_calculate_phase_coherence]; it reads [state_history] as it stands when
    it is called. *)
Definition _calculate_phase_coherence (self : TetrahedronOscillator)
    : result TetrahedronOscillator :=
  if (length (state_history self) <? 10)%nat
  then Ok (set_phase_coherence self 1.0)
  else
    let recent_states := slice_from (-10) (state_history self) in
    let diffs := phase_diffs recent_states in
    avg_diff <- float_div (py_sum diffs) (INR (length diffs)) ;;
    Ok (set_phase_coherence self (clamp01 (1.0 - avg_diff / 4.0))).

(** [_store_state_history]; the stored state is a copy. *)
Definition _store_state_history (self : TetrahedronOscillator)
    : TetrahedronOscillator :=
  let self := set_state_history self
                (state_history self ++ [(current_time self, current_state self)]) in
  if (max_history self <? length (state_history self))%nat
  then set_state_history self
         (slice_from (- Z.of_nat (max_history self)) (state_history self))
  else self.

(** The first half of [update_oscillations]: the clock, the four base
    oscillations, the coupling (which reads the state as it was on entry), the
    damping and the four writes to [current_state].  [math.sin] is the real
    sine: the [ValueError] it raises on an infinite float has no counterpart
    here. *)
Definition advance_state (dt : R) (self : TetrahedronOscillator)
    : TetrahedronOscillator :=
  let self := set_current_time self (current_time self + dt) in
  let t := current_time self in
  let w1_base := amplitude_w1 (params self) * sin (
      2 * PI * base_frequency (params self) * t + phase_w1 (params self)) in
  let w2_base := amplitude_w2 (params self) * sin (
      2 * PI * base_frequency (params self) * 1.2 * t + phase_w2 (params self)) in
  let w3_base := amplitude_w3 (params self) * sin (
      2 * PI * base_frequency (params self) * 0.8 * t + phase_w3 (params self)) in
  let w4_base := amplitude_w4 (params self) * sin (
      2 * PI * base_frequency (params self) * 1.1 * t + phase_w4 (params self)) in
  let coupling := coupling_strength (params self) in
  let w1_coupled := w1_base + coupling * (w2_energy (current_state self) * 0.3 +
                                          w4_mass (current_state self) * 0.2) in
  let w2_coupled := w2_base + coupling * (w3_spin (current_state self) * 0.4 +
                                          w1_projection (current_state self) * 0.1) in
  let w3_coupled := w3_base + coupling * (w2_energy (current_state self) * 0.5) +
                    0.3 * sin (6 * PI * base_frequency (params self) * t) in
  let w4_coupled := w4_base + coupling * (w1_projection (current_state self) * 0.15) in
  let damping := damping_factor (params self) in
  set_current_state self
    {| w1_projection := w1_coupled * damping;
       w2_energy := w2_coupled * damping;
       w3_spin := w3_coupled * damping;
       w4_mass := w4_coupled * damping |}.

Section UpdateOscillations.

(** The two source files differ in [_calculate_stability] only; the rest of
    [update_oscillations] is written once, over the routine it calls. *)
Variable calculate_stability : TetrahedronOscillator -> result TetrahedronOscillator.

(** [update_oscillations]: the state is advanced, the derived properties are
    calculated in the order of the source, the history is stored last. *)
Definition update_oscillations_with (dt : R) (self : TetrahedronOscillator)
    : result TetrahedronOscillator :=
  let self := advance_state dt self in
  self <- calculate_stability self ;;
  let self := _calculate_total_energy self in
  self <- _calculate_phase_coherence self ;;
  Ok (_store_state_history self).

End UpdateOscillations.

(** One entry of the answer of [get_history_data]. *)
Record HistoryEntry : Type := mkEntry {
  entry_time : R;
  entry_state : FourDimensionalState;
  entry_magnitude : R
}.

Fixpoint history_entries (history_slice : list (R * FourDimensionalState))
    : result (list HistoryEntry) :=
  match history_slice with
  | [] => Ok []
  | (t, state) :: rest =>
      m <- magnitude state ;;
      entries <- history_entries rest ;;
      Ok ({| entry_time := t; entry_state := state; entry_magnitude := m |}
          :: entries)
  end.

(** [get_history_data]; [last_n] is any Python int. *)
Definition get_history_data (self : TetrahedronOscillator) (last_n : Z)
    : result (list HistoryEntry) :=
  let history_slice :=
    if (last_n =? 0)%Z then state_history self
    else slice_from (- last_n) (state_history self) in
  history_entries history_slice.

(** [get_oscillation_data]. *)
Record OscillationData : Type := mkData {
  data_particle_id : string;
  data_timestamp : R;
  data_state : FourDimensionalState;
  data_stability_factor : R;
  data_energy_total : R;
  data_phase_coherence : R;
  data_state_magnitude : R;
  data_parameters : OscillationParameters
}.

Definition get_oscillation_data (self : TetrahedronOscillator)
    : result OscillationData :=
  state_magnitude <- magnitude (current_state self) ;;
  Ok {| data_particle_id := particle_id self;
        data_timestamp := current_time self;
        data_state := current_state self;
        data_stability_factor := stability_factor self;
        data_energy_total := energy_total self;
        data_phase_coherence := phase_coherence self;
        data_state_magnitude := state_magnitude;
        data_parameters := params self |}.

(** ** The registry: a Python dict, in insertion order *)

Definition registry : Type := list (string * TetrahedronOscillator).

Fixpoint dict_get (k : string) (d : registry) : option TetrahedronOscillator :=
  match d with
  | [] => None
  | (k', v) :: rest => if String.eqb k k' then Some v else dict_get k rest
  end.

Definition dict_mem (k : string) (d : registry) : bool :=
  match dict_get k d with
  | Some _ => true
  | None => false
  end.

(** [d[k] = v]: an existing key keeps its place, a new key goes last. *)
Fixpoint dict_set (k : string) (v : TetrahedronOscillator) (d : registry)
    : registry :=
  match d with
  | [] => [(k, v)]
  | (k', v') :: rest =>
      if String.eqb k k' then (k', v) :: rest else (k', v') :: dict_set k v rest
  end.

(** [del d[k]]. *)
Fixpoint dict_del (k : string) (d : registry) : registry :=
  match d with
  | [] => []
  | (k', v') :: rest =>
      if String.eqb k k' then rest else (k', v') :: dict_del k rest
  end.

(** [list(d.values())]. *)
Definition dict_values (d : registry) : list TetrahedronOscillator :=
  map snd d.

(** The dict as it reads after the objects it holds were mutated in place:
    same keys in the same order, the values as they are now. *)
Definition dict_rebind (d : registry) (vs : list TetrahedronOscillator)
    : registry :=
  combine (map fst d) vs.

(** ** ParticleOscillationSimulation *)

Record ParticleOscillationSimulation : Type := mkSimulation {
  oscillators : registry;
  simulation_time : R;
  is_running : bool;
  update_rate : Z;
  dt : R;
  global_coupling : R;
  environmental_noise : R;
  update_count : Z;
  last_fps_time : R;
  current_fps : R
}.

(** [ParticleOscillationSimulation.__init__]; [now] is [time.time()]. *)
Definition new_simulation (now : R) : ParticleOscillationSimulation :=
  {| oscillators := [];
     simulation_time := 0.0;
     is_running := false;
     update_rate := 60;
     dt := 1.0 / 60;
     global_coupling := 0.05;
     environmental_noise := 0.01;
     update_count := 0;
     last_fps_time := now;
     current_fps := 0.0 |}.

Definition set_oscillators (self : ParticleOscillationSimulation) (v : registry) :=
  mkSimulation v (simulation_time self) (is_running self) (update_rate self)
    (dt self) (global_coupling self) (environmental_noise self)
    (update_count self) (last_fps_time self) (current_fps self).

Definition set_simulation_time (self : ParticleOscillationSimulation) (v : R) :=
  mkSimulation (oscillators self) v (is_running self) (update_rate self)
    (dt self) (global_coupling self) (environmental_noise self)
    (update_count self) (last_fps_time self) (current_fps self).

Definition set_is_running (self : ParticleOscillationSimulation) (v : bool) :=
  mkSimulation (oscillators self) (simulation_time self) v (update_rate self)
    (dt self) (global_coupling self) (environmental_noise self)
    (update_count self) (last_fps_time self) (current_fps self).

Definition set_update_count (self : ParticleOscillationSimulation) (v : Z) :=
  mkSimulation (oscillators self) (simulation_time self) (is_running self)
    (update_rate self) (dt self) (global_coupling self)
    (environmental_noise self) v (last_fps_time self) (current_fps self).

Definition set_last_fps_time (self : ParticleOscillationSimulation) (v : R) :=
  mkSimulation (oscillators self) (simulation_time self) (is_running self)
    (update_rate self) (dt self) (global_coupling self)
    (environmental_noise self) (update_count self) v (current_fps self).

Definition set_current_fps (self : ParticleOscillationSimulation) (v : R) :=
  mkSimulation (oscillators self) (simulation_time self) (is_running self)
    (update_rate self) (dt self) (global_coupling self)
    (environmental_noise self) (update_count self) (last_fps_time self) v.

(** The parameters drawn when [create_oscillator] is called without any:
    ten uniform draws in the order of the keyword arguments, the damping
    factor left at its default. *)
Definition random_parameters (u : nat -> R) : OscillationParameters :=
  {| base_frequency := np_random_uniform 0.5 2.0 (u 0%nat);
     amplitude_w1 := np_random_uniform 0.8 1.2 (u 1%nat);
     amplitude_w2 := np_random_uniform 1.0 1.8 (u 2%nat);
     amplitude_w3 := np_random_uniform 0.6 1.0 (u 3%nat);
     amplitude_w4 := np_random_uniform 1.0 1.4 (u 4%nat);
     phase_w1 := np_random_uniform 0 (2 * PI) (u 5%nat);
     phase_w2 := np_random_uniform 0 (2 * PI) (u 6%nat);
     phase_w3 := np_random_uniform 0 (2 * PI) (u 7%nat);
     phase_w4 := np_random_uniform 0 (2 * PI) (u 8%nat);
     damping_factor := 0.98;
     coupling_strength := np_random_uniform 0.05 0.15 (u 9%nat) |}.

(** [create_oscillator]: the returned id and the simulation afterwards.  No
    path of it raises. *)
Definition create_oscillator (now : R) (u : nat -> R)
    (self : ParticleOscillationSimulation) (particle_id : string)
    (params : option OscillationParameters)
    : string * ParticleOscillationSimulation :=
  let params :=
    match params with
    | None => random_parameters u
    | Some p => p
    end in
  let oscillator := new_oscillator now particle_id params in
  (particle_id,
   set_oscillators self (dict_set particle_id oscillator (oscillators self))).

(** [remove_oscillator]. *)
Definition remove_oscillator (self : ParticleOscillationSimulation)
    (particle_id : string) : bool * ParticleOscillationSimulation :=
  if dict_mem particle_id (oscillators self)
  then (true, set_oscillators self (dict_del particle_id (oscillators self)))
  else (false, self).

(** [_update_performance_metrics]; [now] is [time.time()]. *)
Definition _update_performance_metrics (now : R)
    (self : ParticleOscillationSimulation)
    : result ParticleOscillationSimulation :=
  let self := set_update_count self (update_count self + 1)%Z in
  let current_time := now in
  if Rle_dec 1.0 (current_time - last_fps_time self)
  then
    fps <- float_div (IZR (update_count self))
                     (current_time - last_fps_time self) ;;
    let self := set_current_fps self fps in
    let self := set_update_count self 0%Z in
    Ok (set_last_fps_time self current_time)
  else Ok self.

Definition start_simulation (self : ParticleOscillationSimulation) :=
  set_is_running self true.

Definition stop_simulation (self : ParticleOscillationSimulation) :=
  set_is_running self false.

Definition reset_simulation (self : ParticleOscillationSimulation) :=
  let self := set_simulation_time self 0.0 in
  let self := set_is_running self false in
  set_oscillators self [].

Definition set_update_rate (self : ParticleOscillationSimulation) (v : Z) :=
  mkSimulation (oscillators self) (simulation_time self) (is_running self) v
    (dt self) (global_coupling self) (environmental_noise self)
    (update_count self) (last_fps_time self) (current_fps self).

Definition set_dt (self : ParticleOscillationSimulation) (v : R) :=
  mkSimulation (oscillators self) (simulation_time self) (is_running self)
    (update_rate self) v (global_coupling self) (environmental_noise self)
    (update_count self) (last_fps_time self) (current_fps self).

Definition set_global_coupling (self : ParticleOscillationSimulation) (v : R) :=
  mkSimulation (oscillators self) (simulation_time self) (is_running self)
    (update_rate self) (dt self) v (environmental_noise self)
    (update_count self) (last_fps_time self) (current_fps self).

Definition set_environmental_noise (self : ParticleOscillationSimulation) (v : R) :=
  mkSimulation (oscillators self) (simulation_time self) (is_running self)
    (update_rate self) (dt self) (global_coupling self) v
    (update_count self) (last_fps_time self) (current_fps self).

(** [update_simulation_config] of [api_server.py], on the simulation it
    configures: each field given is clamped, then written.  The update rate
    is at least 10 once clamped, so the division cannot raise. *)
Definition update_simulation_config
    (config_global_coupling config_environmental_noise : option R)
    (config_update_rate : option Z)
    (simulation : ParticleOscillationSimulation)
    : ParticleOscillationSimulation :=
  let simulation :=
    match config_global_coupling with
    | Some v => set_global_coupling simulation (Rmax 0.0 (Rmin 1.0 v))
    | None => simulation
    end in
  let simulation :=
    match config_environmental_noise with
    | Some v => set_environmental_noise simulation (Rmax 0.0 (Rmin 0.1 v))
    | None => simulation
    end in
  match config_update_rate with
  | Some r =>
      let simulation := set_update_rate simulation (Z.max 10 (Z.min 120 r)) in
      set_dt simulation (1.0 / IZR (update_rate simulation))
  | None => simulation
  end.

(** [get_simulation_state]. *)
Record GlobalMetrics : Type := mkMetrics {
  metrics_total_energy : R;
  metrics_average_stability : R;
  metrics_current_fps : R;
  metrics_global_coupling : R;
  metrics_environmental_noise : R
}.

Record SimulationState : Type := mkSnapshot {
  snap_simulation_time : R;
  snap_is_running : bool;
  snap_oscillator_count : nat;
  snap_oscillators : list (string * OscillationData);
  snap_global_metrics : GlobalMetrics
}.

(** The loop of [get_simulation_state] over [self.oscillators.items()], with
    its three accumulators. *)
Fixpoint collect_state (items : registry)
    (oscillator_data : list (string * OscillationData))
    (total_energy avg_stability : R)
    : result (list (string * OscillationData) * R * R) :=
  match items with
  | [] => Ok (oscillator_data, total_energy, avg_stability)
  | (osc_id, oscillator) :: rest =>
      osc_data <- get_oscillation_data oscillator ;;
      collect_state rest (oscillator_data ++ [(osc_id, osc_data)])
        (total_energy + data_energy_total osc_data)
        (avg_stability + data_stability_factor osc_data)
  end.

Definition get_simulation_state (self : ParticleOscillationSimulation)
    : result SimulationState :=
  acc <- collect_state (oscillators self) [] 0.0 0.0 ;;
  let '(oscillator_data, total_energy, avg_stability) := acc in
  avg_stability <-
    (if (0 <? length (oscillators self))%nat
     then float_div avg_stability (INR (length (oscillators self)))
     else Ok avg_stability) ;;
  Ok {| snap_simulation_time := simulation_time self;
        snap_is_running := is_running self;
        snap_oscillator_count := length (oscillators self);
        snap_oscillators := oscillator_data;
        snap_global_metrics :=
          {| metrics_total_energy := total_energy;
             metrics_average_stability := avg_stability;
             metrics_current_fps := current_fps self;
             metrics_global_coupling := global_coupling self;
             metrics_environmental_noise := environmental_noise self |} |}.

(** The loop of [update_simulation] over [self.oscillators.values()]: the
    [k]-th oscillator met takes the [k]-th variate. *)
Section UpdateEach.

Variable update_oscillations : R -> TetrahedronOscillator -> result TetrahedronOscillator.

Fixpoint update_each (dt environmental_noise : R) (z : nat -> R) (k : nat)
    (values : list TetrahedronOscillator)
    : result (list TetrahedronOscillator) :=
  match values with
  | [] => Ok []
  | oscillator :: rest =>
      let noise_factor := 1.0 + np_random_normal 0 environmental_noise (z k) in
      let modified_dt := dt * noise_factor in
      oscillator <- update_oscillations modified_dt oscillator ;;
      rest <- update_each dt environmental_noise z (S k) rest ;;
      Ok (oscillator :: rest)
  end.

End UpdateEach.

(** ** The engine of [oscillation_engine.py] *)

Module Engine.

(** [_calculate_stability]: every ratio is taken over
    [state_magnitude + 1e-6]. *)
Definition _calculate_stability (self : TetrahedronOscillator)
    : result TetrahedronOscillator :=
  state_magnitude <- magnitude (current_state self) ;;
  w1_ratio <- float_div (Rabs (w1_projection (current_state self)))
                        (state_magnitude + 1e-6) ;;
  w2_ratio <- float_div (Rabs (w2_energy (current_state self)))
                        (state_magnitude + 1e-6) ;;
  w3_ratio <- float_div (Rabs (w3_spin (current_state self)))
                        (state_magnitude + 1e-6) ;;
  w4_ratio <- float_div (Rabs (w4_mass (current_state self)))
                        (state_magnitude + 1e-6) ;;
  Ok (set_stability_factor self
        (clamp01 (balance_factor w1_ratio w2_ratio w3_ratio w4_ratio))).

Definition update_oscillations : R -> TetrahedronOscillator -> result TetrahedronOscillator :=
  update_oscillations_with _calculate_stability.

(** The body of the double loop of [_apply_global_coupling]: both coupling
    terms are computed, then the two oscillators are written. *)
Definition couple (global_coupling : R) (osc1 osc2 : TetrahedronOscillator)
    : TetrahedronOscillator * TetrahedronOscillator :=
  let coupling_w2 := global_coupling * (
      w2_energy (current_state osc2) - w2_energy (current_state osc1)) * 0.1 in
  let coupling_w3 := global_coupling * (
      w3_spin (current_state osc2) - w3_spin (current_state osc1)) * 0.05 in
  let s1 := current_state osc1 in
  let s2 := current_state osc2 in
  (set_current_state osc1
     {| w1_projection := w1_projection s1;
        w2_energy := w2_energy s1 + coupling_w2;
        w3_spin := w3_spin s1 + coupling_w3;
        w4_mass := w4_mass s1 |},
   set_current_state osc2
     {| w1_projection := w1_projection s2;
        w2_energy := w2_energy s2 - coupling_w2;
        w3_spin := w3_spin s2 - coupling_w3;
        w4_mass := w4_mass s2 |}).

(** The inner loop: [osc1] against every later oscillator in turn; the
    objects are shared with the list, so the loop hands back [osc1] and the
    later ones as it left them. *)
Fixpoint couple_inner (global_coupling : R) (osc1 : TetrahedronOscillator)
    (later : list TetrahedronOscillator)
    : TetrahedronOscillator * list TetrahedronOscillator :=
  match later with
  | [] => (osc1, [])
  | osc2 :: rest =>
      let '(osc1, osc2) := couple global_coupling osc1 osc2 in
      let '(osc1, rest) := couple_inner global_coupling osc1 rest in
      (osc1, osc2 :: rest)
  end.

(** The outer loop, by the number of oscillators still to be taken as
    [osc1]. *)
Fixpoint couple_outer (global_coupling : R) (fuel : nat)
    (oscillator_list : list TetrahedronOscillator)
    : list TetrahedronOscillator :=
  match fuel, oscillator_list with
  | S fuel, osc1 :: later =>
      let '(osc1, later) := couple_inner global_coupling osc1 later in
      osc1 :: couple_outer global_coupling fuel later
  | _, _ => oscillator_list
  end.

Definition _apply_global_coupling (self : ParticleOscillationSimulation)
    : ParticleOscillationSimulation :=
  if (length (oscillators self) <? 2)%nat then self
  else
    let oscillator_list := dict_values (oscillators self) in
    set_oscillators self
      (dict_rebind (oscillators self)
         (couple_outer (global_coupling self) (length oscillator_list)
            oscillator_list)).

(** [update_simulation]; [now] is [time.time()], [z] the normal variates. *)
Definition update_simulation (now : R) (z : nat -> R)
    (self : ParticleOscillationSimulation)
    : result ParticleOscillationSimulation :=
  if negb (is_running self) then Ok self
  else
    let self := set_simulation_time self (simulation_time self + dt self) in
    let self := _apply_global_coupling self in
    values <- update_each update_oscillations (dt self)
                (environmental_noise self) z 0 (dict_values (oscillators self)) ;;
    let self := set_oscillators self (dict_rebind (oscillators self) values) in
    _update_performance_metrics now self.

End Engine.

(** ** The copy of the classes in [backend/server.py] *)

Module Server.

(** [_calculate_stability]: a zero magnitude is answered at once, otherwise
    the ratios are taken over the magnitude. *)
Definition _calculate_stability (self : TetrahedronOscillator)
    : result TetrahedronOscillator :=
  state_magnitude <- magnitude (current_state self) ;;
  if Req_dec_T state_magnitude 0 then Ok (set_stability_factor self 0.0)
  else
    w1_ratio <- float_div (Rabs (w1_projection (current_state self)))
                          state_magnitude ;;
    w2_ratio <- float_div (Rabs (w2_energy (current_state self)))
                          state_magnitude ;;
    w3_ratio <- float_div (Rabs (w3_spin (current_state self)))
                          state_magnitude ;;
    w4_ratio <- float_div (Rabs (w4_mass (current_state self)))
                          state_magnitude ;;
    Ok (set_stability_factor self
          (clamp01 (balance_factor w1_ratio w2_ratio w3_ratio w4_ratio))).

Definition update_oscillations : R -> TetrahedronOscillator -> result TetrahedronOscillator :=
  update_oscillations_with _calculate_stability.

(** [update_simulation]: this file has no coupling between oscillators. *)
Definition update_simulation (now : R) (z : nat -> R)
    (self : ParticleOscillationSimulation)
    : result ParticleOscillationSimulation :=
  if negb (is_running self) then Ok self
  else
    let self := set_simulation_time self (simulation_time self + dt self) in
    values <- update_each update_oscillations (dt self)
                (environmental_noise self) z 0 (dict_values (oscillators self)) ;;
    let self := set_oscillators self (dict_rebind (oscillators self) values) in
    _update_performance_metrics now self.

End Server.

(** ** Notions used to state the properties *)

(** The last [n] elements of a list (all of it when it is shorter). *)
Definition lastn {A : Type} (n : nat) (l : list A) : list A :=
  skipn (length l - n) l.

(** Sum and arithmetic mean of a list of reals. *)
Definition sum_list (l : list R) : R := fold_right Rplus 0 l.

Definition mean (l : list R) : R := sum_list l / INR (length l).

Definition sum_squares (s : FourDimensionalState) : R :=
  w1_projection s ^ 2 + w2_energy s ^ 2 + w3_spin s ^ 2 + w4_mass s ^ 2.

(** [clamp x lo hi], by cases. *)
Definition clamp (x lo hi : R) : R :=
  if Rlt_dec x lo then lo else if Rlt_dec hi x then hi else x.

(** The stability formula of the specification: with [m] the magnitude, 0
    when [m = 0], otherwise the clamped balance of the ratios [|axis| / m]. *)
Definition stability_formula (s : FourDimensionalState) : R :=
  let m := sqrt (sum_squares s) in
  if Req_dec_T m 0 then 0
  else clamp (1 - (Rabs (0.25 - Rabs (w1_projection s) / m) +
                   Rabs (0.25 - Rabs (w2_energy s) / m) +
                   Rabs (0.25 - Rabs (w3_spin s) / m) +
                   Rabs (0.25 - Rabs (w4_mass s) / m))) 0 1.

(** The same with every ratio taken over [m + 1e-6] and no case for
    [m = 0]: what [oscillation_engine.py] computes. *)
Definition guarded_stability_formula (s : FourDimensionalState) : R :=
  let m := sqrt (sum_squares s) in
  clamp (1 - (Rabs (0.25 - Rabs (w1_projection s) / (m + 1e-6)) +
              Rabs (0.25 - Rabs (w2_energy s) / (m + 1e-6)) +
              Rabs (0.25 - Rabs (w3_spin s) / (m + 1e-6)) +
              Rabs (0.25 - Rabs (w4_mass s) / (m + 1e-6)))) 0 1.

(** The phase coherence formula of the specification over a history [h]:
    1 below ten entries, otherwise the clamped [1 - avg_diff / 4], where
    [avg_diff] is the mean, over the neighbouring pairs of the last ten
    entries, of the summed absolute differences of the four axes. *)
Definition pair_diffs (l : list (R * FourDimensionalState)) : list R :=
  map (fun pc => state_diff (snd (fst pc)) (snd (snd pc))) (combine l (tl l)).

Definition coherence_formula (h : list (R * FourDimensionalState)) : R :=
  if (length h <? 10)%nat then 1
  else clamp (1 - mean (pair_diffs (lastn 10 h)) / 4) 0 1.

(** What is done to one oscillator over its life: [update_oscillations]
    calls, and writes to its current state in between (the coupling pass of
    the engine writes [w2_energy] and [w3_spin]). *)
Inductive call : Type :=
| Advance (dt : R)
| WriteState (s : FourDimensionalState).

Definition is_advance (c : call) : bool :=
  match c with
  | Advance _ => true
  | WriteState _ => false
  end.

Definition count_advances (calls : list call) : nat :=
  length (filter is_advance calls).

Section RunCalls.

Variable update_oscillations : R -> TetrahedronOscillator -> result TetrahedronOscillator.

(** Runs the calls in order; hands back the oscillator and the log of the
    samples [(current_time, current_state)] read right after each
    [update_oscillations] call. *)
Fixpoint run_calls (calls : list call) (self : TetrahedronOscillator)
    : result (list (R * FourDimensionalState) * TetrahedronOscillator) :=
  match calls with
  | [] => Ok ([], self)
  | Advance dt :: rest =>
      self <- update_oscillations dt self ;;
      r <- run_calls rest self ;;
      Ok ((current_time self, current_state self) :: fst r, snd r)
  | WriteState s :: rest => run_calls rest (set_current_state self s)
  end.

End RunCalls.

(** The global coupling pass in the words of the specification: for every
    unordered pair of positions [i < j] of the registry, in the order the two
    loops meet them, the exchange between the oscillators found there. *)
Fixpoint list_set {A : Type} (i : nat) (x : A) (l : list A) : list A :=
  match l, i with
  | [], _ => []
  | _ :: rest, O => x :: rest
  | y :: rest, S i => y :: list_set i x rest
  end.

Definition exchange_at (global_coupling : R) (i j : nat)
    (l : list TetrahedronOscillator) : list TetrahedronOscillator :=
  match nth_error l i, nth_error l j with
  | Some o1, Some o2 =>
      let '(o1, o2) := Engine.couple global_coupling o1 o2 in
      list_set j o2 (list_set i o1 l)
  | _, _ => l
  end.

Definition unordered_pairs (n : nat) : list (nat * nat) :=
  flat_map (fun i => map (pair i) (seq (S i) (n - S i))) (seq 0 n).

Definition coupling_pass (global_coupling : R)
    (l : list TetrahedronOscillator) : list TetrahedronOscillator :=
  fold_left (fun l ij => exchange_at global_coupling (fst ij) (snd ij) l)
            (unordered_pairs (length l)) l.

(** A draw from Normal([mu], [sigma]) out of the standard normal variate. *)
Definition gaussian (mu sigma z : R) : R := mu + sigma * z.

Fixpoint sequence {A : Type} (l : list (result A)) : result (list A) :=
  match l with
  | [] => Ok []
  | c :: rest => a <- c ;; r <- sequence rest ;; Ok (a :: r)
  end.

(** The steps of a tick in the words of the specification, with or without
    the coupling pass. *)
Definition tick_steps (with_coupling : bool)
    (advance : R -> TetrahedronOscillator -> result TetrahedronOscillator)
    (now : R) (z : nat -> R) (self : ParticleOscillationSimulation)
    : result ParticleOscillationSimulation :=
  if is_running self then
    let time := simulation_time self + dt self in
    let values := dict_values (oscillators self) in
    let coupled :=
      if with_coupling then coupling_pass (global_coupling self) values
      else values in
    advanced <- sequence
      (map (fun ko => advance
                        (dt self * gaussian 1 (environmental_noise self) (z (fst ko)))
                        (snd ko))
           (combine (seq 0 (length coupled)) coupled)) ;;
    _update_performance_metrics now
      (set_oscillators (set_simulation_time self time)
         (dict_rebind (oscillators self) advanced))
  else Ok self.

Definition w2_of (o : TetrahedronOscillator) : R := w2_energy (current_state o).

Definition w3_of (o : TetrahedronOscillator) : R := w3_spin (current_state o).

(** The oscillator after one [update_oscillations], given the stability
    routine as a function of the state: the composition of the steps of the
    source, with the values the two fallible steps hand back. *)
Definition updated (stability : FourDimensionalState -> R) (dt : R)
    (o : TetrahedronOscillator) : TetrahedronOscillator :=
  let o1 := advance_state dt o in
  _store_state_history
    (set_phase_coherence
       (_calculate_total_energy
          (set_stability_factor o1 (stability (current_state o1))))
       (coherence_formula (state_history o))).

(** ** Sample inputs *)

(** Parameters without any base oscillation: zero amplitudes, frequency and
    phases, so that one update maps the state through the coupling and the
    damping only. *)
Definition quiet_parameters (coupling damping : R) : OscillationParameters :=
  {| base_frequency := 0;
     amplitude_w1 := 0;
     amplitude_w2 := 0;
     amplitude_w3 := 0;
     amplitude_w4 := 0;
     phase_w1 := 0;
     phase_w2 := 0;
     phase_w3 := 0;
     phase_w4 := 0;
     damping_factor := damping;
     coupling_strength := coupling |}.

(** Parameters whose base oscillations stay at their amplitude 1: zero
    frequency, every phase at a quarter turn, no coupling, no damping. *)
Definition level_parameters : OscillationParameters :=
  {| base_frequency := 0;
     amplitude_w1 := 1;
     amplitude_w2 := 1;
     amplitude_w3 := 1;
     amplitude_w4 := 1;
     phase_w1 := PI / 2;
     phase_w2 := PI / 2;
     phase_w3 := PI / 2;
     phase_w4 := PI / 2;
     damping_factor := 1;
     coupling_strength := 0 |}.

(** Generators that always hand back the same variate. *)
Definition constant_draws (v : R) : nat -> R := fun _ => v.

(** A simulation made at time 0, three oscillators created with explicit
    parameters, then started. *)
Definition three_started : ParticleOscillationSimulation :=
  let s := new_simulation 0 in
  let s := snd (create_oscillator 0 (constant_draws 0) s "a"
                  (Some (quiet_parameters 1 1))) in
  let s := snd (create_oscillator 0 (constant_draws 0) s "b"
                  (Some (quiet_parameters 0 1))) in
  let s := snd (create_oscillator 0 (constant_draws 0) s "c"
                  (Some (quiet_parameters 0 1))) in
  start_simulation s.

(** The entry [get_history_data] makes of a stored sample. *)
Definition entry_of (sample : R * FourDimensionalState) : HistoryEntry :=
  {| entry_time := fst sample;
     entry_state := snd sample;
     entry_magnitude := sqrt (sum_squares (snd sample)) |}.

(** [three_started] with the environmental noise raised to 0.1, the most
    [update_simulation_config] lets through. *)
Definition noisy_started : ParticleOscillationSimulation :=
  update_simulation_config None (Some 0.1) None three_started.

(** ** More of the source: the visualization data, the analytics and two
    endpoints of [api_server.py] *)

(** [get_visualization_data] of [oscillation_engine.py]. *)
Record Position : Type := mkPosition {
  position_x : R;
  position_y : R;
  position_z : R
}.

Record ParticleViz : Type := mkParticleViz {
  viz_id : string;
  viz_position : Position;
  viz_mass : R;
  viz_stability : R;
  viz_energy : R;
  viz_coherence : R;
  viz_magnitude : R;
  viz_color_intensity : R
}.

Record VisualizationData : Type := mkVisualization {
  viz_timestamp : R;
  viz_particles : list ParticleViz
}.

(** The loop over [self.oscillators.items()], appending to
    [viz_data['particles']]. *)
Fixpoint collect_particles (items : registry) (particles : list ParticleViz)
    : result (list ParticleViz) :=
  match items with
  | [] => Ok particles
  | (osc_id, oscillator) :: rest =>
      let state := current_state oscillator in
      state_magnitude <- magnitude state ;;
      let particle_viz :=
        {| viz_id := osc_id;
           viz_position := {| position_x := w1_projection state;
                              position_y := w2_energy state;
                              position_z := w3_spin state |};
           viz_mass := w4_mass state;
           viz_stability := stability_factor oscillator;
           viz_energy := energy_total oscillator;
           viz_coherence := phase_coherence oscillator;
           viz_magnitude := state_magnitude;
           viz_color_intensity := Rmin 1.0 (Rabs (w2_energy state) / 2.0) |} in
      collect_particles rest (particles ++ [particle_viz])
  end.

Definition get_visualization_data (self : ParticleOscillationSimulation)
    : result VisualizationData :=
  particles <- collect_particles (oscillators self) [] ;;
  Ok {| viz_timestamp := simulation_time self; viz_particles := particles |}.

(** Comparisons of floats as booleans. *)
Definition Rltb (x y : R) : bool := if Rlt_dec x y then true else false.

Definition Rleb (x y : R) : bool := if Rle_dec x y then true else false.

(** [min(l)] and [max(l)] of a list: [ValueError] on an empty one, otherwise
    the first element, replaced by each later one that is smaller (larger). *)
Definition py_min (l : list R) : result R :=
  match l with
  | [] => Raise ValueError
  | first :: rest => Ok (fold_left (fun m x => if Rltb x m then x else m) rest first)
  end.

Definition py_max (l : list R) : result R :=
  match l with
  | [] => Raise ValueError
  | first :: rest => Ok (fold_left (fun m x => if Rltb m x then x else m) rest first)
  end.

(** [get_system_analytics] of [api_server.py]. *)
Record AxisStatistics : Type := mkAxisStatistics {
  stat_mean : R;
  stat_min : R;
  stat_max : R;
  stat_range : R
}.

Record StabilityDistribution : Type := mkDistribution {
  high_stability : nat;
  medium_stability : nat;
  low_stability : nat
}.

Record Analytics : Type := mkAnalytics {
  system_metrics : GlobalMetrics;
  statistics_w1_projection : AxisStatistics;
  statistics_w2_energy : AxisStatistics;
  statistics_w3_spin : AxisStatistics;
  statistics_w4_mass : AxisStatistics;
  stability_distribution : StabilityDistribution
}.

Inductive AnalyticsAnswer : Type :=
| NoOscillators                 (* the message "No oscillators in simulation" *)
| AnalyticsOf (analytics : Analytics).

(** One of the four statistics dicts, its entries evaluated in the order
    they are written. *)
Definition axis_statistics (values : list R) : result AxisStatistics :=
  mean_value <- float_div (py_sum values) (INR (length values)) ;;
  min_value <- py_min values ;;
  max_value <- py_max values ;;
  range_max <- py_max values ;;
  range_min <- py_min values ;;
  Ok {| stat_mean := mean_value;
        stat_min := min_value;
        stat_max := max_value;
        stat_range := range_max - range_min |}.

Definition get_system_analytics (simulation : ParticleOscillationSimulation)
    : result AnalyticsAnswer :=
  state <- get_simulation_state simulation ;;
  let oscillators := map snd (snap_oscillators state) in
  match oscillators with
  | [] => Ok NoOscillators
  | _ :: _ =>
      let w1_values := map (fun osc => w1_projection (data_state osc)) oscillators in
      let w2_values := map (fun osc => w2_energy (data_state osc)) oscillators in
      let w3_values := map (fun osc => w3_spin (data_state osc)) oscillators in
      let w4_values := map (fun osc => w4_mass (data_state osc)) oscillators in
      statistics_w1 <- axis_statistics w1_values ;;
      statistics_w2 <- axis_statistics w2_values ;;
      statistics_w3 <- axis_statistics w3_values ;;
      statistics_w4 <- axis_statistics w4_values ;;
      Ok (AnalyticsOf
            {| system_metrics := snap_global_metrics state;
               statistics_w1_projection := statistics_w1;
               statistics_w2_energy := statistics_w2;
               statistics_w3_spin := statistics_w3;
               statistics_w4_mass := statistics_w4;
               stability_distribution :=
                 {| high_stability :=
                      length (filter (fun osc => Rltb 0.8 (data_stability_factor osc))
                                     oscillators);
                    medium_stability :=
                      length (filter (fun osc =>
                                        Rleb 0.5 (data_stability_factor osc) &&
                                        Rleb (data_stability_factor osc) 0.8)
                                     oscillators);
                    low_stability :=
                      length (filter (fun osc => Rltb (data_stability_factor osc) 0.5)
                                     oscillators) |} |})
  end.

(** The answer of an endpoint: its JSON body, or the [HTTPException] it
    raises. *)
Inductive http (A : Type) : Type :=
| Response (body : A)
| HTTPException (status_code : Z) (detail : string).

Arguments Response {A} body.
Arguments HTTPException {A} status_code detail.

(** [DELETE /api/oscillators/{particle_id}]: the answer (the id removed) and
    the simulation afterwards. *)
Definition api_remove_oscillator (simulation : ParticleOscillationSimulation)
    (particle_id : string) : http string * ParticleOscillationSimulation :=
  let '(success, simulation) := remove_oscillator simulation particle_id in
  if negb success
  then (HTTPException 404 "Oscillator not found", simulation)
  else (Response particle_id, simulation).

(** [GET /api/oscillators/{particle_id}/history]. *)
Record HistoryAnswer : Type := mkHistoryAnswer {
  answer_particle_id : string;
  answer_history_length : nat;
  answer_history : list HistoryEntry
}.

Definition api_get_oscillator_history (simulation : ParticleOscillationSimulation)
    (particle_id : string) (last_n : Z) : result (http HistoryAnswer) :=
  match dict_get particle_id (oscillators simulation) with
  | None => Ok (HTTPException 404 "Oscillator not found")
  | Some oscillator =>
      history <- get_history_data oscillator last_n ;;
      Ok (Response {| answer_particle_id := particle_id;
                      answer_history_length := length history;
                      answer_history := history |})
  end.

(** ** Notions for the further properties *)

(** What the API layer and the scheduler do to the coordinator. *)
Inductive command : Type :=
| CreateOscillator (now : R) (u : nat -> R) (particle_id : string)
    (params : option OscillationParameters)
| RemoveOscillator (particle_id : string)
| UpdateSimulation (now : R) (z : nat -> R)
| StartSimulation
| StopSimulation
| ResetSimulation
| UpdateConfig (config_global_coupling config_environmental_noise : option R)
    (config_update_rate : option Z).

(** One command, on the coordinator of [oscillation_engine.py] ([engine]
    true) or on that of [backend/server.py]. *)
Definition run_command (engine : bool) (c : command)
    (s : ParticleOscillationSimulation) : result ParticleOscillationSimulation :=
  match c with
  | CreateOscillator now u particle_id params =>
      Ok (snd (create_oscillator now u s particle_id params))
  | RemoveOscillator particle_id => Ok (snd (remove_oscillator s particle_id))
  | UpdateSimulation now z =>
      if engine then Engine.update_simulation now z s
      else Server.update_simulation now z s
  | StartSimulation => Ok (start_simulation s)
  | StopSimulation => Ok (stop_simulation s)
  | ResetSimulation => Ok (reset_simulation s)
  | UpdateConfig g n r => Ok (update_simulation_config g n r s)
  end.

Fixpoint run_commands (engine : bool) (cs : list command)
    (s : ParticleOscillationSimulation) : result ParticleOscillationSimulation :=
  match cs with
  | [] => Ok s
  | c :: rest => s <- run_command engine c s ;; run_commands engine rest s
  end.

(** What holds of every registry entry and of the configuration of a
    simulation that was made by [new_simulation] and then only commanded. *)
Definition entry_ok (entry : string * TetrahedronOscillator) : Prop :=
  particle_id (snd entry) = fst entry /\
  max_history (snd entry) = 1000%nat /\
  (length (state_history (snd entry)) <= 1000)%nat /\
  0 <= stability_factor (snd entry) <= 1 /\
  0 <= phase_coherence (snd entry) <= 1.

Definition config_ok (s : ParticleOscillationSimulation) : Prop :=
  0 <= global_coupling s <= 1 /\
  0 <= environmental_noise s <= 0.1 /\
  (10 <= update_rate s <= 120)%Z /\
  dt s = 1.0 / IZR (update_rate s).

Definition simulation_ok (s : ParticleOscillationSimulation) : Prop :=
  NoDup (map fst (oscillators s)) /\
  Forall entry_ok (oscillators s) /\
  config_ok s /\
  0 <= simulation_time s /\
  (0 <= update_count s)%Z /\
  0 <= current_fps s.

(** The kinetic part of the energy. *)
Definition kinetic_energy (s : FourDimensionalState) : R :=
  0.5 * sum_squares s.

(** [three_started] with the environmental noise switched off. *)
Definition noiseless_started : ParticleOscillationSimulation :=
  update_simulation_config None (Some 0) None three_started.

(** [o1] is [o] with its current state written over, which is all the
    coupling pass does to an oscillator; [o'] is [o] after such a write and
    one update, which is all a running tick does to it. *)
Definition state_written (o o1 : TetrahedronOscillator) : Prop :=
  exists st, o1 = set_current_state o st.

Definition ticked (stability : FourDimensionalState -> R)
    (o o' : TetrahedronOscillator) : Prop :=
  exists st step, o' = updated stability step (set_current_state o st).

(** The sum of the products of neighbouring axes, the last with the first. *)
Definition cyclic_products (s : FourDimensionalState) : R :=
  w1_projection s * w2_energy s + w2_energy s * w3_spin s +
  w3_spin s * w4_mass s + w4_mass s * w1_projection s.

(** [three_started] after one tick of the engine, every normal variate
    being 0: oscillator "a" is left at (0.5, 0, 0.5, 0), the other two at 0. *)
Definition once_ticked : ParticleOscillationSimulation :=
  match Engine.update_simulation 1 (constant_draws 0) three_started with
  | Ok s => s
  | Raise _ => three_started
  end.

(** [once_ticked] with the global coupling switched off. *)
Definition uncoupled_ticked : ParticleOscillationSimulation :=
  update_simulation_config (Some 0) None None once_ticked.

(** What a statistics record says of the values it was computed from. *)
Definition statistics_of (values : list R) (st : AxisStatistics) : Prop :=
  stat_mean st = mean values /\
  In (stat_min st) values /\
  In (stat_max st) values /\
  Forall (fun v => stat_min st <= v <= stat_max st) values /\
  stat_min st <= stat_mean st <= stat_max st /\
  stat_range st = stat_max st - stat_min st /\
  0 <= stat_range st.

(** No call of the list advances by a negative time step. *)
Definition nonnegative_steps (calls : list call) : Prop :=
  Forall (fun c => match c with
                   | Advance dt => 0 <= dt
                   | WriteState _ => True
                   end) calls.

(** * Properties *)

(** ** The fallible primitives *)

Lemma float_div_ok (x y : R) : y <> 0 -> float_div x y = Ok (x / y).
Proof.
  intros Hy. unfold float_div. destruct (Req_dec_T y 0) as [E | _]; [contradiction | reflexivity].
Qed.

Lemma math_sqrt_ok (x : R) : 0 <= x -> math_sqrt x = Ok (sqrt x).
Proof.
  intros Hx. unfold math_sqrt. destruct (Rlt_dec x 0) as [L | _]; [lra | reflexivity].
Qed.

Lemma sum_squares_nonneg (s : FourDimensionalState) : 0 <= sum_squares s.
Proof.
  unfold sum_squares.
  pose proof (pow2_ge_0 (w1_projection s)). pose proof (pow2_ge_0 (w2_energy s)).
  pose proof (pow2_ge_0 (w3_spin s)). pose proof (pow2_ge_0 (w4_mass s)). lra.
Qed.

Lemma magnitude_ok (s : FourDimensionalState) :
  magnitude s = Ok (sqrt (sum_squares s)).
Proof. unfold magnitude. apply math_sqrt_ok, sum_squares_nonneg. Qed.

Lemma py_sum_from (l : list R) (a : R) : fold_left Rplus l a = a + sum_list l.
Proof.
  revert a. induction l as [| x l IH]; intros a; simpl.
  - lra.
  - rewrite IH. lra.
Qed.

Lemma py_sum_sum_list (l : list R) : py_sum l = sum_list l.
Proof. unfold py_sum. rewrite py_sum_from. lra. Qed.

(** ** The snapshot *)

Lemma get_oscillation_data_ok (o : TetrahedronOscillator) :
  exists d, get_oscillation_data o = Ok d /\
            data_stability_factor d = stability_factor o /\
            data_energy_total d = energy_total o.
Proof.
  unfold get_oscillation_data. rewrite magnitude_ok. simpl.
  eexists. split; [reflexivity | split; reflexivity].
Qed.

Lemma collect_state_ok (items : registry) :
  forall acc e s,
  exists data,
    collect_state items acc e s =
      Ok (data,
          e + sum_list (map energy_total (dict_values items)),
          s + sum_list (map stability_factor (dict_values items))).
Proof.
  induction items as [| [k o] items IH]; intros acc e s; simpl.
  - exists acc. do 2 f_equal; [f_equal |]; lra.
  - destruct (get_oscillation_data_ok o) as (d & -> & Hs & He). simpl.
    destruct (IH (acc ++ [(k, d)]) (e + data_energy_total d)
                 (s + data_stability_factor d)) as (data & ->).
    exists data. rewrite Hs, He. do 2 f_equal; [f_equal |]; lra.
Qed.

(** C10.  [get_simulation_state] never raises; on an empty registry it
    reports an average stability of exactly 0, on a non-empty registry the
    arithmetic mean of the stability factors of its oscillators. *)
Theorem average_stability_mean (self : ParticleOscillationSimulation) :
  exists st,
    get_simulation_state self = Ok st /\
    metrics_average_stability (snap_global_metrics st) =
      match oscillators self with
      | [] => 0
      | _ :: _ => mean (map stability_factor (dict_values (oscillators self)))
      end.
Proof.
  unfold get_simulation_state.
  destruct (collect_state_ok (oscillators self) [] 0.0 0.0) as (data & ->).
  simpl.
  destruct (oscillators self) as [| [k o] rest] eqn:E.
  - simpl. eexists. split; [reflexivity |]. simpl. lra.
  - assert (Hlen : INR (length ((k, o) :: rest)) <> 0).
    { apply not_0_INR. simpl. discriminate. }
    change (0 <? length ((k, o) :: rest))%nat with true. cbv iota.
    rewrite (float_div_ok _ _ Hlen). simpl bind.
    eexists. split; [reflexivity |]. cbn [snap_global_metrics metrics_average_stability].
    unfold mean, dict_values. rewrite !length_map.
    f_equal. simpl. lra.
Qed.

(** ** Clamping and the two stability routines *)

Lemma clamp01_clamp (x : R) : clamp01 x = clamp x 0 1.
Proof.
  unfold clamp01, clamp, Rmax, Rmin.
  destruct (Rlt_dec x 0), (Rlt_dec 1 x), (Rle_dec 1.0 x);
    try lra; destruct (Rle_dec 0.0 _); lra.
Qed.

Lemma clamp_bounds (x lo hi : R) : lo <= hi -> lo <= clamp x lo hi <= hi.
Proof.
  intros H. unfold clamp. destruct (Rlt_dec x lo), (Rlt_dec hi x); lra.
Qed.

Lemma magnitude_guard_nonzero (s : FourDimensionalState) :
  sqrt (sum_squares s) + 1e-6 <> 0.
Proof. pose proof (sqrt_pos (sum_squares s)). lra. Qed.

Lemma engine_stability_ok (o : TetrahedronOscillator) :
  Engine._calculate_stability o =
    Ok (set_stability_factor o (guarded_stability_formula (current_state o))).
Proof.
  unfold Engine._calculate_stability. rewrite magnitude_ok. cbn [bind].
  rewrite !(float_div_ok _ _ (magnitude_guard_nonzero _)). cbn [bind].
  do 2 f_equal. rewrite clamp01_clamp. unfold guarded_stability_formula, balance_factor.
  f_equal. lra.
Qed.

Lemma server_stability_ok (o : TetrahedronOscillator) :
  Server._calculate_stability o =
    Ok (set_stability_factor o (stability_formula (current_state o))).
Proof.
  unfold Server._calculate_stability, stability_formula. rewrite magnitude_ok. cbn [bind].
  cbv zeta. destruct (Req_dec_T (sqrt (sum_squares (current_state o))) 0) as [E | N].
  - do 2 f_equal. lra.
  - rewrite !(float_div_ok _ _ N). cbn [bind].
    do 2 f_equal. rewrite clamp01_clamp. unfold balance_factor. f_equal. lra.
Qed.

Lemma sqrt_sum_squares_zero (s : FourDimensionalState) :
  sqrt (sum_squares s) = 0 ->
  w1_projection s = 0 /\ w2_energy s = 0 /\ w3_spin s = 0 /\ w4_mass s = 0.
Proof.
  intros H. apply sqrt_eq_0 in H; [| apply sum_squares_nonneg].
  unfold sum_squares in H.
  pose proof (pow2_ge_0 (w1_projection s)). pose proof (pow2_ge_0 (w2_energy s)).
  pose proof (pow2_ge_0 (w3_spin s)). pose proof (pow2_ge_0 (w4_mass s)).
  repeat split; apply Rsqr_0_uniq; unfold Rsqr; nra.
Qed.

Lemma guarded_stability_zero (s : FourDimensionalState) :
  sqrt (sum_squares s) = 0 -> guarded_stability_formula s = 0.
Proof.
  intros H. destruct (sqrt_sum_squares_zero s H) as (E1 & E2 & E3 & E4).
  unfold guarded_stability_formula. cbv zeta. rewrite H, E1, E2, E3, E4.
  rewrite Rabs_R0. unfold Rdiv. rewrite Rmult_0_l, Rminus_0_r.
  rewrite (Rabs_right 0.25) by lra.
  unfold clamp. repeat destruct (Rlt_dec _ _); lra.
Qed.

(** ** Lists: slices, neighbours *)

Lemma slice_from_neg {A : Type} (n : nat) (l : list A) :
  (0 < n)%nat -> slice_from (- Z.of_nat n) l = lastn n l.
Proof.
  intros Hn. unfold slice_from, lastn.
  destruct (Z.ltb_spec (- Z.of_nat n) 0) as [_ | H]; [| lia].
  f_equal. lia.
Qed.

Lemma lastn_length {A : Type} (n : nat) (l : list A) :
  length (lastn n l) = Nat.min n (length l).
Proof. unfold lastn. rewrite length_skipn. lia. Qed.

Lemma lastn_all {A : Type} (n : nat) (l : list A) :
  (length l <= n)%nat -> lastn n l = l.
Proof.
  intros H. unfold lastn. replace (length l - n)%nat with 0%nat by lia. reflexivity.
Qed.

Lemma lastn_app_long {A : Type} (n : nat) (a b : list A) :
  (n <= length b)%nat -> lastn n (a ++ b) = lastn n b.
Proof.
  intros H. unfold lastn. rewrite length_app, skipn_app.
  replace (length a + length b - n - length a)%nat with (length b - n)%nat by lia.
  rewrite skipn_all2 by lia. reflexivity.
Qed.

Lemma lastn_app_short {A : Type} (n : nat) (a b : list A) :
  (length b <= n)%nat -> lastn n (a ++ b) = lastn (n - length b) a ++ b.
Proof.
  intros H. unfold lastn. rewrite length_app, skipn_app.
  replace (length a + length b - n - length a)%nat with 0%nat by lia.
  simpl. f_equal. f_equal. lia.
Qed.

Lemma lastn_lastn {A : Type} (m n : nat) (l : list A) :
  (m <= n)%nat -> lastn m (lastn n l) = lastn m l.
Proof.
  intros H. unfold lastn. rewrite length_skipn, skipn_skipn. f_equal. lia.
Qed.

Lemma lastn_app_lastn {A : Type} (n : nat) (a b : list A) :
  lastn n (lastn n a ++ b) = lastn n (a ++ b).
Proof.
  destruct (Nat.le_gt_cases n (length b)) as [H | H].
  - rewrite !lastn_app_long by assumption. reflexivity.
  - rewrite !lastn_app_short by lia. rewrite lastn_lastn by lia. reflexivity.
Qed.

Lemma phase_diffs_pair_diffs (l : list (R * FourDimensionalState)) :
  phase_diffs l = pair_diffs l.
Proof.
  unfold pair_diffs. induction l as [| p [| c rest] IH]; try reflexivity.
  change (phase_diffs (p :: c :: rest))
    with (state_diff (snd p) (snd c) :: phase_diffs (c :: rest)).
  rewrite IH. reflexivity.
Qed.

Lemma pair_diffs_length (l : list (R * FourDimensionalState)) :
  length (pair_diffs l) = (length l - 1)%nat.
Proof.
  unfold pair_diffs. rewrite length_map, length_combine.
  destruct l; cbn [length tl]; lia.
Qed.

(** ** One [update_oscillations] *)

Lemma coherence_ok (o : TetrahedronOscillator) :
  _calculate_phase_coherence o =
    Ok (set_phase_coherence o (coherence_formula (state_history o))).
Proof.
  unfold _calculate_phase_coherence, coherence_formula.
  destruct (Nat.ltb_spec (length (state_history o)) 10) as [H | H].
  - do 2 f_equal. lra.
  - cbv zeta. change (-10)%Z with (- Z.of_nat 10)%Z.
    rewrite slice_from_neg by lia. rewrite phase_diffs_pair_diffs.
    assert (Hlen : length (pair_diffs (lastn 10 (state_history o))) = 9%nat).
    { rewrite pair_diffs_length, lastn_length. lia. }
    rewrite float_div_ok by (rewrite Hlen; apply not_0_INR; discriminate).
    cbn [bind]. do 2 f_equal. rewrite clamp01_clamp, py_sum_sum_list.
    unfold mean. f_equal. lra.
Qed.

Lemma energy_keeps_history (dt v : R) (o : TetrahedronOscillator) :
  state_history
    (_calculate_total_energy (set_stability_factor (advance_state dt o) v)) =
  state_history o.
Proof. reflexivity. Qed.

Lemma engine_update_ok (dt : R) (o : TetrahedronOscillator) :
  Engine.update_oscillations dt o = Ok (updated guarded_stability_formula dt o).
Proof.
  unfold Engine.update_oscillations, update_oscillations_with. cbv zeta.
  rewrite engine_stability_ok. cbn [bind]. rewrite coherence_ok. cbn [bind].
  rewrite energy_keeps_history. unfold updated. reflexivity.
Qed.

Lemma server_update_ok (dt : R) (o : TetrahedronOscillator) :
  Server.update_oscillations dt o = Ok (updated stability_formula dt o).
Proof.
  unfold Server.update_oscillations, update_oscillations_with. cbv zeta.
  rewrite server_stability_ok. cbn [bind]. rewrite coherence_ok. cbn [bind].
  rewrite energy_keeps_history. unfold updated. reflexivity.
Qed.

Section Updated.

Variable stability : FourDimensionalState -> R.
Variable dt : R.
Variable o : TetrahedronOscillator.

Lemma store_keeps (x : TetrahedronOscillator) :
  particle_id (_store_state_history x) = particle_id x /\
  params (_store_state_history x) = params x /\
  current_time (_store_state_history x) = current_time x /\
  current_state (_store_state_history x) = current_state x /\
  max_history (_store_state_history x) = max_history x /\
  stability_factor (_store_state_history x) = stability_factor x /\
  energy_total (_store_state_history x) = energy_total x /\
  phase_coherence (_store_state_history x) = phase_coherence x.
Proof.
  unfold _store_state_history. cbv zeta.
  destruct (_ <? _)%nat; repeat split; reflexivity.
Qed.

Lemma store_history (x : TetrahedronOscillator) :
  (0 < max_history x)%nat ->
  state_history (_store_state_history x) =
    lastn (max_history x) (state_history x ++ [(current_time x, current_state x)]).
Proof.
  intros Hcap. unfold _store_state_history. cbv zeta.
  cbn [max_history state_history set_state_history].
  destruct (Nat.ltb_spec (max_history x)
              (length (state_history x ++ [(current_time x, current_state x)]))) as [H | H].
  - cbn [max_history state_history set_state_history].
    apply slice_from_neg. assumption.
  - rewrite lastn_all by assumption. reflexivity.
Qed.

Lemma updated_current_time : current_time (updated stability dt o) = current_time o + dt.
Proof. unfold updated. cbv zeta. rewrite (proj1 (proj2 (proj2 (store_keeps _)))). reflexivity. Qed.

Lemma updated_current_state :
  current_state (updated stability dt o) = current_state (advance_state dt o).
Proof.
  unfold updated. cbv zeta.
  rewrite (proj1 (proj2 (proj2 (proj2 (store_keeps _))))). reflexivity.
Qed.

Lemma updated_params : params (updated stability dt o) = params o.
Proof. unfold updated. cbv zeta. rewrite (proj1 (proj2 (store_keeps _))). reflexivity. Qed.

Lemma updated_particle_id : particle_id (updated stability dt o) = particle_id o.
Proof. unfold updated. cbv zeta. rewrite (proj1 (store_keeps _)). reflexivity. Qed.

Lemma updated_max_history : max_history (updated stability dt o) = max_history o.
Proof.
  unfold updated. cbv zeta.
  rewrite (proj1 (proj2 (proj2 (proj2 (proj2 (store_keeps _)))))). reflexivity.
Qed.

Lemma updated_stability :
  stability_factor (updated stability dt o) =
    stability (current_state (updated stability dt o)).
Proof.
  rewrite updated_current_state. unfold updated. cbv zeta.
  rewrite (proj1 (proj2 (proj2 (proj2 (proj2 (proj2 (store_keeps _))))))). reflexivity.
Qed.

Lemma updated_phase_coherence :
  phase_coherence (updated stability dt o) = coherence_formula (state_history o).
Proof.
  unfold updated. cbv zeta.
  rewrite (proj2 (proj2 (proj2 (proj2 (proj2 (proj2 (proj2 (store_keeps _)))))))).
  reflexivity.
Qed.

Lemma updated_history :
  (0 < max_history o)%nat ->
  state_history (updated stability dt o) =
    lastn (max_history o)
      (state_history o ++
         [(current_time (updated stability dt o), current_state (updated stability dt o))]).
Proof.
  intros Hcap. rewrite updated_current_time, updated_current_state.
  unfold updated. cbv zeta. rewrite store_history by exact Hcap. reflexivity.
Qed.

End Updated.

(** ** The history over the life of an oscillator *)

Section Histories.

Variable stability : FourDimensionalState -> R.
Variable update : R -> TetrahedronOscillator -> result TetrahedronOscillator.
Hypothesis update_ok : forall dt o, update dt o = Ok (updated stability dt o).

Lemma run_calls_history (calls : list call) :
  forall o,
    (0 < max_history o)%nat ->
    (length (state_history o) <= max_history o)%nat ->
    exists log o',
      run_calls update calls o = Ok (log, o') /\
      length log = count_advances calls /\
      max_history o' = max_history o /\
      state_history o' = lastn (max_history o) (state_history o ++ log).
Proof.
  induction calls as [| [dt | s] calls IH]; intros o Hcap Hlen.
  - exists [], o. cbn [run_calls]. repeat split.
    rewrite app_nil_r, lastn_all by assumption. reflexivity.
  - cbn [run_calls]. rewrite update_ok. cbn [bind].
    destruct (IH (updated stability dt o)) as (log & o' & Hrun & Hlog & Hmax & Hhist).
    + rewrite updated_max_history. assumption.
    + rewrite updated_max_history, updated_history by assumption.
      rewrite lastn_length. lia.
    + rewrite Hrun. cbn [bind fst snd].
      eexists _, o'. split; [reflexivity |].
      rewrite updated_max_history in Hmax, Hhist.
      repeat split.
      * unfold count_advances in *. cbn [filter is_advance length]. lia.
      * assumption.
      * rewrite Hhist, updated_history by assumption.
        rewrite lastn_app_lastn, <- app_assoc. reflexivity.
  - cbn [run_calls].
    destruct (IH (set_current_state o s) Hcap Hlen) as (log & o' & Hrun & Hlog & Hmax & Hhist).
    exists log, o'. repeat split; assumption.
Qed.

End Histories.

(** C7.  Whatever the time steps, and whatever is written to the current
    state between the calls, after the calls made on a new oscillator the
    history holds the last 1000 of the samples taken right after each
    [update_oscillations], oldest first; its length is the number of such
    calls capped at 1000. *)
Theorem history_is_last_1000_samples (now : R) (id : string)
    (p : OscillationParameters) (calls : list call) :
  exists log o,
    run_calls Engine.update_oscillations calls (new_oscillator now id p) = Ok (log, o) /\
    length log = count_advances calls /\
    length (state_history o) = Nat.min (count_advances calls) 1000 /\
    state_history o = lastn 1000 log.
Proof.
  destruct (run_calls_history guarded_stability_formula Engine.update_oscillations
              engine_update_ok calls (new_oscillator now id p))
    as (log & o & Hrun & Hlog & _ & Hhist).
  - cbn. lia.
  - cbn. lia.
  - exists log, o. cbn [max_history state_history new_oscillator app] in Hhist.
    repeat split; try assumption.
    rewrite Hhist, lastn_length. lia.
Qed.

(** ** Phase coherence *)

Lemma mean_nonneg (l : list R) : Forall (fun x => 0 <= x) l -> 0 <= mean l.
Proof.
  intros H. unfold mean.
  assert (Hs : 0 <= sum_list l).
  { induction H as [| x l Hx _ IH]; simpl; lra. }
  destruct l as [| x l].
  - simpl. lra.
  - apply Rmult_le_pos; [assumption |].
    apply Rlt_le, Rinv_0_lt_compat, lt_0_INR. simpl. lia.
Qed.

Lemma coherence_formula_bounds (h : list (R * FourDimensionalState)) :
  0 <= coherence_formula h <= 1.
Proof.
  unfold coherence_formula. destruct (_ <? _)%nat; [lra |].
  apply clamp_bounds. lra.
Qed.

(** C6, as the code has it.  The coherence left by an [update_oscillations]
    is the formula over the history as it stood before the call: the sample
    of the call itself, which the call appends last, is not among the ten
    entries read.  It lies in [0, 1]. *)
Theorem phase_coherence_reads_earlier_history (now : R) (id : string)
    (p : OscillationParameters) (calls : list call) (dt : R) :
  exists log o o',
    run_calls Engine.update_oscillations calls (new_oscillator now id p) = Ok (log, o) /\
    Engine.update_oscillations dt o = Ok o' /\
    phase_coherence o' = coherence_formula (state_history o) /\
    state_history o = lastn 1000 log /\
    state_history o' = lastn 1000 (log ++ [(current_time o', current_state o')]) /\
    0 <= phase_coherence o' <= 1.
Proof.
  destruct (run_calls_history guarded_stability_formula Engine.update_oscillations
              engine_update_ok calls (new_oscillator now id p))
    as (log & o & Hrun & Hlog & Hmax & Hhist); [cbn; lia | cbn; lia |].
  cbn [max_history state_history new_oscillator app] in Hmax, Hhist.
  exists log, o, (updated guarded_stability_formula dt o).
  split; [assumption |]. split; [apply engine_update_ok |].
  rewrite updated_phase_coherence.
  split; [reflexivity |]. split; [assumption |].
  split; [| apply coherence_formula_bounds].
  rewrite updated_history by (rewrite Hmax; lia).
  rewrite Hmax, Hhist. apply lastn_app_lastn.
Qed.

Lemma state_diff_nonneg (a b : FourDimensionalState) : 0 <= state_diff a b.
Proof.
  unfold state_diff.
  pose proof (Rabs_pos (w1_projection b - w1_projection a)).
  pose proof (Rabs_pos (w2_energy b - w2_energy a)).
  pose proof (Rabs_pos (w3_spin b - w3_spin a)).
  pose proof (Rabs_pos (w4_mass b - w4_mass a)). lra.
Qed.

Lemma pair_diffs_nonneg (l : list (R * FourDimensionalState)) :
  Forall (fun x => 0 <= x) (pair_diffs l).
Proof.
  unfold pair_diffs. apply Forall_forall. intros x Hx.
  apply in_map_iff in Hx. destruct Hx as (pc & <- & _). apply state_diff_nonneg.
Qed.

Lemma sum_list_nonneg (l : list R) : Forall (fun x => 0 <= x) l -> 0 <= sum_list l.
Proof. intros H. induction H as [| x l Hx _ IH]; simpl; lra. Qed.

Lemma coherence_formula_below_1 (e1 e2 : R * FourDimensionalState)
    (rest : list (R * FourDimensionalState)) :
  length rest = 8%nat ->
  0 < state_diff (snd e1) (snd e2) ->
  coherence_formula (e1 :: e2 :: rest) < 1.
Proof.
  intros Hlen Hpos. unfold coherence_formula.
  cbn [length]. rewrite Hlen. cbn [Nat.ltb Nat.leb].
  rewrite lastn_all by (cbn [length]; lia).
  assert (Hmean : 0 < mean (pair_diffs (e1 :: e2 :: rest))).
  { unfold mean. rewrite pair_diffs_length. cbn [length]. rewrite Hlen.
    apply Rmult_lt_0_compat.
    - change (pair_diffs (e1 :: e2 :: rest))
        with (state_diff (snd e1) (snd e2) :: pair_diffs (e2 :: rest)).
      cbn [sum_list fold_right].
      pose proof (sum_list_nonneg _ (pair_diffs_nonneg (e2 :: rest))) as Hs.
      unfold sum_list in Hs. lra.
    - apply Rinv_0_lt_compat, lt_0_INR. lia. }
  unfold clamp. repeat destruct (Rlt_dec _ _); lra.
Qed.

Section FirstSamples.

Variable stability : FourDimensionalState -> R.
Variable update : R -> TetrahedronOscillator -> result TetrahedronOscillator.
Hypothesis update_ok : forall dt o, update dt o = Ok (updated stability dt o).

Lemma run_calls_first_two (a b : R) (calls : list call)
    (o o' : TetrahedronOscillator) (log : list (R * FourDimensionalState)) :
  run_calls update (Advance a :: Advance b :: calls) o = Ok (log, o') ->
  exists rest,
    log = (current_time (updated stability a o),
           current_state (advance_state a o))
          :: (current_time (updated stability b (updated stability a o)),
              current_state (advance_state b (updated stability a o)))
          :: rest.
Proof.
  cbn [run_calls]. rewrite !update_ok. cbn [bind]. rewrite !update_ok. cbn [bind].
  destruct (run_calls update calls _) as [[log' o''] | e]; cbn [bind fst snd]; [| discriminate].
  intros H. injection H as <- _. rewrite !updated_current_state. eexists. reflexivity.
Qed.

End FirstSamples.

Lemma advance_state_w1 (dt : R) (o : TetrahedronOscillator) :
  w1_projection (current_state (advance_state dt o)) =
    (amplitude_w1 (params o) *
       sin (2 * PI * base_frequency (params o) * (current_time o + dt) +
            phase_w1 (params o)) +
     coupling_strength (params o) *
       (w2_energy (current_state o) * 0.3 + w4_mass (current_state o) * 0.2)) *
    damping_factor (params o).
Proof. reflexivity. Qed.

Lemma advance_state_w2 (dt : R) (o : TetrahedronOscillator) :
  w2_energy (current_state (advance_state dt o)) =
    (amplitude_w2 (params o) *
       sin (2 * PI * base_frequency (params o) * 1.2 * (current_time o + dt) +
            phase_w2 (params o)) +
     coupling_strength (params o) *
       (w3_spin (current_state o) * 0.4 + w1_projection (current_state o) * 0.1)) *
    damping_factor (params o).
Proof. reflexivity. Qed.

Lemma advance_state_w3 (dt : R) (o : TetrahedronOscillator) :
  w3_spin (current_state (advance_state dt o)) =
    (amplitude_w3 (params o) *
       sin (2 * PI * base_frequency (params o) * 0.8 * (current_time o + dt) +
            phase_w3 (params o)) +
     coupling_strength (params o) * (w2_energy (current_state o) * 0.5) +
     0.3 * sin (6 * PI * base_frequency (params o) * (current_time o + dt))) *
    damping_factor (params o).
Proof. reflexivity. Qed.

Lemma advance_state_w4 (dt : R) (o : TetrahedronOscillator) :
  w4_mass (current_state (advance_state dt o)) =
    (amplitude_w4 (params o) *
       sin (2 * PI * base_frequency (params o) * 1.1 * (current_time o + dt) +
            phase_w4 (params o)) +
     coupling_strength (params o) * (w1_projection (current_state o) * 0.15)) *
    damping_factor (params o).
Proof. reflexivity. Qed.

Lemma new_oscillator_params (now : R) (id : string) (p : OscillationParameters) :
  params (new_oscillator now id p) = p.
Proof. reflexivity. Qed.

Lemma new_oscillator_state (now : R) (id : string) (p : OscillationParameters) :
  current_state (new_oscillator now id p) =
    {| w1_projection := 0.0; w2_energy := 1.0; w3_spin := 0.0; w4_mass := 1.0 |}.
Proof. reflexivity. Qed.

Lemma quiet_first_w1 (now : R) (id : string) (dt : R) :
  w1_projection (current_state
    (advance_state dt (new_oscillator now id (quiet_parameters 1 1)))) = 0.5.
Proof.
  rewrite advance_state_w1, new_oscillator_params, new_oscillator_state.
  cbn [quiet_parameters amplitude_w1 coupling_strength damping_factor
       w2_energy w4_mass]. lra.
Qed.

Lemma quiet_second_w1 (now : R) (id : string) (dt dt' : R) :
  w1_projection (current_state
    (advance_state dt'
       (updated guarded_stability_formula dt
          (new_oscillator now id (quiet_parameters 1 1))))) = 0.
Proof.
  rewrite advance_state_w1, updated_params, updated_current_state.
  rewrite advance_state_w2, advance_state_w4.
  rewrite new_oscillator_params, new_oscillator_state.
  cbn [quiet_parameters amplitude_w1 amplitude_w2 amplitude_w4 coupling_strength
       damping_factor w1_projection w3_spin]. lra.
Qed.

(** C6, the claim as it is worded.  Ten updates of a new oscillator whose
    state moves between the first two: the history then holds ten entries
    that are not all equal, so the formula over it is below 1, while the
    coherence left by the tenth update is the value 1 the code gives to a
    history of nine. *)
Lemma phase_coherence_ignores_new_sample :
  exists log o o',
    run_calls Engine.update_oscillations (repeat (Advance 0.016) 9)
      (new_oscillator 0 "p" (quiet_parameters 1 1)) = Ok (log, o) /\
    Engine.update_oscillations 0.016 o = Ok o' /\
    (10 <= length (state_history o'))%nat /\
    phase_coherence o' = 1 /\
    coherence_formula (state_history o') < 1.
Proof.
  destruct (run_calls_history guarded_stability_formula Engine.update_oscillations
              engine_update_ok (repeat (Advance 0.016) 9)
              (new_oscillator 0 "p" (quiet_parameters 1 1)))
    as (log & o & Hrun & Hlog & Hmax & Hhist); [cbn; lia | cbn; lia |].
  cbn [max_history state_history new_oscillator app] in Hmax, Hhist.
  change (count_advances (repeat (Advance 0.016) 9)) with 9%nat in Hlog.
  rewrite lastn_all in Hhist by lia.
  exists log, o, (updated guarded_stability_formula 0.016 o).
  split; [assumption |]. split; [apply engine_update_ok |].
  rewrite updated_phase_coherence, updated_history by (rewrite Hmax; lia).
  rewrite Hmax, Hhist.
  rewrite lastn_all by (rewrite length_app; cbn [length]; lia).
  split; [rewrite length_app; cbn [length]; lia |].
  split.
  - unfold coherence_formula. rewrite Hlog. reflexivity.
  - change (repeat (Advance 0.016) 9)
      with (Advance 0.016 :: Advance 0.016 :: repeat (Advance 0.016) 7) in Hrun.
    destruct (run_calls_first_two guarded_stability_formula Engine.update_oscillations
                engine_update_ok _ _ _ _ _ _ Hrun) as (rest & Hl).
    rewrite Hl in Hlog |- *. cbn [length] in Hlog. cbn [app].
    apply coherence_formula_below_1.
    + rewrite length_app. cbn [length]. lia.
    + cbn [snd]. unfold state_diff.
      rewrite quiet_first_w1, quiet_second_w1.
      pose proof (Rabs_pos (w2_energy (current_state (advance_state 0.016
        (updated guarded_stability_formula 0.016
           (new_oscillator 0 "p" (quiet_parameters 1 1))))) -
        w2_energy (current_state (advance_state 0.016
           (new_oscillator 0 "p" (quiet_parameters 1 1)))))) as H2.
      match goal with |- 0 < Rabs ?a + Rabs ?b + Rabs ?c + Rabs ?d =>
        pose proof (Rabs_pos b); pose proof (Rabs_pos c); pose proof (Rabs_pos d);
        assert (Rabs a = 0.5) by (rewrite Rabs_left; lra)
      end.
      lra.
Qed.

(** ** The global coupling pass *)

Lemma couple_w2 (g : R) (a b : TetrahedronOscillator) :
  w2_of (fst (Engine.couple g a b)) + w2_of (snd (Engine.couple g a b)) =
  w2_of a + w2_of b.
Proof.
  unfold Engine.couple. cbv zeta. unfold w2_of.
  cbn [fst snd current_state set_current_state w2_energy]. lra.
Qed.

Lemma couple_w3 (g : R) (a b : TetrahedronOscillator) :
  w3_of (fst (Engine.couple g a b)) + w3_of (snd (Engine.couple g a b)) =
  w3_of a + w3_of b.
Proof.
  unfold Engine.couple. cbv zeta. unfold w3_of.
  cbn [fst snd current_state set_current_state w3_spin]. lra.
Qed.

Lemma couple_inner_eq (g : R) (o1 o2 : TetrahedronOscillator)
    (rest : list TetrahedronOscillator) :
  Engine.couple_inner g o1 (o2 :: rest) =
    (fst (Engine.couple_inner g (fst (Engine.couple g o1 o2)) rest),
     snd (Engine.couple g o1 o2)
       :: snd (Engine.couple_inner g (fst (Engine.couple g o1 o2)) rest)).
Proof.
  cbn [Engine.couple_inner].
  destruct (Engine.couple g o1 o2) as [a b]. cbn [fst snd].
  destruct (Engine.couple_inner g a rest) as [c d]. reflexivity.
Qed.

Lemma couple_outer_eq (g : R) (fuel : nat) (o1 : TetrahedronOscillator)
    (later : list TetrahedronOscillator) :
  Engine.couple_outer g (S fuel) (o1 :: later) =
    fst (Engine.couple_inner g o1 later)
      :: Engine.couple_outer g fuel (snd (Engine.couple_inner g o1 later)).
Proof.
  cbn [Engine.couple_outer].
  destruct (Engine.couple_inner g o1 later) as [a b]. reflexivity.
Qed.

Lemma couple_inner_length (g : R) (later : list TetrahedronOscillator) :
  forall o1, length (snd (Engine.couple_inner g o1 later)) = length later.
Proof.
  induction later as [| o2 rest IH]; intros o1.
  - reflexivity.
  - rewrite couple_inner_eq. cbn [snd length]. rewrite IH. reflexivity.
Qed.

Lemma couple_outer_length (g : R) (fuel : nat) :
  forall l, length (Engine.couple_outer g fuel l) = length l.
Proof.
  induction fuel as [| fuel IH]; intros [| o1 later]; try reflexivity.
  rewrite couple_outer_eq. cbn [length]. rewrite IH, couple_inner_length. reflexivity.
Qed.

Section Conserved.

(** Any quantity that each exchange leaves constant over its pair is left
    constant over the whole list by the loops. *)
Variable g : R.
Variable q : TetrahedronOscillator -> R.
Hypothesis q_couple : forall a b,
  q (fst (Engine.couple g a b)) + q (snd (Engine.couple g a b)) = q a + q b.

Lemma couple_inner_conserves (later : list TetrahedronOscillator) :
  forall o1,
    q (fst (Engine.couple_inner g o1 later)) +
    sum_list (map q (snd (Engine.couple_inner g o1 later))) =
    q o1 + sum_list (map q later).
Proof.
  induction later as [| o2 rest IH]; intros o1.
  - reflexivity.
  - rewrite couple_inner_eq. cbn [fst snd map sum_list fold_right].
    pose proof (IH (fst (Engine.couple g o1 o2))) as H.
    pose proof (q_couple o1 o2) as H'. unfold sum_list in *. lra.
Qed.

Lemma couple_outer_conserves (fuel : nat) :
  forall l,
    sum_list (map q (Engine.couple_outer g fuel l)) = sum_list (map q l).
Proof.
  induction fuel as [| fuel IH]; intros [| o1 later]; try reflexivity.
  rewrite couple_outer_eq. cbn [map sum_list fold_right].
  pose proof (IH (snd (Engine.couple_inner g o1 later))) as H.
  pose proof (couple_inner_conserves later o1) as H'. unfold sum_list in *. lra.
Qed.

End Conserved.

(** The registry seen through [dict_values] and [dict_rebind]. *)

Lemma dict_rebind_keys (d : registry) (vs : list TetrahedronOscillator) :
  length vs = length d -> map fst (dict_rebind d vs) = map fst d.
Proof.
  unfold dict_rebind. revert vs.
  induction d as [| [k v] d IH]; intros [| x vs] H; try discriminate; try reflexivity.
  cbn [map fst combine]. f_equal. apply IH. cbn [length] in H. lia.
Qed.

Lemma dict_rebind_values (d : registry) (vs : list TetrahedronOscillator) :
  length vs = length d -> dict_values (dict_rebind d vs) = vs.
Proof.
  unfold dict_rebind, dict_values. revert vs.
  induction d as [| [k v] d IH]; intros [| x vs] H; try discriminate; try reflexivity.
  cbn [map fst snd combine]. f_equal. apply IH. cbn [length] in H. lia.
Qed.

Lemma dict_rebind_same (d : registry) : dict_rebind d (dict_values d) = d.
Proof.
  unfold dict_rebind, dict_values.
  induction d as [| [k v] d IH]; [reflexivity |].
  cbn [map fst snd combine]. rewrite IH. reflexivity.
Qed.

Lemma dict_rebind_length (d : registry) (vs : list TetrahedronOscillator) :
  length vs = length d -> length (dict_rebind d vs) = length d.
Proof.
  intros H. unfold dict_rebind. rewrite length_combine, length_map. lia.
Qed.

Lemma dict_values_length (d : registry) : length (dict_values d) = length d.
Proof. unfold dict_values. apply length_map. Qed.

Lemma apply_global_coupling_oscillators (s : ParticleOscillationSimulation) :
  oscillators (Engine._apply_global_coupling s) =
    dict_rebind (oscillators s)
      (Engine.couple_outer (global_coupling s) (length (oscillators s))
         (dict_values (oscillators s))).
Proof.
  unfold Engine._apply_global_coupling.
  destruct (Nat.ltb_spec (length (oscillators s)) 2) as [H | H].
  - destruct (oscillators s) as [| [k1 o1] [| [k2 o2] rest]] eqn:E.
    + reflexivity.
    + reflexivity.
    + cbn [length] in H. lia.
  - cbv zeta. cbn [oscillators set_oscillators]. rewrite dict_values_length. reflexivity.
Qed.

(** The two loops against the fold over the unordered pairs. *)

Lemma nth_error_middle {A : Type} (pre post : list A) (x : A) :
  nth_error (pre ++ x :: post) (length pre) = Some x.
Proof.
  rewrite nth_error_app2 by lia. rewrite Nat.sub_diag. reflexivity.
Qed.

Lemma list_set_middle {A : Type} (pre post : list A) (x y : A) :
  list_set (length pre) y (pre ++ x :: post) = pre ++ y :: post.
Proof.
  induction pre as [| z pre IH]; [reflexivity |].
  cbn [length app list_set]. rewrite IH. reflexivity.
Qed.

Lemma exchange_at_middle (g : R) (pre done rest : list TetrahedronOscillator)
    (o1 o2 : TetrahedronOscillator) :
  exchange_at g (length pre) (S (length pre) + length done)
    (pre ++ o1 :: done ++ o2 :: rest) =
  pre ++ fst (Engine.couple g o1 o2) :: done ++ snd (Engine.couple g o1 o2) :: rest.
Proof.
  unfold exchange_at. rewrite nth_error_middle.
  replace (S (length pre) + length done)%nat with (length (pre ++ o1 :: done))
    by (rewrite length_app; cbn [length]; lia).
  replace (pre ++ o1 :: done ++ o2 :: rest) with ((pre ++ o1 :: done) ++ o2 :: rest)
    by (rewrite <- app_assoc; reflexivity).
  rewrite nth_error_middle.
  destruct (Engine.couple g o1 o2) as [a b]. cbn [fst snd].
  rewrite <- app_assoc. cbn [app]. rewrite list_set_middle.
  replace (pre ++ a :: done ++ o2 :: rest) with ((pre ++ a :: done) ++ o2 :: rest)
    by (rewrite <- app_assoc; reflexivity).
  replace (length (pre ++ o1 :: done)) with (length (pre ++ a :: done))
    by (rewrite !length_app; reflexivity).
  rewrite list_set_middle, <- app_assoc. reflexivity.
Qed.

Lemma couple_inner_fold (g : R) (later : list TetrahedronOscillator) :
  forall (o1 : TetrahedronOscillator) (pre done : list TetrahedronOscillator),
    fold_left (fun l ij => exchange_at g (fst ij) (snd ij) l)
      (map (pair (length pre)) (seq (S (length pre) + length done) (length later)))
      (pre ++ o1 :: done ++ later) =
    pre ++ fst (Engine.couple_inner g o1 later)
        :: done ++ snd (Engine.couple_inner g o1 later).
Proof.
  induction later as [| o2 rest IH]; intros o1 pre done.
  - reflexivity.
  - cbn [length seq map fold_left fst snd].
    rewrite exchange_at_middle, couple_inner_eq. cbn [fst snd].
    specialize (IH (fst (Engine.couple g o1 o2)) pre
                   (done ++ [snd (Engine.couple g o1 o2)])).
    rewrite length_app in IH. cbn [length] in IH.
    replace (S (length pre) + (length done + 1))%nat
      with (S (S (length pre) + length done)) in IH by lia.
    rewrite <- !app_assoc in IH. cbn [app] in IH. exact IH.
Qed.

Lemma couple_outer_fold (g : R) (total fuel : nat) :
  forall (l pre : list TetrahedronOscillator),
    length l = fuel ->
    total = (length pre + length l)%nat ->
    fold_left (fun l ij => exchange_at g (fst ij) (snd ij) l)
      (flat_map (fun i => map (pair i) (seq (S i) (total - S i)))
         (seq (length pre) fuel))
      (pre ++ l) =
    pre ++ Engine.couple_outer g fuel l.
Proof.
  induction fuel as [| fuel IH]; intros l pre Hl Ht.
  - destruct l; [reflexivity | discriminate].
  - destruct l as [| o1 later]; [discriminate |].
    cbn [length] in Hl, Ht.
    cbn [seq flat_map]. rewrite fold_left_app.
    replace (total - S (length pre))%nat with (length later) by lia.
    pose proof (couple_inner_fold g later o1 pre []) as Hin.
    cbn [length app] in Hin. rewrite Nat.add_0_r in Hin. rewrite Hin.
    rewrite couple_outer_eq.
    specialize (IH (snd (Engine.couple_inner g o1 later))
                   (pre ++ [fst (Engine.couple_inner g o1 later)])).
    rewrite length_app, couple_inner_length in IH. cbn [length] in IH.
    replace (length pre + 1)%nat with (S (length pre)) in IH by lia.
    rewrite <- !app_assoc in IH. cbn [app] in IH.
    apply IH; lia.
Qed.

Lemma couple_outer_coupling_pass (g : R) (l : list TetrahedronOscillator) :
  Engine.couple_outer g (length l) l = coupling_pass g l.
Proof.
  unfold coupling_pass, unordered_pairs.
  pose proof (couple_outer_fold g (length l) (length l) l [] eq_refl eq_refl) as H.
  cbn [length app] in H. symmetry. exact H.
Qed.

(** C3, as the code has it.  Each exchange of the pass leaves the sums of
    [w2_energy] and of [w3_spin] over its own two oscillators as they were;
    hence the pass keeps the keys of the registry and the totals of
    [w2_energy] and of [w3_spin] over all of its oscillators, and in a
    registry of exactly two oscillators the sums over the pair.  The pass is
    the fold of the exchange over the unordered pairs of positions. *)
Theorem coupling_pass_conserves_totals (s : ParticleOscillationSimulation)
    (g : R) (a b : TetrahedronOscillator) :
  (w2_of (fst (Engine.couple g a b)) + w2_of (snd (Engine.couple g a b)) =
     w2_of a + w2_of b /\
   w3_of (fst (Engine.couple g a b)) + w3_of (snd (Engine.couple g a b)) =
     w3_of a + w3_of b) /\
  dict_values (oscillators (Engine._apply_global_coupling s)) =
    coupling_pass (global_coupling s) (dict_values (oscillators s)) /\
  map fst (oscillators (Engine._apply_global_coupling s)) = map fst (oscillators s) /\
  sum_list (map w2_of (dict_values (oscillators (Engine._apply_global_coupling s)))) =
    sum_list (map w2_of (dict_values (oscillators s))) /\
  sum_list (map w3_of (dict_values (oscillators (Engine._apply_global_coupling s)))) =
    sum_list (map w3_of (dict_values (oscillators s))) /\
  match oscillators s with
  | [(k1, o1); (k2, o2)] =>
      exists o1' o2',
        oscillators (Engine._apply_global_coupling s) = [(k1, o1'); (k2, o2')] /\
        w2_of o1' + w2_of o2' = w2_of o1 + w2_of o2 /\
        w3_of o1' + w3_of o2' = w3_of o1 + w3_of o2
  | _ => True
  end.
Proof.
  split; [split; [apply couple_w2 | apply couple_w3] |].
  rewrite apply_global_coupling_oscillators.
  assert (Hlen : length (Engine.couple_outer (global_coupling s)
                           (length (oscillators s)) (dict_values (oscillators s))) =
                 length (oscillators s)).
  { rewrite couple_outer_length. apply dict_values_length. }
  rewrite dict_rebind_values, dict_rebind_keys by exact Hlen.
  split.
  { rewrite <- (dict_values_length (oscillators s)). apply couple_outer_coupling_pass. }
  split; [reflexivity |].
  split; [apply couple_outer_conserves, couple_w2 |].
  split; [apply couple_outer_conserves, couple_w3 |].
  destruct (oscillators s) as [| [k1 o1] [| [k2 o2] [| e rest]]]; try exact I.
  cbn [dict_values map snd length].
  rewrite couple_outer_eq, couple_inner_eq.
  cbn [Engine.couple_inner fst snd].
  exists (fst (Engine.couple (global_coupling s) o1 o2)),
         (snd (Engine.couple (global_coupling s) o1 o2)).
  split; [reflexivity |].
  split; [apply couple_w2 | apply couple_w3].
Qed.

(** ** One tick *)

Lemma update_each_sequence
    (update : R -> TetrahedronOscillator -> result TetrahedronOscillator)
    (step noise : R) (z : nat -> R) (values : list TetrahedronOscillator) :
  forall k,
    update_each update step noise z k values =
    sequence (map (fun ko => update (step * gaussian 1 noise (z (fst ko))) (snd ko))
                  (combine (seq k (length values)) values)).
Proof.
  induction values as [| o rest IH]; intros k.
  - reflexivity.
  - cbn [update_each length seq combine map sequence fst snd].
    rewrite IH.
    replace (step * (1.0 + np_random_normal 0 noise (z k)))
      with (step * gaussian 1 noise (z k))
      by (unfold np_random_normal, gaussian; lra).
    reflexivity.
Qed.

Lemma sequence_updated (stability : FourDimensionalState -> R)
    (update : R -> TetrahedronOscillator -> result TetrahedronOscillator)
    (steps : nat -> R) :
  (forall dt o, update dt o = Ok (updated stability dt o)) ->
  forall l : list (nat * TetrahedronOscillator),
    sequence (map (fun ko => update (steps (fst ko)) (snd ko)) l) =
    Ok (map (fun ko => updated stability (steps (fst ko)) (snd ko)) l).
Proof.
  intros Hupd l. induction l as [| ko l IH]; [reflexivity |].
  cbn [map sequence]. rewrite Hupd, IH. reflexivity.
Qed.

Lemma set_oscillators_same (s : ParticleOscillationSimulation) :
  set_oscillators s (oscillators s) = s.
Proof. destruct s. reflexivity. Qed.

Lemma apply_global_coupling_eq (s : ParticleOscillationSimulation) :
  Engine._apply_global_coupling s =
    set_oscillators s
      (dict_rebind (oscillators s)
         (coupling_pass (global_coupling s) (dict_values (oscillators s)))).
Proof.
  rewrite <- couple_outer_coupling_pass, dict_values_length.
  rewrite <- apply_global_coupling_oscillators.
  unfold Engine._apply_global_coupling.
  destruct (length (oscillators s) <? 2)%nat.
  - symmetry. apply set_oscillators_same.
  - reflexivity.
Qed.

Lemma coupling_pass_length (g : R) (l : list TetrahedronOscillator) :
  length (coupling_pass g l) = length l.
Proof. rewrite <- couple_outer_coupling_pass. apply couple_outer_length. Qed.

Lemma dict_rebind_rebind (d : registry) (vs ws : list TetrahedronOscillator) :
  length vs = length d -> dict_rebind (dict_rebind d vs) ws = dict_rebind d ws.
Proof.
  intros H. unfold dict_rebind at 1. fold (dict_rebind d vs).
  rewrite dict_rebind_keys by exact H. reflexivity.
Qed.

Lemma engine_tick_steps (now : R) (z : nat -> R) (s : ParticleOscillationSimulation) :
  Engine.update_simulation now z s = tick_steps true Engine.update_oscillations now z s.
Proof.
  unfold Engine.update_simulation, tick_steps.
  destruct (is_running s); cbn [negb]; [| reflexivity].
  cbv zeta. rewrite apply_global_coupling_eq.
  cbn [oscillators set_oscillators set_simulation_time dt environmental_noise
       global_coupling].
  rewrite dict_rebind_values
    by (rewrite coupling_pass_length; apply dict_values_length).
  rewrite update_each_sequence.
  destruct (sequence _) as [vs | e]; cbn [bind]; [| reflexivity].
  rewrite dict_rebind_rebind
    by (rewrite coupling_pass_length; apply dict_values_length).
  reflexivity.
Qed.

Lemma server_tick_steps (now : R) (z : nat -> R) (s : ParticleOscillationSimulation) :
  Server.update_simulation now z s = tick_steps false Server.update_oscillations now z s.
Proof.
  unfold Server.update_simulation, tick_steps.
  destruct (is_running s); cbn [negb]; [| reflexivity].
  cbv zeta.
  cbn [oscillators set_oscillators set_simulation_time dt environmental_noise].
  rewrite update_each_sequence. reflexivity.
Qed.

Lemma performance_metrics_ok (now : R) (s : ParticleOscillationSimulation) :
  exists s',
    _update_performance_metrics now s = Ok s' /\
    oscillators s' = oscillators s /\
    simulation_time s' = simulation_time s /\
    is_running s' = is_running s /\
    dt s' = dt s /\
    global_coupling s' = global_coupling s /\
    environmental_noise s' = environmental_noise s.
Proof.
  unfold _update_performance_metrics. cbv zeta.
  cbn [last_fps_time set_update_count].
  destruct (Rle_dec 1.0 (now - last_fps_time s)) as [H | H].
  - rewrite float_div_ok by lra. cbn [bind].
    eexists. split; [reflexivity |]. repeat split.
  - eexists. split; [reflexivity |]. repeat split.
Qed.

Section TickSteps.

Variable stability : FourDimensionalState -> R.
Variable update : R -> TetrahedronOscillator -> result TetrahedronOscillator.
Hypothesis update_ok : forall dt o, update dt o = Ok (updated stability dt o).

(** The oscillators a running tick leaves, from those it starts on. *)
Lemma tick_steps_running (with_coupling : bool) (now : R) (z : nat -> R)
    (s : ParticleOscillationSimulation) :
  is_running s = true ->
  exists s',
    tick_steps with_coupling update now z s = Ok s' /\
    oscillators s' =
      dict_rebind (oscillators s)
        (map (fun ko => updated stability
                          (dt s * gaussian 1 (environmental_noise s) (z (fst ko)))
                          (snd ko))
             (combine
                (seq 0 (length (oscillators s)))
                (if with_coupling
                 then coupling_pass (global_coupling s) (dict_values (oscillators s))
                 else dict_values (oscillators s)))) /\
    simulation_time s' = simulation_time s + dt s /\
    is_running s' = true /\
    dt s' = dt s /\
    global_coupling s' = global_coupling s /\
    environmental_noise s' = environmental_noise s.
Proof.
  intros Hrun. unfold tick_steps. rewrite Hrun. cbv zeta.
  rewrite (sequence_updated stability update
             (fun k => dt s * gaussian 1 (environmental_noise s) (z k)) update_ok).
  cbn [bind].
  destruct (performance_metrics_ok now
    (set_oscillators (set_simulation_time s (simulation_time s + dt s))
       (dict_rebind (oscillators s)
          (map (fun ko => updated stability
                  (dt s * gaussian 1 (environmental_noise s) (z (fst ko))) (snd ko))
             (combine
                (seq 0 (length
                   (if with_coupling
                    then coupling_pass (global_coupling s) (dict_values (oscillators s))
                    else dict_values (oscillators s))))
                (if with_coupling
                 then coupling_pass (global_coupling s) (dict_values (oscillators s))
                 else dict_values (oscillators s)))))))
    as (s' & Hs' & Ho & Ht & Hr & Hd & Hg & Hn).
  exists s'. split; [exact Hs' |].
  cbn [oscillators set_oscillators set_simulation_time simulation_time is_running dt
       global_coupling environmental_noise] in Ho, Ht, Hr, Hd, Hg, Hn.
  rewrite Ho, Ht, Hr, Hd, Hg, Hn.
  replace (length (if with_coupling
                   then coupling_pass (global_coupling s) (dict_values (oscillators s))
                   else dict_values (oscillators s)))
    with (length (oscillators s))
    by (destruct with_coupling;
        [rewrite coupling_pass_length |]; rewrite dict_values_length; reflexivity).
  repeat split. exact Hrun.
Qed.

End TickSteps.

(** C1, as the code has it.  In both files a tick on a stopped simulation
    gives the simulation back untouched.  In [oscillation_engine.py] a
    running tick is, in this order: the simulation time plus [dt]; the
    coupling pass over the unordered pairs of the registry; one
    [update_oscillations] per oscillator with [dt] times its draw from
    Normal(1, environmental_noise); the FPS update.  The tick of
    [backend/server.py] is the same steps without the coupling pass. *)
Theorem tick_order (now : R) (z : nat -> R) (s : ParticleOscillationSimulation) :
  Engine.update_simulation now z s =
    tick_steps true Engine.update_oscillations now z s /\
  Server.update_simulation now z s =
    tick_steps false Server.update_oscillations now z s /\
  (if is_running s then True
   else Engine.update_simulation now z s = Ok s /\
        Server.update_simulation now z s = Ok s).
Proof.
  split; [apply engine_tick_steps |].
  split; [apply server_tick_steps |].
  rewrite engine_tick_steps, server_tick_steps.
  destruct (is_running s) eqn:Hrun; [exact I |].
  unfold tick_steps. rewrite Hrun. split; reflexivity.
Qed.

(** ** A run of three oscillators *)

Lemma couple_fst_w2 (g : R) (a b : TetrahedronOscillator) :
  w2_of (fst (Engine.couple g a b)) = w2_of a + g * (w2_of b - w2_of a) * 0.1.
Proof. reflexivity. Qed.

Lemma couple_snd_w2 (g : R) (a b : TetrahedronOscillator) :
  w2_of (snd (Engine.couple g a b)) = w2_of b - g * (w2_of b - w2_of a) * 0.1.
Proof. reflexivity. Qed.

Lemma couple_fst_w3 (g : R) (a b : TetrahedronOscillator) :
  w3_of (fst (Engine.couple g a b)) = w3_of a + g * (w3_of b - w3_of a) * 0.05.
Proof. reflexivity. Qed.

Lemma couple_snd_w3 (g : R) (a b : TetrahedronOscillator) :
  w3_of (snd (Engine.couple g a b)) = w3_of b - g * (w3_of b - w3_of a) * 0.05.
Proof. reflexivity. Qed.

Lemma couple_fst_keeps (g : R) (a b : TetrahedronOscillator) :
  params (fst (Engine.couple g a b)) = params a /\
  current_time (fst (Engine.couple g a b)) = current_time a /\
  state_history (fst (Engine.couple g a b)) = state_history a /\
  w1_projection (current_state (fst (Engine.couple g a b))) =
    w1_projection (current_state a) /\
  w4_mass (current_state (fst (Engine.couple g a b))) = w4_mass (current_state a).
Proof. repeat split. Qed.

Lemma couple_snd_keeps (g : R) (a b : TetrahedronOscillator) :
  params (snd (Engine.couple g a b)) = params b /\
  current_time (snd (Engine.couple g a b)) = current_time b /\
  state_history (snd (Engine.couple g a b)) = state_history b /\
  w1_projection (current_state (snd (Engine.couple g a b))) =
    w1_projection (current_state b) /\
  w4_mass (current_state (snd (Engine.couple g a b))) = w4_mass (current_state b).
Proof. repeat split. Qed.

Section QuietStep.

(** One update under [quiet_parameters]. *)
Variable stability : FourDimensionalState -> R.
Variables c d dt : R.
Variable o : TetrahedronOscillator.
Hypothesis quiet : params o = quiet_parameters c d.

Lemma quiet_w1 :
  w1_projection (current_state (updated stability dt o)) =
    c * (w2_of o * 0.3 + w4_mass (current_state o) * 0.2) * d.
Proof.
  rewrite updated_current_state, advance_state_w1, quiet. unfold w2_of.
  cbn [quiet_parameters amplitude_w1 coupling_strength damping_factor]. ring.
Qed.

Lemma quiet_w2 :
  w2_of (updated stability dt o) =
    c * (w3_of o * 0.4 + w1_projection (current_state o) * 0.1) * d.
Proof.
  unfold w2_of, w3_of. rewrite updated_current_state, advance_state_w2, quiet.
  cbn [quiet_parameters amplitude_w2 coupling_strength damping_factor]. ring.
Qed.

Lemma quiet_w3 : w3_of (updated stability dt o) = c * (w2_of o * 0.5) * d.
Proof.
  unfold w2_of, w3_of. rewrite updated_current_state, advance_state_w3, quiet.
  cbn [quiet_parameters amplitude_w3 coupling_strength damping_factor base_frequency].
  replace (6 * PI * 0 * (current_time o + dt)) with 0 by ring.
  rewrite sin_0. ring.
Qed.

Lemma quiet_w4 :
  w4_mass (current_state (updated stability dt o)) =
    c * (w1_projection (current_state o) * 0.15) * d.
Proof.
  rewrite updated_current_state, advance_state_w4, quiet.
  cbn [quiet_parameters amplitude_w4 coupling_strength damping_factor]. ring.
Qed.

End QuietStep.

Lemma three_started_oscillators :
  oscillators three_started =
    [("a"%string, new_oscillator 0 "a" (quiet_parameters 1 1));
     ("b"%string, new_oscillator 0 "b" (quiet_parameters 0 1));
     ("c"%string, new_oscillator 0 "c" (quiet_parameters 0 1))].
Proof. reflexivity. Qed.

Lemma coupling_pass_three (g : R) (a b c : TetrahedronOscillator) :
  coupling_pass g [a; b; c] =
    [fst (Engine.couple g (fst (Engine.couple g a b)) c);
     fst (Engine.couple g (snd (Engine.couple g a b))
            (snd (Engine.couple g (fst (Engine.couple g a b)) c)));
     snd (Engine.couple g (snd (Engine.couple g a b))
            (snd (Engine.couple g (fst (Engine.couple g a b)) c)))].
Proof.
  rewrite <- couple_outer_coupling_pass. cbn [length].
  rewrite couple_outer_eq, !couple_inner_eq. cbn [Engine.couple_inner fst snd].
  rewrite couple_outer_eq, !couple_inner_eq. cbn [Engine.couple_inner fst snd].
  rewrite couple_outer_eq. cbn [Engine.couple_inner fst snd Engine.couple_outer].
  reflexivity.
Qed.

Lemma new_oscillator_w2 (now : R) (id : string) (p : OscillationParameters) :
  w2_of (new_oscillator now id p) = 1.0.
Proof. reflexivity. Qed.

Lemma new_oscillator_w3 (now : R) (id : string) (p : OscillationParameters) :
  w3_of (new_oscillator now id p) = 0.0.
Proof. reflexivity. Qed.

Lemma new_oscillator_time (now : R) (id : string) (p : OscillationParameters) :
  current_time (new_oscillator now id p) = 0.0.
Proof. reflexivity. Qed.

Lemma new_oscillator_history (now : R) (id : string) (p : OscillationParameters) :
  state_history (new_oscillator now id p) = [].
Proof. reflexivity. Qed.

Ltac couple_fields :=
  repeat first
    [ rewrite couple_fst_w2 | rewrite couple_snd_w2
    | rewrite couple_fst_w3 | rewrite couple_snd_w3
    | rewrite (proj1 (couple_fst_keeps _ _ _))
    | rewrite (proj1 (couple_snd_keeps _ _ _))
    | rewrite (proj1 (proj2 (couple_fst_keeps _ _ _)))
    | rewrite (proj1 (proj2 (couple_snd_keeps _ _ _)))
    | rewrite (proj1 (proj2 (proj2 (couple_fst_keeps _ _ _))))
    | rewrite (proj1 (proj2 (proj2 (couple_snd_keeps _ _ _))))
    | rewrite (proj1 (proj2 (proj2 (proj2 (couple_fst_keeps _ _ _)))))
    | rewrite (proj1 (proj2 (proj2 (proj2 (couple_snd_keeps _ _ _)))))
    | rewrite (proj2 (proj2 (proj2 (proj2 (couple_fst_keeps _ _ _)))))
    | rewrite (proj2 (proj2 (proj2 (proj2 (couple_snd_keeps _ _ _)))))
    | rewrite new_oscillator_w2 | rewrite new_oscillator_w3
    | rewrite new_oscillator_params | rewrite new_oscillator_state
    | rewrite new_oscillator_time | rewrite new_oscillator_history ].

Section FirstTick.

Variable stability : FourDimensionalState -> R.
Variable update : R -> TetrahedronOscillator -> result TetrahedronOscillator.
Hypothesis update_ok : forall dt o, update dt o = Ok (updated stability dt o).
Variable with_coupling : bool.
Variables now v : R.

(** The first tick of [three_started], every normal variate being [v]: the
    first oscillator is left at (0.5, 0, 0.5, 0), the other two at 0. *)
Lemma first_tick :
  exists s1 a b c,
    tick_steps with_coupling update now (constant_draws v) three_started = Ok s1 /\
    oscillators s1 = [("a"%string, a); ("b"%string, b); ("c"%string, c)] /\
    is_running s1 = true /\
    global_coupling s1 = 0.05 /\
    environmental_noise s1 = 0.01 /\
    dt s1 = 1.0 / 60 /\
    (params a = quiet_parameters 1 1 /\ params b = quiet_parameters 0 1 /\
     params c = quiet_parameters 0 1) /\
    (w1_projection (current_state a) = 0.5 /\ w2_of a = 0 /\ w3_of a = 0.5 /\
     w4_mass (current_state a) = 0) /\
    (w1_projection (current_state b) = 0 /\ w2_of b = 0 /\ w3_of b = 0 /\
     w4_mass (current_state b) = 0) /\
    (w1_projection (current_state c) = 0 /\ w2_of c = 0 /\ w3_of c = 0 /\
     w4_mass (current_state c) = 0) /\
    current_time a = 1.0 / 60 * (1 + 0.01 * v) /\
    length (state_history a) = 1%nat.
Proof.
  destruct (tick_steps_running stability update update_ok with_coupling now
              (constant_draws v) three_started eq_refl)
    as (s1 & Hs1 & Ho & _ & Hr & Hd & Hg & Hn).
  rewrite three_started_oscillators in Ho.
  cbn [length dict_values map snd] in Ho.
  assert (Hpass : exists a0 b0 c0,
            (if with_coupling
             then coupling_pass (global_coupling three_started)
                    [new_oscillator 0 "a" (quiet_parameters 1 1);
                     new_oscillator 0 "b" (quiet_parameters 0 1);
                     new_oscillator 0 "c" (quiet_parameters 0 1)]
             else [new_oscillator 0 "a" (quiet_parameters 1 1);
                   new_oscillator 0 "b" (quiet_parameters 0 1);
                   new_oscillator 0 "c" (quiet_parameters 0 1)]) = [a0; b0; c0] /\
            (params a0 = quiet_parameters 1 1 /\ params b0 = quiet_parameters 0 1 /\
             params c0 = quiet_parameters 0 1) /\
            (w2_of a0 = 1 /\ w3_of a0 = 0 /\ w1_projection (current_state a0) = 0 /\
             w4_mass (current_state a0) = 1) /\
            current_time a0 = 0 /\ state_history a0 = [] /\ max_history a0 = 1000%nat).
  { destruct with_coupling.
    - rewrite coupling_pass_three. do 3 eexists. split; [reflexivity |].
      change (global_coupling three_started) with 0.05.
      split; [repeat split |].
      split; [| repeat split; couple_fields; lra].
      repeat split; couple_fields; cbn [w1_projection w4_mass]; lra.
    - do 3 eexists. split; [reflexivity |].
      split; [repeat split |].
      split; [| repeat split; couple_fields; lra].
      repeat split; couple_fields; cbn [w1_projection w4_mass]; lra. }
  destruct Hpass as (a0 & b0 & c0 & Hl & (Pa & Pb & Pc) & (A2 & A3 & A1 & A4) & At & Ah & Am).
  rewrite Hl in Ho. cbn [seq combine map dict_rebind fst snd] in Ho.
  exists s1. do 3 eexists. split; [exact Hs1 |]. split; [exact Ho |].
  split; [exact Hr |]. split; [rewrite Hg; reflexivity |].
  split; [rewrite Hn; reflexivity |]. split; [rewrite Hd; reflexivity |].
  split; [rewrite !updated_params; repeat split; assumption |].
  split.
  { rewrite (quiet_w1 stability 1 1 _ a0 Pa), (quiet_w2 stability 1 1 _ a0 Pa),
            (quiet_w3 stability 1 1 _ a0 Pa), (quiet_w4 stability 1 1 _ a0 Pa).
    rewrite A1, A2, A3, A4. repeat split; lra. }
  split.
  { rewrite (quiet_w1 stability 0 1 _ b0 Pb), (quiet_w2 stability 0 1 _ b0 Pb),
            (quiet_w3 stability 0 1 _ b0 Pb), (quiet_w4 stability 0 1 _ b0 Pb).
    repeat split; lra. }
  split.
  { rewrite (quiet_w1 stability 0 1 _ c0 Pc), (quiet_w2 stability 0 1 _ c0 Pc),
            (quiet_w3 stability 0 1 _ c0 Pc), (quiet_w4 stability 0 1 _ c0 Pc).
    repeat split; lra. }
  split.
  - rewrite updated_current_time, At.
    change (dt three_started) with (1.0 / 60).
    change (environmental_noise three_started) with 0.01.
    unfold gaussian, constant_draws. lra.
  - rewrite updated_history by (rewrite Am; lia).
    rewrite Ah, lastn_length. cbn [app length]. rewrite Am. reflexivity.
Qed.

End FirstTick.

(** C3, the claim as it is worded.  After one tick of [three_started] the
    oscillators "b" and "c" are both at [w3_spin] 0 and "a" is at 0.5.  The
    coupling pass of the next tick lets "b" and "c" each take from "a", so
    the sum over the pair "b", "c" is positive after the pass. *)
Lemma coupling_pass_changes_a_pair_sum :
  exists s1 b c b' c',
    Engine.update_simulation 1 (constant_draws 0) three_started = Ok s1 /\
    dict_get "b" (oscillators s1) = Some b /\
    dict_get "c" (oscillators s1) = Some c /\
    dict_get "b" (oscillators (Engine._apply_global_coupling s1)) = Some b' /\
    dict_get "c" (oscillators (Engine._apply_global_coupling s1)) = Some c' /\
    w3_of b + w3_of c = 0 /\
    0 < w3_of b' + w3_of c'.
Proof.
  destruct (first_tick guarded_stability_formula Engine.update_oscillations
              engine_update_ok true 1 0)
    as (s1 & a & b & c & Hs1 & Ho & Hr & Hg & _ & _ & _ & (_ & _ & A3 & _) &
        (_ & _ & B3 & _) & (_ & _ & C3 & _) & _).
  exists s1, b, c. do 2 eexists.
  split; [rewrite engine_tick_steps; exact Hs1 |].
  rewrite apply_global_coupling_eq. cbn [oscillators set_oscillators].
  rewrite Ho. cbn [dict_values map snd]. rewrite coupling_pass_three.
  cbn [dict_rebind map fst combine].
  split; [reflexivity |]. split; [reflexivity |].
  split; [reflexivity |]. split; [reflexivity |].
  split; [lra |].
  rewrite couple_w3. couple_fields. rewrite A3, B3, C3, Hg. lra.
Qed.

(** C1, the claim as it is worded, on [backend/server.py].  After one tick
    of [three_started] oscillator "a" is at [w3_spin] 0.5 and the other two
    at 0.  The second tick of this file updates "a" from that state, which
    leaves its [w2_energy] at 0.25; a tick with the coupling pass would have
    lowered the [w3_spin] of "a" first and left a smaller [w2_energy]. *)
Lemma server_tick_skips_coupling :
  exists s1 s2 s2' o o',
    Server.update_simulation 1 (constant_draws 0) three_started = Ok s1 /\
    Server.update_simulation 2 (constant_draws 0) s1 = Ok s2 /\
    tick_steps true Server.update_oscillations 2 (constant_draws 0) s1 = Ok s2' /\
    dict_get "a" (oscillators s2) = Some o /\
    dict_get "a" (oscillators s2') = Some o' /\
    w2_of o = 0.25 /\
    w2_of o' < 0.25 /\
    Server.update_simulation 2 (constant_draws 0) s1 <>
      tick_steps true Server.update_oscillations 2 (constant_draws 0) s1.
Proof.
  destruct (first_tick stability_formula Server.update_oscillations
              server_update_ok false 1 0)
    as (s1 & a & b & c & Hs1 & Ho & Hr & Hg & _ & _ & (Pa & _ & _) &
        (A1 & A2 & A3 & A4) & (_ & _ & B3 & _) & (_ & _ & C3 & _) & _).
  destruct (tick_steps_running stability_formula Server.update_oscillations
              server_update_ok false 2 (constant_draws 0) s1 Hr)
    as (s2 & Hs2 & Ho2 & _).
  destruct (tick_steps_running stability_formula Server.update_oscillations
              server_update_ok true 2 (constant_draws 0) s1 Hr)
    as (s2' & Hs2' & Ho2' & _).
  rewrite Ho in Ho2, Ho2'. cbn [length dict_values map snd] in Ho2, Ho2'.
  rewrite coupling_pass_three in Ho2'.
  cbn [seq combine map dict_rebind fst snd] in Ho2, Ho2'.
  exists s1, s2, s2'. do 2 eexists.
  split; [rewrite server_tick_steps; exact Hs1 |].
  split; [rewrite server_tick_steps; exact Hs2 |].
  split; [exact Hs2' |].
  split; [rewrite Ho2; reflexivity |]. split; [rewrite Ho2'; reflexivity |].
  match goal with
  | |- w2_of ?x = _ /\ w2_of ?y < _ /\ _ =>
      assert (Hw : w2_of x = 0.25);
      [| assert (Hw' : w2_of y < 0.25);
         [| split; [exact Hw |]; split; [exact Hw' |] ] ]
  end.
  - rewrite (quiet_w2 stability_formula 1 1 _ a Pa), A3, A1. lra.
  - rewrite (quiet_w2 stability_formula 1 1 _ _
               (eq_trans (proj1 (couple_fst_keeps _ _ _))
                  (eq_trans (proj1 (couple_fst_keeps _ _ _)) Pa))).
    couple_fields. rewrite A1, A3, B3, C3, Hg. lra.
  - rewrite server_tick_steps, Hs2, Hs2'. intros E.
    assert (Es : s2 = s2') by congruence.
    assert (Hd : dict_get "a" (oscillators s2) = dict_get "a" (oscillators s2'))
      by (rewrite Es; reflexivity).
    rewrite Ho2, Ho2' in Hd. cbn [dict_get String.eqb Ascii.eqb Bool.eqb] in Hd.
    match type of Hw with w2_of ?x = _ =>
      match type of Hw' with w2_of ?y < _ =>
        assert (Hxy : w2_of x = w2_of y) by congruence
      end
    end.
    lra.
Qed.

(** C4, the claim as it is worded.  After one tick of [three_started] the
    oscillator "a" has a clock of 1/60 and one history entry.  Creating "a"
    again raises nothing and leaves a new oscillator under that id. *)
Lemma create_replaces_existing_id :
  exists s1 o,
    Engine.update_simulation 1 (constant_draws 0) three_started = Ok s1 /\
    dict_get "a" (oscillators s1) = Some o /\
    current_time o = 1 / 60 /\
    length (state_history o) = 1%nat /\
    fst (create_oscillator 2 (constant_draws 0) s1 "a"
           (Some (quiet_parameters 1 1))) = "a"%string /\
    dict_get "a" (oscillators (snd (create_oscillator 2 (constant_draws 0) s1 "a"
                                      (Some (quiet_parameters 1 1))))) =
      Some (new_oscillator 2 "a" (quiet_parameters 1 1)) /\
    oscillators (snd (create_oscillator 2 (constant_draws 0) s1 "a"
                        (Some (quiet_parameters 1 1)))) <> oscillators s1.
Proof.
  destruct (first_tick guarded_stability_formula Engine.update_oscillations
              engine_update_ok true 1 0)
    as (s1 & a & b & c & Hs1 & Ho & _ & _ & _ & _ & _ & _ & _ & _ & Ht & Hh).
  exists s1, a.
  split; [rewrite engine_tick_steps; exact Hs1 |].
  unfold create_oscillator. cbn [fst snd oscillators set_oscillators].
  rewrite Ho.
  split; [reflexivity |]. split; [rewrite Ht; lra |]. split; [exact Hh |].
  split; [reflexivity |]. split; [reflexivity |].
  intros E.
  assert (Ha : dict_get "a"
                 (dict_set "a" (new_oscillator 2 "a" (quiet_parameters 1 1))
                    [("a"%string, a); ("b"%string, b); ("c"%string, c)]) =
               dict_get "a" [("a"%string, a); ("b"%string, b); ("c"%string, c)])
    by (rewrite E; reflexivity).
  cbn [dict_set dict_get String.eqb Ascii.eqb Bool.eqb] in Ha.
  injection Ha as Ha. rewrite <- Ha in Hh. cbn [state_history new_oscillator length] in Hh.
  discriminate.
Qed.

(** ** Creating an oscillator *)

Lemma dict_get_set_same (k : string) (v : TetrahedronOscillator) (d : registry) :
  dict_get k (dict_set k v d) = Some v.
Proof.
  induction d as [| [k' v'] d IH]; cbn [dict_set dict_get].
  - rewrite String.eqb_refl. reflexivity.
  - destruct (String.eqb k k') eqn:E; cbn [dict_get]; rewrite E; [reflexivity | exact IH].
Qed.

Lemma dict_get_set_other (k k' : string) (v : TetrahedronOscillator) (d : registry) :
  String.eqb k' k = false -> dict_get k' (dict_set k v d) = dict_get k' d.
Proof.
  intros Hne. induction d as [| [k0 v0] d IH]; cbn [dict_set dict_get].
  - rewrite Hne. reflexivity.
  - destruct (String.eqb k k0) eqn:E; cbn [dict_get].
    + apply String.eqb_eq in E. subst k0. rewrite Hne. reflexivity.
    + rewrite IH. reflexivity.
Qed.

Lemma dict_set_present (k : string) (v : TetrahedronOscillator) (d : registry) :
  dict_mem k d = true ->
  map fst (dict_set k v d) = map fst d /\ length (dict_set k v d) = length d.
Proof.
  unfold dict_mem. induction d as [| [k' v'] d IH]; cbn [dict_set dict_get].
  - discriminate.
  - destruct (String.eqb k k') eqn:E; intros H.
    + split; reflexivity.
    + destruct (IH H) as [IH1 IH2]. cbn [map fst length]. rewrite IH1, IH2.
      split; reflexivity.
Qed.

Lemma dict_set_absent (k : string) (v : TetrahedronOscillator) (d : registry) :
  dict_mem k d = false -> dict_set k v d = d ++ [(k, v)].
Proof.
  unfold dict_mem. induction d as [| [k' v'] d IH]; cbn [dict_set dict_get].
  - reflexivity.
  - destruct (String.eqb k k') eqn:E; intros H; [discriminate |].
    rewrite (IH H). reflexivity.
Qed.

(** C4, as the code has it.  [create_oscillator] has no failing path: it
    hands back the id it was given and leaves a new oscillator (clock 0,
    state (0, 1, 0, 1), empty history) under that id.  An id already present
    keeps its place in the registry and its former oscillator is dropped; a
    new id goes last.  The other ids keep their oscillators, and nothing else
    of the simulation changes. *)
Theorem create_oscillator_binds_new (now : R) (u : nat -> R)
    (s : ParticleOscillationSimulation) (id other : string)
    (given : option OscillationParameters) :
  let p := match given with Some p => p | None => random_parameters u end in
  let r := create_oscillator now u s id given in
  fst r = id /\
  dict_get id (oscillators (snd r)) = Some (new_oscillator now id p) /\
  (current_time (new_oscillator now id p) = 0 /\
   current_state (new_oscillator now id p) = mkState 0 1 0 1 /\
   state_history (new_oscillator now id p) = []) /\
  (if dict_mem id (oscillators s)
   then map fst (oscillators (snd r)) = map fst (oscillators s)
   else oscillators (snd r) = oscillators s ++ [(id, new_oscillator now id p)]) /\
  (if String.eqb other id then True
   else dict_get other (oscillators (snd r)) = dict_get other (oscillators s)) /\
  simulation_time (snd r) = simulation_time s /\
  is_running (snd r) = is_running s.
Proof.
  cbv zeta. unfold create_oscillator. cbn [fst snd oscillators set_oscillators].
  split; [reflexivity |].
  split; [destruct given; apply dict_get_set_same |].
  split.
  { rewrite new_oscillator_time, new_oscillator_state, new_oscillator_history.
    repeat split; [lra | f_equal; lra]. }
  split.
  { destruct (dict_mem id (oscillators s)) eqn:E.
    - destruct given; apply dict_set_present; exact E.
    - destruct given; apply dict_set_absent; exact E. }
  split; [| split; reflexivity].
  destruct (String.eqb other id) eqn:E; [exact I |].
  destruct given; apply dict_get_set_other; exact E.
Qed.

(** ** The clock of an oscillator *)

Section Kept.

(** What each exchange leaves alone in both oscillators is left alone by
    the loops. *)
Variable g : R.
Variable A : Type.
Variable f : TetrahedronOscillator -> A.
Hypothesis f_couple : forall a b,
  f (fst (Engine.couple g a b)) = f a /\ f (snd (Engine.couple g a b)) = f b.

Lemma couple_inner_keeps (later : list TetrahedronOscillator) :
  forall o1,
    f (fst (Engine.couple_inner g o1 later)) = f o1 /\
    map f (snd (Engine.couple_inner g o1 later)) = map f later.
Proof.
  induction later as [| o2 rest IH]; intros o1.
  - split; reflexivity.
  - rewrite couple_inner_eq. cbn [fst snd map].
    destruct (IH (fst (Engine.couple g o1 o2))) as [H1 H2].
    destruct (f_couple o1 o2) as [H3 H4].
    rewrite H1, H2, H3, H4. split; reflexivity.
Qed.

Lemma couple_outer_keeps (fuel : nat) :
  forall l, map f (Engine.couple_outer g fuel l) = map f l.
Proof.
  induction fuel as [| fuel IH]; intros [| o1 later]; try reflexivity.
  rewrite couple_outer_eq. cbn [map].
  destruct (couple_inner_keeps later o1) as [H1 H2].
  rewrite IH, H1, H2. reflexivity.
Qed.

End Kept.

Lemma coupling_pass_keeps_clock (g : R) (l : list TetrahedronOscillator) :
  map current_time (coupling_pass g l) = map current_time l.
Proof.
  rewrite <- couple_outer_coupling_pass. apply couple_outer_keeps.
  intros a b. split; reflexivity.
Qed.

Lemma nth_error_combine_seq {A : Type} (l : list A) :
  forall a k,
    nth_error (combine (seq a (length l)) l) k =
    option_map (fun x => ((a + k)%nat, x)) (nth_error l k).
Proof.
  induction l as [| x l IH]; intros a k.
  - destruct k; reflexivity.
  - destruct k as [| k]; cbn [length seq combine nth_error option_map].
    + rewrite Nat.add_0_r. reflexivity.
    + rewrite IH. replace (S a + k)%nat with (a + S k)%nat by lia. reflexivity.
Qed.

Lemma nth_error_map_value {A B : Type} (f : A -> B) (l : list A) (k : nat) (x : A) :
  nth_error l k = Some x -> nth_error (map f l) k = Some (f x).
Proof. intros H. rewrite nth_error_map, H. reflexivity. Qed.

Lemma nth_error_same_map {A B : Type} (f : A -> B) (l l' : list A) (k : nat) (x : A) :
  map f l' = map f l -> nth_error l k = Some x ->
  exists x', nth_error l' k = Some x' /\ f x' = f x.
Proof.
  intros Hmap Hx.
  pose proof (nth_error_map_value f l k x Hx) as H. rewrite <- Hmap in H.
  rewrite nth_error_map in H.
  destruct (nth_error l' k) as [x' |]; [| discriminate].
  exists x'. split; [reflexivity |]. cbn [option_map] in H. congruence.
Qed.

(** What a running tick of the engine does to the clocks. *)
Lemma engine_tick_clock (now : R) (z : nat -> R) (s : ParticleOscillationSimulation) :
  is_running s = true ->
  exists s',
    Engine.update_simulation now z s = Ok s' /\
    map fst (oscillators s') = map fst (oscillators s) /\
    forall k o,
      nth_error (dict_values (oscillators s)) k = Some o ->
      exists o',
        nth_error (dict_values (oscillators s')) k = Some o' /\
        current_time o' =
          current_time o + dt s * gaussian 1 (environmental_noise s) (z k).
Proof.
  intros Hrun. rewrite engine_tick_steps.
  destruct (tick_steps_running guarded_stability_formula Engine.update_oscillations
              engine_update_ok true now z s Hrun) as (s' & Hs' & Ho & _).
  exists s'. split; [exact Hs' |].
  assert (Hlen : length (map (fun ko => updated guarded_stability_formula
                    (dt s * gaussian 1 (environmental_noise s) (z (fst ko))) (snd ko))
                  (combine (seq 0 (length (oscillators s)))
                     (coupling_pass (global_coupling s) (dict_values (oscillators s))))) =
                 length (oscillators s)).
  { rewrite length_map, length_combine, length_seq, coupling_pass_length,
            dict_values_length. lia. }
  rewrite Ho, dict_rebind_keys, dict_rebind_values by exact Hlen.
  split; [reflexivity |].
  intros k o Hk.
  destruct (nth_error_same_map current_time _
              (coupling_pass (global_coupling s) (dict_values (oscillators s)))
              k o (coupling_pass_keeps_clock _ _) Hk) as (o1 & Ho1 & Ht1).
  exists (updated guarded_stability_formula
            (dt s * gaussian 1 (environmental_noise s) (z k)) o1).
  split.
  - rewrite nth_error_map.
    replace (length (oscillators s))
      with (length (coupling_pass (global_coupling s) (dict_values (oscillators s))))
      by (rewrite coupling_pass_length; apply dict_values_length).
    rewrite nth_error_combine_seq, Ho1. reflexivity.
  - rewrite updated_current_time, Ht1. reflexivity.
Qed.

(** C8, as the code has it.  A new oscillator starts at clock 0.  A tick of
    a running simulation adds to the clock of the oscillator at position [k]
    of the registry [dt] times its noise factor, and a tick of a stopped one
    adds nothing; so when no [dt] times noise factor of the tick is negative,
    no clock goes back.  (A noise factor below 0 does move the clock back.) *)
Theorem elapsed_time_monotone_for_nonnegative_steps (now : R) (z : nat -> R)
    (s : ParticleOscillationSimulation) (id : string) (p : OscillationParameters) :
  (forall k, (k < length (oscillators s))%nat ->
             0 <= dt s * gaussian 1 (environmental_noise s) (z k)) ->
  current_time (new_oscillator now id p) = 0 /\
  exists s',
    Engine.update_simulation now z s = Ok s' /\
    map fst (oscillators s') = map fst (oscillators s) /\
    forall k o,
      nth_error (dict_values (oscillators s)) k = Some o ->
      exists o',
        nth_error (dict_values (oscillators s')) k = Some o' /\
        current_time o' =
          current_time o +
          (if is_running s
           then dt s * gaussian 1 (environmental_noise s) (z k) else 0) /\
        current_time o <= current_time o'.
Proof.
  intros Hsteps. split; [rewrite new_oscillator_time; lra |].
  destruct (is_running s) eqn:Hrun.
  - destruct (engine_tick_clock now z s Hrun) as (s' & Hs' & Hkeys & Hclock).
    exists s'. split; [exact Hs' |]. split; [exact Hkeys |].
    intros k o Hk. destruct (Hclock k o Hk) as (o' & Ho' & Ht).
    exists o'. split; [exact Ho' |].
    assert (Hk' : (k < length (oscillators s))%nat).
    { rewrite <- (dict_values_length (oscillators s)).
      apply nth_error_Some. rewrite Hk. discriminate. }
    pose proof (Hsteps k Hk'). split; lra.
  - exists s. unfold Engine.update_simulation. rewrite Hrun.
    split; [reflexivity |]. split; [reflexivity |].
    intros k o Hk. exists o. split; [exact Hk |]. split; lra.
Qed.

Lemma elapsed_time_monotone_witness :
  current_time (new_oscillator 0 "a" (quiet_parameters 1 1)) = 0 /\
  exists s',
    Engine.update_simulation 1 (constant_draws 0) three_started = Ok s' /\
    map fst (oscillators s') = map fst (oscillators three_started) /\
    forall k o,
      nth_error (dict_values (oscillators three_started)) k = Some o ->
      exists o',
        nth_error (dict_values (oscillators s')) k = Some o' /\
        current_time o' =
          current_time o +
          (if is_running three_started
           then dt three_started *
                gaussian 1 (environmental_noise three_started) (constant_draws 0 k)
           else 0) /\
        current_time o <= current_time o'.
Proof.
  apply (elapsed_time_monotone_for_nonnegative_steps 1 (constant_draws 0) three_started
           "a" (quiet_parameters 1 1)).
  intros k _.
  change (dt three_started) with (1.0 / 60).
  change (environmental_noise three_started) with 0.01.
  unfold gaussian, constant_draws. lra.
Defined.

(** ** The history query *)

Lemma history_entries_ok (l : list (R * FourDimensionalState)) :
  history_entries l = Ok (map entry_of l).
Proof.
  induction l as [| [t state] l IH]; [reflexivity |].
  cbn [history_entries]. rewrite magnitude_ok, IH. reflexivity.
Qed.

Lemma slice_from_neg_pos {A : Type} (n : Z) (l : list A) :
  (0 < n)%Z -> slice_from (- n) l = lastn (Z.to_nat n) l.
Proof.
  intros Hn. rewrite <- (Z2Nat.id n) at 1 by lia.
  apply slice_from_neg. lia.
Qed.

(** C9, as the code has it.  For a count [last_n > 0] [get_history_data]
    answers the last [min last_n (length history)] entries, oldest first,
    each as time, state and magnitude of the state; for [last_n = 0] it
    answers the whole history; for [last_n < 0] it answers the history
    without its first [- last_n] entries. *)
Theorem history_query_last_n (o : TetrahedronOscillator) (last_n : Z) :
  exists entries,
    get_history_data o last_n = Ok entries /\
    entries =
      map entry_of
        (if (last_n =? 0)%Z then state_history o
         else if (last_n <? 0)%Z
              then skipn (Z.to_nat (- last_n)) (state_history o)
              else lastn (Z.to_nat last_n) (state_history o)) /\
    length entries =
      (if (last_n =? 0)%Z then length (state_history o)
       else if (last_n <? 0)%Z
            then (length (state_history o) - Z.to_nat (- last_n))%nat
            else Nat.min (Z.to_nat last_n) (length (state_history o))).
Proof.
  unfold get_history_data. cbv zeta. rewrite history_entries_ok.
  eexists. split; [reflexivity |].
  destruct (Z.eqb_spec last_n 0) as [E | N].
  - split; [reflexivity | apply length_map].
  - destruct (Z.ltb_spec last_n 0) as [Hneg | Hnn].
    + assert (Hs : slice_from (- last_n) (state_history o) =
                   skipn (Z.to_nat (- last_n)) (state_history o)).
      { unfold slice_from.
        destruct (Z.ltb_spec (- last_n) 0) as [H | H]; [lia | reflexivity]. }
      rewrite Hs. split; [reflexivity |].
      rewrite length_map. apply length_skipn.
    + rewrite slice_from_neg_pos by lia.
      split; [reflexivity |]. rewrite length_map. apply lastn_length.
Qed.

(** C9, the claim as it is worded.  After one update of a new oscillator
    the query for 0 entries answers one entry. *)
Lemma history_query_zero_returns_all :
  exists o entries,
    Engine.update_oscillations 0.016 (new_oscillator 0 "p" default_parameters) = Ok o /\
    get_history_data o 0 = Ok entries /\
    (Z.to_nat 0 < length entries)%nat.
Proof.
  exists (updated guarded_stability_formula 0.016
            (new_oscillator 0 "p" default_parameters)).
  eexists. split; [apply engine_update_ok |].
  unfold get_history_data. cbv zeta. rewrite history_entries_ok.
  split; [reflexivity |].
  change (0 =? 0)%Z with true. cbv iota.
  rewrite length_map, updated_history
    by (cbn [max_history new_oscillator]; lia).
  rewrite new_oscillator_history, lastn_length.
  cbn [app length max_history new_oscillator]. change (Z.to_nat 0) with 0%nat. lia.
Qed.

(** ** Stability *)

Lemma state_eta (s : FourDimensionalState) :
  s = mkState (w1_projection s) (w2_energy s) (w3_spin s) (w4_mass s).
Proof. destruct s. reflexivity. Qed.

(** C5, as the code has it.  An update leaves a stability in [0, 1].  In
    [backend/server.py] it is the value of the formula of the
    specification on the new state.  In [oscillation_engine.py] it is the
    value of the same formula with every ratio taken over the magnitude plus
    1e-6 and no case for a zero magnitude, which at magnitude 0 is 0 as
    well. *)
Theorem stability_after_update (dt : R) (o : TetrahedronOscillator) :
  (exists o',
     Server.update_oscillations dt o = Ok o' /\
     stability_factor o' = stability_formula (current_state o') /\
     0 <= stability_factor o' <= 1) /\
  (exists o',
     Engine.update_oscillations dt o = Ok o' /\
     stability_factor o' = guarded_stability_formula (current_state o') /\
     0 <= stability_factor o' <= 1 /\
     (if Req_dec_T (sqrt (sum_squares (current_state o'))) 0
      then stability_factor o' = 0 else True)).
Proof.
  split.
  - exists (updated stability_formula dt o).
    split; [apply server_update_ok |].
    rewrite updated_stability. split; [reflexivity |].
    unfold stability_formula. cbv zeta.
    destruct (Req_dec_T _ 0); [lra | apply clamp_bounds; lra].
  - exists (updated guarded_stability_formula dt o).
    split; [apply engine_update_ok |].
    rewrite updated_stability. split; [reflexivity |].
    split; [unfold guarded_stability_formula; apply clamp_bounds; lra |].
    destruct (Req_dec_T _ 0) as [E | _]; [| exact I].
    apply guarded_stability_zero. exact E.
Qed.

Lemma level_state (now : R) (id : string) (dt : R) :
  current_state (advance_state dt (new_oscillator now id level_parameters)) =
    mkState 1 1 1 1.
Proof.
  rewrite (state_eta (current_state _)).
  rewrite advance_state_w1, advance_state_w2, advance_state_w3, advance_state_w4.
  rewrite new_oscillator_params, new_oscillator_state, new_oscillator_time.
  cbn [level_parameters base_frequency amplitude_w1 amplitude_w2 amplitude_w3
       amplitude_w4 phase_w1 phase_w2 phase_w3 phase_w4 damping_factor
       coupling_strength w1_projection w2_energy w3_spin w4_mass].
  replace (2 * PI * 0 * (0.0 + dt) + PI / 2) with (PI / 2) by ring.
  replace (2 * PI * 0 * 1.2 * (0.0 + dt) + PI / 2) with (PI / 2) by ring.
  replace (2 * PI * 0 * 0.8 * (0.0 + dt) + PI / 2) with (PI / 2) by ring.
  replace (2 * PI * 0 * 1.1 * (0.0 + dt) + PI / 2) with (PI / 2) by ring.
  replace (6 * PI * 0 * (0.0 + dt)) with 0 by ring.
  rewrite sin_PI2, sin_0. f_equal; ring.
Qed.

Lemma magnitude_of_ones : sqrt (sum_squares (mkState 1 1 1 1)) = 2.
Proof.
  unfold sum_squares. cbn [w1_projection w2_energy w3_spin w4_mass].
  replace (1 ^ 2 + 1 ^ 2 + 1 ^ 2 + 1 ^ 2) with (2 * 2) by ring.
  apply sqrt_square. lra.
Qed.

(** C5, the claim as it is worded, on [oscillation_engine.py].  One update
    under [level_parameters] leaves the state (1, 1, 1, 1), of magnitude 2:
    every ratio of the specification is 1/2 and its formula gives 0, while
    the engine divides by 2.000001 and leaves a positive stability. *)
Lemma engine_stability_differs_from_formula :
  exists o',
    Engine.update_oscillations 0.016 (new_oscillator 0 "p" level_parameters) = Ok o' /\
    current_state o' = mkState 1 1 1 1 /\
    stability_formula (current_state o') = 0 /\
    0 < stability_factor o'.
Proof.
  exists (updated guarded_stability_formula 0.016 (new_oscillator 0 "p" level_parameters)).
  split; [apply engine_update_ok |].
  rewrite updated_stability, updated_current_state, level_state.
  split; [reflexivity |].
  unfold stability_formula, guarded_stability_formula. cbv zeta.
  rewrite magnitude_of_ones. cbn [w1_projection w2_energy w3_spin w4_mass].
  rewrite Rabs_R1.
  split.
  - destruct (Req_dec_T 2 0) as [E | _]; [lra |].
    replace (0.25 - 1 / 2) with (- 0.25) by lra.
    rewrite Rabs_left by lra.
    unfold clamp. repeat destruct (Rlt_dec _ _); lra.
  - assert (H1 : 0.25 < 1 / (2 + 1e-6)).
    { apply Rmult_lt_reg_r with (2 + 1e-6); [lra |].
      unfold Rdiv. rewrite Rmult_assoc, Rinv_l by lra. lra. }
    assert (H2 : 1 / (2 + 1e-6) < 0.49999976).
    { apply Rmult_lt_reg_r with (2 + 1e-6); [lra |].
      unfold Rdiv. rewrite Rmult_assoc, Rinv_l by lra. lra. }
    rewrite Rabs_left by lra.
    unfold clamp. repeat destruct (Rlt_dec _ _); lra.
Qed.

(** ** The first update under the default parameters *)

Lemma PI_bounds : 3.14159 < PI < 3.1416.
Proof.
  pose proof (PI_2_3_7_ineq 2) as [Hl Hu].
  unfold PI_2_3_7_tg, tg_alt, Ratan_seq in Hl, Hu.
  cbn [sum_f_R0 Nat.mul Nat.add pow] in Hl, Hu.
  repeat rewrite INR_IZR_INZ in Hl. repeat rewrite INR_IZR_INZ in Hu.
  cbn [Z.of_nat Pos.of_succ_nat Pos.succ] in Hl, Hu.
  split; lra.
Qed.

Lemma INR_fact_values :
  INR (fact 3) = 6 /\ INR (fact 5) = 120 /\ INR (fact 7) = 5040 /\
  INR (fact 9) = 362880.
Proof.
  repeat split; rewrite INR_IZR_INZ; apply f_equal; vm_compute; reflexivity.
Qed.

Lemma sin_lb_poly (a : R) :
  sin_lb a = a - a ^ 3 / 6 + a ^ 5 / 120 - a ^ 7 / 5040.
Proof.
  destruct INR_fact_values as (F3 & F5 & F7 & F9).
  unfold sin_lb, sin_approx, sin_term.
  cbn [sum_f_R0 Nat.mul Nat.add].
  rewrite F3, F5, F7. change (INR (fact 1)) with 1.
  field.
Qed.

Lemma sin_ub_poly (a : R) :
  sin_ub a = a - a ^ 3 / 6 + a ^ 5 / 120 - a ^ 7 / 5040 + a ^ 9 / 362880.
Proof.
  destruct INR_fact_values as (F3 & F5 & F7 & F9).
  unfold sin_ub, sin_approx, sin_term.
  cbn [sum_f_R0 Nat.mul Nat.add].
  rewrite F3, F5, F7, F9. change (INR (fact 1)) with 1.
  field.
Qed.

(** The sine between two Taylor polynomials, on the first quarter turn. *)
Lemma sin_between (l a h : R) :
  0 <= l -> l <= a -> a <= h -> h <= 1.57 ->
  l - l ^ 3 / 6 + l ^ 5 / 120 - l ^ 7 / 5040 <= sin a <=
  h - h ^ 3 / 6 + h ^ 5 / 120 - h ^ 7 / 5040 + h ^ 9 / 362880.
Proof.
  intros Hl Hla Hah Hh. pose proof PI_bounds as [P1 P2].
  rewrite <- sin_lb_poly, <- sin_ub_poly.
  split.
  - apply Rle_trans with (sin l).
    + apply (SIN l); lra.
    + apply sin_incr_1; lra.
  - apply Rle_trans with (sin h).
    + apply sin_incr_1; lra.
    + apply (SIN h); lra.
Qed.

Lemma sin_first_axis : 0.1003 <= sin (0.032 * PI) <= 0.1005.
Proof.
  pose proof PI_bounds as [P1 P2].
  pose proof (sin_between 0.1005 (0.032 * PI) 0.1006) as H.
  split; lra.
Qed.

Lemma sin_second_axis : 0.78704 <= sin (0.2884 * PI) <= 0.78707.
Proof.
  pose proof PI_bounds as [P1 P2].
  pose proof (sin_between 0.906 (0.2884 * PI) 0.90604) as H.
  split; lra.
Qed.

Lemma sin_third_axis : 0.9966 <= sin (0.5256 * PI) <= 0.9968.
Proof.
  pose proof PI_bounds as [P1 P2].
  replace (0.5256 * PI) with (PI - 0.4744 * PI) by lra. rewrite sin_PI_x.
  pose proof (sin_between 1.4903 (0.4744 * PI) 1.4904) as H.
  split; lra.
Qed.

Lemma sin_fourth_axis : 0.6246 <= sin (0.7852 * PI) <= 0.6249.
Proof.
  pose proof PI_bounds as [P1 P2].
  replace (0.7852 * PI) with (PI - 0.2148 * PI) by lra. rewrite sin_PI_x.
  pose proof (sin_between 0.6747 (0.2148 * PI) 0.6749) as H.
  split; lra.
Qed.

Lemma sin_third_harmonic : 0.2969 <= sin (0.096 * PI) <= 0.2971.
Proof.
  pose proof PI_bounds as [P1 P2].
  pose proof (sin_between 0.3015 (0.096 * PI) 0.3016) as H.
  split; lra.
Qed.

(** The state a new oscillator with the default parameters is left in by
    [update_oscillations(0.016)], to four decimals. *)
Lemma default_first_state (now : R) (id : string) :
  let st := current_state
              (advance_state 0.016 (new_oscillator now id default_parameters)) in
  0.1472 <= w1_projection st <= 0.1475 /\
  1.1569 <= w2_energy st <= 1.1570 /\
  0.9176 <= w3_spin st <= 0.9179 /\
  0.7345 <= w4_mass st <= 0.7349.
Proof.
  cbv zeta.
  rewrite advance_state_w1, advance_state_w2, advance_state_w3, advance_state_w4.
  rewrite new_oscillator_params, new_oscillator_state, new_oscillator_time.
  cbn [default_parameters base_frequency amplitude_w1 amplitude_w2 amplitude_w3
       amplitude_w4 phase_w1 phase_w2 phase_w3 phase_w4 damping_factor
       coupling_strength w1_projection w2_energy w3_spin w4_mass].
  replace (2 * PI * 1.0 * (0.0 + 0.016) + 0.0) with (0.032 * PI) by lra.
  replace (2 * PI * 1.0 * 1.2 * (0.0 + 0.016) + PI / 4) with (0.2884 * PI) by lra.
  replace (2 * PI * 1.0 * 0.8 * (0.0 + 0.016) + PI / 2) with (0.5256 * PI) by lra.
  replace (2 * PI * 1.0 * 1.1 * (0.0 + 0.016) + 3 * PI / 4) with (0.7852 * PI) by lra.
  replace (6 * PI * 1.0 * (0.0 + 0.016)) with (0.096 * PI) by lra.
  pose proof sin_first_axis. pose proof sin_second_axis. pose proof sin_third_axis.
  pose proof sin_fourth_axis. pose proof sin_third_harmonic.
  repeat split; lra.
Qed.

Lemma clamp_balance_zero (r1 r2 r3 r4 : R) :
  1.5 <= r2 + r3 + r4 - r1 ->
  clamp (1 - (Rabs (0.25 - r1) + Rabs (0.25 - r2) +
              Rabs (0.25 - r3) + Rabs (0.25 - r4))) 0 1 = 0.
Proof.
  intros H. unfold clamp, Rabs.
  repeat destruct (Rcase_abs _); repeat destruct (Rlt_dec _ _); lra.
Qed.

Lemma ratios_unbalanced (x1 x2 x3 x4 m : R) :
  0 < m -> m <= 1.7 ->
  Rabs x1 <= 0.148 -> 1.155 <= x2 -> 0.917 <= x3 -> 0.734 <= x4 ->
  1.5 <= Rabs x2 / m + Rabs x3 / m + Rabs x4 / m - Rabs x1 / m.
Proof.
  intros Hm0 Hm H1 H2 H3 H4.
  rewrite (Rabs_right x2), (Rabs_right x3), (Rabs_right x4) by lra.
  assert (Hi : / 1.7 <= / m) by (apply Rinv_le_contravar; lra).
  assert (Hi0 : 0 < / m) by (apply Rinv_0_lt_compat; exact Hm0).
  replace (x2 / m + x3 / m + x4 / m - Rabs x1 / m)
    with ((x2 + x3 + x4 - Rabs x1) * / m) by (unfold Rdiv; ring).
  assert (Hn : 2.658 <= x2 + x3 + x4 - Rabs x1) by lra.
  assert (H17 : 0.588 <= / 1.7) by lra.
  nra.
Qed.

Lemma sqrt_le_bound (x y : R) : 0 <= x -> 0 <= y -> x <= y * y -> sqrt x <= y.
Proof.
  intros Hx Hy H. rewrite <- (sqrt_square y Hy). apply sqrt_le_1_alt. exact H.
Qed.

(** Both stability formulas give 0 on a state as lopsided as the one left by
    the first update under the default parameters. *)
Lemma stability_zero_on_lopsided_state (st : FourDimensionalState) :
  0.1472 <= w1_projection st <= 0.1475 ->
  1.1569 <= w2_energy st <= 1.1570 ->
  0.9176 <= w3_spin st <= 0.9179 ->
  0.7345 <= w4_mass st <= 0.7349 ->
  guarded_stability_formula st = 0 /\ stability_formula st = 0.
Proof.
  intros H1 H2 H3 H4.
  assert (Hs : 2 <= sum_squares st <= 2.8) by (unfold sum_squares; nra).
  assert (Hm : sqrt (sum_squares st) <= 1.68) by (apply sqrt_le_bound; lra).
  assert (Hm0 : 0 < sqrt (sum_squares st)) by (apply sqrt_lt_R0; lra).
  assert (Ha : Rabs (w1_projection st) <= 0.148) by (rewrite Rabs_right; lra).
  unfold guarded_stability_formula, stability_formula. cbv zeta.
  split.
  - apply clamp_balance_zero. apply ratios_unbalanced; lra.
  - destruct (Req_dec_T _ 0) as [E | _]; [reflexivity |].
    apply clamp_balance_zero. apply ratios_unbalanced; lra.
Qed.

(** C2, as the code has it.  One [update_oscillations(0.016)] of a new
    oscillator with the default parameters leaves a state within 1e-3 of
    (0.147, 1.156, 0.918, 0.735), a phase coherence of exactly 1, and as
    stability the value of the stability formula of the specification on the
    new state (which is 0). *)
Theorem default_first_update (now : R) (id : string) :
  exists o',
    Engine.update_oscillations 0.016 (new_oscillator now id default_parameters) = Ok o' /\
    Rabs (w1_projection (current_state o') - 0.147) <= 1e-3 /\
    Rabs (w2_energy (current_state o') - 1.156) <= 1e-3 /\
    Rabs (w3_spin (current_state o') - 0.918) <= 1e-3 /\
    Rabs (w4_mass (current_state o') - 0.735) <= 1e-3 /\
    phase_coherence o' = 1 /\
    stability_factor o' = stability_formula (current_state o') /\
    stability_factor o' = 0.
Proof.
  exists (updated guarded_stability_formula 0.016
            (new_oscillator now id default_parameters)).
  split; [apply engine_update_ok |].
  rewrite updated_stability, updated_phase_coherence, updated_current_state.
  destruct (default_first_state now id) as (H1 & H2 & H3 & H4).
  destruct (stability_zero_on_lopsided_state _ H1 H2 H3 H4) as [G S].
  rewrite G, S.
  repeat split; try (apply Rabs_le; lra).
Qed.

(** C2, the claim as it is worded.  The fourth axis is left near 0.7347,
    more than 1e-3 away from 0.739. *)
Lemma default_first_update_fourth_axis :
  exists o',
    Engine.update_oscillations 0.016 (new_oscillator 0 "p" default_parameters) = Ok o' /\
    ~ Rabs (w4_mass (current_state o') - 0.739) <= 1e-3.
Proof.
  exists (updated guarded_stability_formula 0.016
            (new_oscillator 0 "p" default_parameters)).
  split; [apply engine_update_ok |].
  rewrite updated_current_state.
  destruct (default_first_state 0 "p") as (_ & _ & _ & H4).
  intros H. rewrite Rabs_left in H by lra. lra.
Qed.

Lemma noisy_started_fields :
  oscillators noisy_started = oscillators three_started /\
  is_running noisy_started = true /\
  dt noisy_started = 1.0 / 60 /\
  environmental_noise noisy_started = 0.1.
Proof.
  repeat split.
  unfold noisy_started, update_simulation_config.
  cbn [environmental_noise set_environmental_noise].
  unfold Rmax, Rmin. repeat destruct (Rle_dec _ _); lra.
Qed.

(** C8, the claim as it is worded.  With [environmental_noise] at 0.1 a
    normal variate of -12 makes the noise factor -0.2, and the tick moves the
    clock of the first oscillator back from 0 to -0.2/60. *)
Lemma elapsed_time_moves_back :
  exists s1 o o',
    Engine.update_simulation 1 (constant_draws (-12)) noisy_started = Ok s1 /\
    dict_get "a" (oscillators noisy_started) = Some o /\
    dict_get "a" (oscillators s1) = Some o' /\
    current_time o' < current_time o.
Proof.
  destruct noisy_started_fields as (Hosc & Hrun & Hdt & Hnoise).
  destruct (engine_tick_clock 1 (constant_draws (-12)) noisy_started Hrun)
    as (s1 & Hs1 & Hkeys & Hclock).
  destruct (Hclock 0%nat (new_oscillator 0 "a" (quiet_parameters 1 1)))
    as (o' & Ho' & Ht).
  { rewrite Hosc, three_started_oscillators. reflexivity. }
  exists s1, (new_oscillator 0 "a" (quiet_parameters 1 1)), o'.
  split; [exact Hs1 |].
  split; [rewrite Hosc, three_started_oscillators; reflexivity |].
  split.
  - rewrite Hosc, three_started_oscillators in Hkeys.
    destruct (oscillators s1) as [| [k0 v0] rest]; [discriminate |].
    cbn [map fst] in Hkeys. injection Hkeys as Hk0 _. subst k0.
    cbn [dict_values map snd nth_error] in Ho'. injection Ho' as ->.
    reflexivity.
  - rewrite Ht, Hdt, Hnoise, new_oscillator_time.
    unfold gaussian, constant_draws. lra.
Qed.

(** * Further properties *)

(** ** The registry as a dict *)

Lemma dict_mem_in (k : string) (d : registry) :
  dict_mem k d = true <-> In k (map fst d).
Proof.
  unfold dict_mem. induction d as [| [k' v] d IH]; cbn [dict_get map fst In].
  - split; [discriminate | contradiction].
  - destruct (String.eqb_spec k k') as [E | N].
    + split; [intros _; left; symmetry; exact E | reflexivity].
    + rewrite IH. split; [intros H; right; exact H |].
      intros [H | H]; [congruence | exact H].
Qed.

Lemma dict_mem_false (k : string) (d : registry) :
  dict_mem k d = false <-> ~ In k (map fst d).
Proof.
  rewrite <- dict_mem_in. destruct (dict_mem k d); split; congruence.
Qed.

Lemma dict_get_none (k : string) (d : registry) :
  dict_get k d = None <-> ~ In k (map fst d).
Proof.
  rewrite <- dict_mem_false. unfold dict_mem.
  destruct (dict_get k d); split; congruence.
Qed.

Lemma dict_set_keys (k : string) (v : TetrahedronOscillator) (d : registry) :
  map fst (dict_set k v d) =
    if dict_mem k d then map fst d else map fst d ++ [k].
Proof.
  destruct (dict_mem k d) eqn:E.
  - apply dict_set_present. exact E.
  - rewrite (dict_set_absent k v d E), map_app. reflexivity.
Qed.

Lemma dict_set_nodup (k : string) (v : TetrahedronOscillator) (d : registry) :
  NoDup (map fst d) -> NoDup (map fst (dict_set k v d)).
Proof.
  intros H. rewrite dict_set_keys. destruct (dict_mem k d) eqn:E; [exact H |].
  apply dict_mem_false in E.
  apply NoDup_app; [exact H | constructor; [intros [] | constructor] |].
  intros x Hx [Hk | []]. subst x. contradiction.
Qed.

Lemma dict_set_forall (P : string * TetrahedronOscillator -> Prop) (k : string)
    (v : TetrahedronOscillator) (d : registry) :
  P (k, v) -> Forall P d -> Forall P (dict_set k v d).
Proof.
  intros Hv H. induction H as [| [k' v'] d Hx Hd IH]; cbn [dict_set].
  - constructor; [exact Hv | constructor].
  - destruct (String.eqb_spec k k') as [E | N].
    + subst k'. constructor; assumption.
    + constructor; assumption.
Qed.

Lemma dict_del_keys_incl (k x : string) (d : registry) :
  In x (map fst (dict_del k d)) -> In x (map fst d).
Proof.
  induction d as [| [k' v] d IH]; cbn [dict_del map fst In]; [contradiction |].
  destruct (String.eqb k k').
  - intros H. right. exact H.
  - cbn [map fst In]. intros [H | H]; [left; exact H | right; apply IH; exact H].
Qed.

Lemma dict_del_nodup (k : string) (d : registry) :
  NoDup (map fst d) -> NoDup (map fst (dict_del k d)).
Proof.
  induction d as [| [k' v] d IH]; cbn [dict_del map fst]; intros H.
  - constructor.
  - inversion H as [| x l Hnin Hnd]; subst.
    destruct (String.eqb k k'); [exact Hnd |].
    cbn [map fst]. constructor; [| apply IH; exact Hnd].
    intros Hin. apply Hnin. apply (dict_del_keys_incl k). exact Hin.
Qed.

Lemma dict_del_forall (P : string * TetrahedronOscillator -> Prop) (k : string)
    (d : registry) :
  Forall P d -> Forall P (dict_del k d).
Proof.
  intros H. induction H as [| [k' v'] d Hx Hd IH]; cbn [dict_del].
  - constructor.
  - destruct (String.eqb k k'); [exact Hd | constructor; assumption].
Qed.

Lemma dict_del_gone (k : string) (d : registry) :
  NoDup (map fst d) -> dict_get k (dict_del k d) = None.
Proof.
  induction d as [| [k' v] d IH]; cbn [dict_del map fst]; intros H.
  - reflexivity.
  - inversion H as [| x l Hnin Hnd]; subst.
    destruct (String.eqb_spec k k') as [E | N].
    + subst k'. apply dict_get_none. exact Hnin.
    + cbn [dict_get]. destruct (String.eqb_spec k k'); [contradiction |].
      apply IH. exact Hnd.
Qed.

Lemma dict_del_other (k k' : string) (d : registry) :
  String.eqb k' k = false -> dict_get k' (dict_del k d) = dict_get k' d.
Proof.
  intros Hne. induction d as [| [k0 v0] d IH]; cbn [dict_del dict_get].
  - reflexivity.
  - destruct (String.eqb_spec k k0) as [E | N].
    + subst k0. rewrite Hne. reflexivity.
    + cbn [dict_get]. rewrite IH. reflexivity.
Qed.

Lemma dict_del_length (k : string) (d : registry) :
  dict_mem k d = true -> S (length (dict_del k d)) = length d.
Proof.
  unfold dict_mem. induction d as [| [k' v] d IH]; cbn [dict_get dict_del].
  - discriminate.
  - destruct (String.eqb k k'); intros H; [reflexivity |].
    cbn [length]. rewrite (IH H). reflexivity.
Qed.

Lemma dict_del_absent (k : string) (d : registry) :
  dict_mem k d = false -> dict_del k d = d.
Proof.
  unfold dict_mem. induction d as [| [k' v] d IH]; cbn [dict_get dict_del].
  - reflexivity.
  - destruct (String.eqb k k'); intros H; [discriminate |].
    rewrite (IH H). reflexivity.
Qed.

Lemma dict_del_appended (k : string) (v : TetrahedronOscillator) (d : registry) :
  dict_mem k d = false -> dict_del k (d ++ [(k, v)]) = d.
Proof.
  unfold dict_mem. induction d as [| [k' v'] d IH]; cbn [dict_get dict_del app].
  - rewrite String.eqb_refl. reflexivity.
  - destruct (String.eqb k k'); intros H; [discriminate |].
    rewrite (IH H). reflexivity.
Qed.

Lemma Forall2_rebind (rel : TetrahedronOscillator -> TetrahedronOscillator -> Prop)
    (P : string * TetrahedronOscillator -> Prop) (d : registry) :
  (forall k o o', rel o o' -> P (k, o) -> P (k, o')) ->
  forall vs,
    Forall2 rel (dict_values d) vs -> Forall P d -> Forall P (dict_rebind d vs).
Proof.
  intros Hstep. unfold dict_values, dict_rebind.
  induction d as [| [k o] d IH]; intros vs H2 HP; cbn [map fst snd] in *.
  - inversion H2; subst. constructor.
  - inversion H2 as [| a b la lb Hr Hrest]; subst.
    inversion HP as [| x l Hx Hl]; subst.
    cbn [combine]. constructor; [apply (Hstep k o b Hr Hx) | apply IH; assumption].
Qed.

Lemma Forall2_length_values {A B : Type} (rel : A -> B -> Prop) (l : list A) (l' : list B) :
  Forall2 rel l l' -> length l' = length l.
Proof. intros H. induction H; cbn [length]; congruence. Qed.

(** ** What a tick does to each oscillator *)

Lemma Forall2_refl_on {A : Type} (rel : A -> A -> Prop) (l : list A) :
  (forall a, rel a a) -> Forall2 rel l l.
Proof. intros H. induction l; constructor; auto. Qed.

Lemma Forall2_compose {A B C : Type} (r1 : A -> B -> Prop) (r2 : B -> C -> Prop)
    (r3 : A -> C -> Prop) :
  (forall a b c, r1 a b -> r2 b c -> r3 a c) ->
  forall l1 l2 l3, Forall2 r1 l1 l2 -> Forall2 r2 l2 l3 -> Forall2 r3 l1 l3.
Proof.
  intros H l1 l2 l3 H1. revert l3.
  induction H1 as [| a b la lb Hab Hl IH]; intros l3 H2; inversion H2; subst.
  - constructor.
  - constructor; [eapply H; eassumption | apply IH; assumption].
Qed.

Section PassRelation.

(** A relation every exchange respects on both of its oscillators is
    respected, position by position, by the loops. *)
Variable g : R.
Variable rel : TetrahedronOscillator -> TetrahedronOscillator -> Prop.
Hypothesis rel_refl : forall a, rel a a.
Hypothesis rel_trans : forall a b c, rel a b -> rel b c -> rel a c.
Hypothesis rel_couple : forall a b,
  rel a (fst (Engine.couple g a b)) /\ rel b (snd (Engine.couple g a b)).

Lemma couple_inner_rel (later : list TetrahedronOscillator) :
  forall o1,
    rel o1 (fst (Engine.couple_inner g o1 later)) /\
    Forall2 rel later (snd (Engine.couple_inner g o1 later)).
Proof.
  induction later as [| o2 rest IH]; intros o1.
  - split; [apply rel_refl | constructor].
  - rewrite couple_inner_eq. cbn [fst snd].
    destruct (IH (fst (Engine.couple g o1 o2))) as [H1 H2].
    destruct (rel_couple o1 o2) as [H3 H4].
    split; [eapply rel_trans; eassumption | constructor; assumption].
Qed.

Lemma couple_outer_rel (fuel : nat) :
  forall l, Forall2 rel l (Engine.couple_outer g fuel l).
Proof.
  induction fuel as [| fuel IH]; intros l.
  - destruct l; apply Forall2_refl_on; exact rel_refl.
  - destruct l as [| o1 later]; [constructor |].
    rewrite couple_outer_eq.
    destruct (couple_inner_rel later o1) as [H1 H2].
    constructor; [exact H1 |].
    eapply (Forall2_compose rel rel rel rel_trans); [exact H2 | apply IH].
Qed.

Lemma coupling_pass_rel (l : list TetrahedronOscillator) :
  Forall2 rel l (coupling_pass g l).
Proof. rewrite <- couple_outer_coupling_pass. apply couple_outer_rel. Qed.

End PassRelation.

Lemma state_written_refl (o : TetrahedronOscillator) : state_written o o.
Proof. exists (current_state o). destruct o. reflexivity. Qed.

Lemma state_written_trans (a b c : TetrahedronOscillator) :
  state_written a b -> state_written b c -> state_written a c.
Proof. intros [s1 ->] [s2 ->]. exists s2. reflexivity. Qed.

Lemma coupling_pass_writes_states (g : R) (l : list TetrahedronOscillator) :
  Forall2 state_written l (coupling_pass g l).
Proof.
  apply coupling_pass_rel.
  - exact state_written_refl.
  - exact state_written_trans.
  - intros a b. split; eexists; reflexivity.
Qed.

Lemma updated_each_ticked (stability : FourDimensionalState -> R) (steps : nat -> R)
    (l l1 : list TetrahedronOscillator) :
  Forall2 state_written l l1 ->
  forall a,
    Forall2 (ticked stability) l
      (map (fun ko => updated stability (steps (fst ko)) (snd ko))
           (combine (seq a (length l1)) l1)).
Proof.
  intros H. induction H as [| o o1 l l1 [st ->] Hl IH]; intros a.
  - constructor.
  - cbn [length seq combine map fst snd]. constructor; [| apply IH].
    exists st, (steps a). reflexivity.
Qed.

Lemma performance_metrics_full (now : R) (s : ParticleOscillationSimulation) :
  (0 <= update_count s)%Z -> 0 <= current_fps s ->
  exists s',
    _update_performance_metrics now s = Ok s' /\
    oscillators s' = oscillators s /\
    simulation_time s' = simulation_time s /\
    is_running s' = is_running s /\
    update_rate s' = update_rate s /\
    dt s' = dt s /\
    global_coupling s' = global_coupling s /\
    environmental_noise s' = environmental_noise s /\
    (0 <= update_count s')%Z /\
    0 <= current_fps s'.
Proof.
  intros Hc Hf. unfold _update_performance_metrics. cbv zeta.
  cbn [last_fps_time set_update_count update_count].
  destruct (Rle_dec 1.0 (now - last_fps_time s)) as [H | H].
  - rewrite float_div_ok by lra. cbn [bind].
    eexists. split; [reflexivity |]. repeat split; try reflexivity.
    cbn [current_fps set_last_fps_time set_update_count set_current_fps].
    apply Rmult_le_pos.
    + apply IZR_le. lia.
    + apply Rlt_le, Rinv_0_lt_compat. lra.
  - eexists. split; [reflexivity |]. repeat split; try reflexivity; try assumption.
    cbn [update_count set_update_count]. lia.
Qed.

Section TickValues.

Variable stability : FourDimensionalState -> R.
Variable update : R -> TetrahedronOscillator -> result TetrahedronOscillator.
Hypothesis update_ok : forall dt o, update dt o = Ok (updated stability dt o).

(** A running tick, with or without the coupling pass: every oscillator is
    written and updated once, under its own key, and everything else of the
    simulation but its clock and the FPS accounting stays. *)
Lemma tick_steps_values (with_coupling : bool) (now : R) (z : nat -> R)
    (s : ParticleOscillationSimulation) :
  is_running s = true ->
  (0 <= update_count s)%Z -> 0 <= current_fps s ->
  exists s' vs,
    tick_steps with_coupling update now z s = Ok s' /\
    oscillators s' = dict_rebind (oscillators s) vs /\
    Forall2 (ticked stability) (dict_values (oscillators s)) vs /\
    simulation_time s' = simulation_time s + dt s /\
    is_running s' = true /\
    update_rate s' = update_rate s /\
    dt s' = dt s /\
    global_coupling s' = global_coupling s /\
    environmental_noise s' = environmental_noise s /\
    (0 <= update_count s')%Z /\
    0 <= current_fps s'.
Proof.
  intros Hrun Hc Hf. unfold tick_steps. rewrite Hrun. cbv zeta.
  rewrite (sequence_updated stability update
             (fun k => dt s * gaussian 1 (environmental_noise s) (z k)) update_ok).
  cbn [bind].
  match goal with
  | |- exists s' vs, _update_performance_metrics now ?x = _ /\ _ =>
      destruct (performance_metrics_full now x Hc Hf)
        as (s' & Hs' & Ho & Ht & Hr & Hu & Hd & Hg & Hn & Hc' & Hf')
  end.
  cbn [oscillators set_oscillators set_simulation_time simulation_time is_running
       update_rate dt global_coupling environmental_noise] in Ho, Ht, Hr, Hu, Hd, Hg, Hn.
  exists s'. eexists. split; [exact Hs' |]. split; [exact Ho |].
  split.
  { apply (updated_each_ticked stability
             (fun k => dt s * gaussian 1 (environmental_noise s) (z k))).
    destruct with_coupling.
    - apply coupling_pass_writes_states.
    - apply Forall2_refl_on. exact state_written_refl. }
  rewrite Ht, Hr, Hu, Hd, Hg, Hn. repeat split; try assumption.
Qed.

End TickValues.

(** ** What every commanded simulation keeps *)

Lemma stability_formula_bounds (st : FourDimensionalState) :
  0 <= stability_formula st <= 1.
Proof.
  unfold stability_formula. cbv zeta.
  destruct (Req_dec_T _ 0); [lra | apply clamp_bounds; lra].
Qed.

Lemma guarded_stability_formula_bounds (st : FourDimensionalState) :
  0 <= guarded_stability_formula st <= 1.
Proof. unfold guarded_stability_formula. apply clamp_bounds. lra. Qed.

Lemma new_oscillator_entry_ok (now : R) (k : string) (p : OscillationParameters) :
  entry_ok (k, new_oscillator now k p).
Proof.
  unfold entry_ok. cbn [fst snd].
  split; [reflexivity |]. split; [reflexivity |].
  rewrite new_oscillator_history. split; [cbn [length]; lia |].
  split.
  - change (stability_factor (new_oscillator now k p)) with 1.0. lra.
  - change (phase_coherence (new_oscillator now k p)) with 1.0. lra.
Qed.

Lemma ticked_entry_ok (stability : FourDimensionalState -> R) (k : string)
    (o o' : TetrahedronOscillator) :
  (forall st, 0 <= stability st <= 1) ->
  ticked stability o o' -> entry_ok (k, o) -> entry_ok (k, o').
Proof.
  intros Hst (st & step & ->) (Hid & Hmax & Hlen & _ & _).
  unfold entry_ok in *. cbn [fst snd] in *.
  rewrite updated_particle_id, updated_max_history, updated_stability,
          updated_phase_coherence.
  assert (Hmax' : max_history (set_current_state o st) = 1000%nat) by exact Hmax.
  rewrite updated_history by (rewrite Hmax'; lia).
  rewrite Hmax', lastn_length.
  split; [exact Hid |]. split; [reflexivity |]. split; [lia |].
  split; [apply Hst | apply coherence_formula_bounds].
Qed.

Lemma clamp_to_range (lo lo' hi hi' v : R) :
  lo' = lo -> hi' = hi -> lo <= hi -> lo <= Rmax lo' (Rmin hi' v) <= hi.
Proof.
  intros -> -> H. unfold Rmax, Rmin.
  destruct (Rle_dec hi v); destruct (Rle_dec lo _); lra.
Qed.

Lemma update_simulation_config_ok (g n : option R) (r : option Z)
    (s : ParticleOscillationSimulation) :
  config_ok s -> config_ok (update_simulation_config g n r s).
Proof.
  intros (Hg & Hn & Hr & Hd). unfold update_simulation_config, config_ok.
  destruct g as [g |], n as [n |], r as [r |]; cbv zeta;
    cbn [global_coupling environmental_noise update_rate dt set_global_coupling
         set_environmental_noise set_update_rate set_dt];
    (split; [first [apply clamp_to_range; lra | exact Hg] |]);
    (split; [first [apply clamp_to_range; lra | exact Hn] |]);
    (split; [first [exact Hr | lia] | first [exact Hd | reflexivity]]).
Qed.

Lemma update_simulation_config_keeps (g n : option R) (r : option Z)
    (s : ParticleOscillationSimulation) :
  oscillators (update_simulation_config g n r s) = oscillators s /\
  simulation_time (update_simulation_config g n r s) = simulation_time s /\
  is_running (update_simulation_config g n r s) = is_running s /\
  update_count (update_simulation_config g n r s) = update_count s /\
  current_fps (update_simulation_config g n r s) = current_fps s.
Proof.
  unfold update_simulation_config.
  destruct g, n, r; repeat split.
Qed.

Lemma new_simulation_ok (now : R) : simulation_ok (new_simulation now).
Proof.
  unfold simulation_ok, config_ok. cbn [new_simulation oscillators global_coupling
    environmental_noise update_rate dt simulation_time update_count current_fps map].
  split; [constructor |]. split; [constructor |].
  repeat split; try lra; try lia.
Qed.

Lemma config_ok_same (s s' : ParticleOscillationSimulation) :
  global_coupling s' = global_coupling s ->
  environmental_noise s' = environmental_noise s ->
  update_rate s' = update_rate s ->
  dt s' = dt s ->
  config_ok s -> config_ok s'.
Proof. unfold config_ok. intros -> -> -> ->. exact (fun H => H). Qed.

Lemma config_ok_dt_positive (s : ParticleOscillationSimulation) :
  config_ok s -> 0 < dt s.
Proof.
  intros (_ & _ & Hr & ->).
  apply Rmult_lt_0_compat; [lra |].
  apply Rinv_0_lt_compat, IZR_lt. lia.
Qed.

Lemma run_command_ok (engine : bool) (c : command)
    (s : ParticleOscillationSimulation) :
  simulation_ok s ->
  exists s', run_command engine c s = Ok s' /\ simulation_ok s'.
Proof.
  intros Hs. pose proof Hs as (Hnd & Hall & Hcfg & Ht & Hc & Hf).
  pose proof Hcfg as (Hcg & Hcn & Hcr & Hcd).
  destruct c as [now u id params | id | now z | | | | g n r]; cbn [run_command].
  - eexists. split; [reflexivity |].
    unfold create_oscillator. cbn [snd]. unfold simulation_ok.
    cbn [oscillators set_oscillators simulation_time update_count current_fps].
    split; [apply dict_set_nodup; exact Hnd |].
    split; [apply dict_set_forall; [apply new_oscillator_entry_ok | exact Hall] |].
    split; [exact Hcfg |]. split; [exact Ht |]. split; assumption.
  - eexists. split; [reflexivity |].
    unfold remove_oscillator. destruct (dict_mem id (oscillators s)); cbn [snd].
    + unfold simulation_ok.
      cbn [oscillators set_oscillators simulation_time update_count current_fps].
      split; [apply dict_del_nodup; exact Hnd |].
      split; [apply dict_del_forall; exact Hall |].
      split; [exact Hcfg |]. split; [exact Ht |]. split; assumption.
    + exact Hs.
  - destruct (is_running s) eqn:Hrun.
    + assert (Htick : exists (stability : FourDimensionalState -> R) s' vs,
                (forall st, 0 <= stability st <= 1) /\
                (if engine then Engine.update_simulation now z s
                 else Server.update_simulation now z s) = Ok s' /\
                oscillators s' = dict_rebind (oscillators s) vs /\
                Forall2 (ticked stability) (dict_values (oscillators s)) vs /\
                simulation_time s' = simulation_time s + dt s /\
                is_running s' = true /\
                update_rate s' = update_rate s /\
                dt s' = dt s /\
                global_coupling s' = global_coupling s /\
                environmental_noise s' = environmental_noise s /\
                (0 <= update_count s')%Z /\
                0 <= current_fps s').
      { destruct engine.
        - destruct (tick_steps_values guarded_stability_formula Engine.update_oscillations
                      engine_update_ok true now z s Hrun Hc Hf) as (s' & vs & H).
          exists guarded_stability_formula, s', vs.
          split; [exact guarded_stability_formula_bounds |].
          rewrite engine_tick_steps. exact H.
        - destruct (tick_steps_values stability_formula Server.update_oscillations
                      server_update_ok false now z s Hrun Hc Hf) as (s' & vs & H).
          exists stability_formula, s', vs.
          split; [exact stability_formula_bounds |].
          rewrite server_tick_steps. exact H. }
      destruct Htick as (stability & s' & vs & Hst & Hs' & Ho & H2 & Ht' & _ & Hu & Hd
                         & Hg & Hn & Hc' & Hf').
      exists s'. split; [exact Hs' |].
      assert (Hlen : length vs = length (oscillators s)).
      { rewrite (Forall2_length_values _ _ _ H2). apply dict_values_length. }
      unfold simulation_ok. rewrite Ho, Ht'.
      split; [rewrite dict_rebind_keys by exact Hlen; exact Hnd |].
      split.
      { apply (Forall2_rebind (ticked stability)); [| exact H2 | exact Hall].
        intros k o o'. apply ticked_entry_ok. exact Hst. }
      split; [apply (config_ok_same s); assumption |].
      pose proof (config_ok_dt_positive s Hcfg).
      split; [lra |]. split; assumption.
    + exists s. split.
      * destruct engine.
        -- unfold Engine.update_simulation. rewrite Hrun. reflexivity.
        -- unfold Server.update_simulation. rewrite Hrun. reflexivity.
      * exact Hs.
  - eexists. split; [reflexivity |]. exact Hs.
  - eexists. split; [reflexivity |]. exact Hs.
  - eexists. split; [reflexivity |].
    unfold reset_simulation, simulation_ok. cbv zeta.
    cbn [oscillators set_oscillators set_is_running set_simulation_time
         simulation_time update_count current_fps map].
    split; [constructor |]. split; [constructor |].
    split; [exact Hcfg |]. split; [lra |]. split; assumption.
  - eexists. split; [reflexivity |].
    destruct (update_simulation_config_keeps g n r s) as (Eo & Et & _ & Ec & Ef).
    unfold simulation_ok. rewrite Eo, Et, Ec, Ef.
    split; [exact Hnd |]. split; [exact Hall |].
    split; [apply update_simulation_config_ok; exact Hcfg |].
    split; [exact Ht |]. split; assumption.
Qed.

Lemma run_commands_ok (engine : bool) (cs : list command) :
  forall s,
    simulation_ok s ->
    exists s', run_commands engine cs s = Ok s' /\ simulation_ok s'.
Proof.
  induction cs as [| c cs IH]; intros s Hs.
  - exists s. split; [reflexivity | exact Hs].
  - cbn [run_commands].
    destruct (run_command_ok engine c s Hs) as (s1 & -> & Hs1). cbn [bind].
    apply IH. exact Hs1.
Qed.

(** X1.  Whatever commands are sent to a new coordinator, of either file,
    every oscillator of the registry they leave has a stability and a phase
    coherence in [0, 1] and at most 1000 history entries. *)
Theorem commanded_oscillators_in_range (engine : bool) (now0 : R) (cs : list command) :
  exists s,
    run_commands engine cs (new_simulation now0) = Ok s /\
    Forall (fun entry =>
              0 <= stability_factor (snd entry) <= 1 /\
              0 <= phase_coherence (snd entry) <= 1 /\
              (length (state_history (snd entry)) <= 1000)%nat)
           (oscillators s).
Proof.
  destruct (run_commands_ok engine cs (new_simulation now0) (new_simulation_ok now0))
    as (s & Hrun & _ & Hall & _).
  exists s. split; [exact Hrun |].
  apply Forall_impl with (2 := Hall).
  intros entry (_ & _ & Hlen & Hst & Hco). repeat split; try apply Hst; try apply Hco.
  exact Hlen.
Qed.

(** X2.  Whatever commands are sent to a new coordinator, the registry never
    holds an id twice, and every oscillator carries as [particle_id] the key
    it is stored under. *)
Theorem registry_ids_unique (engine : bool) (now0 : R) (cs : list command) :
  exists s,
    run_commands engine cs (new_simulation now0) = Ok s /\
    NoDup (map fst (oscillators s)) /\
    Forall (fun entry => particle_id (snd entry) = fst entry) (oscillators s).
Proof.
  destruct (run_commands_ok engine cs (new_simulation now0) (new_simulation_ok now0))
    as (s & Hrun & Hnd & Hall & _).
  exists s. split; [exact Hrun |]. split; [exact Hnd |].
  apply Forall_impl with (2 := Hall). intros entry (Hid & _). exact Hid.
Qed.

(** X3.  Whatever commands are sent to a new coordinator, its configuration
    stays in range: global coupling in [0, 1], environmental noise in
    [0, 0.1], update rate in [10, 120], and [dt] the inverse of the update
    rate, hence positive. *)
Theorem configuration_stays_in_range (engine : bool) (now0 : R) (cs : list command) :
  exists s,
    run_commands engine cs (new_simulation now0) = Ok s /\
    0 <= global_coupling s <= 1 /\
    0 <= environmental_noise s <= 0.1 /\
    (10 <= update_rate s <= 120)%Z /\
    dt s = 1 / IZR (update_rate s) /\
    0 < dt s.
Proof.
  destruct (run_commands_ok engine cs (new_simulation now0) (new_simulation_ok now0))
    as (s & Hrun & _ & _ & Hcfg & _).
  exists s. split; [exact Hrun |].
  pose proof (config_ok_dt_positive s Hcfg) as Hpos.
  destruct Hcfg as (Hg & Hn & Hr & Hd).
  split; [exact Hg |]. split; [exact Hn |]. split; [exact Hr |].
  split; [rewrite Hd; lra | exact Hpos].
Qed.

(** X4.  In a coordinator that was only commanded, the simulation time is
    never negative, and one more tick never lowers it: stopped, the tick
    changes nothing; running, it adds [dt], which is positive. *)
Theorem simulation_time_never_decreases (engine : bool) (now0 : R)
    (cs : list command) (now : R) (z : nat -> R) :
  exists s s',
    run_commands engine cs (new_simulation now0) = Ok s /\
    run_command engine (UpdateSimulation now z) s = Ok s' /\
    0 <= simulation_time s /\
    simulation_time s <= simulation_time s' /\
    (if is_running s
     then simulation_time s' = simulation_time s + dt s /\
          simulation_time s < simulation_time s'
     else s' = s).
Proof.
  destruct (run_commands_ok engine cs (new_simulation now0) (new_simulation_ok now0))
    as (s & Hrun & Hs).
  pose proof Hs as (_ & _ & Hcfg & Ht & Hc & Hf).
  pose proof (config_ok_dt_positive s Hcfg) as Hpos.
  exists s. cbn [run_command].
  destruct (is_running s) eqn:Hr.
  - assert (Htick : exists s',
              (if engine then Engine.update_simulation now z s
               else Server.update_simulation now z s) = Ok s' /\
              simulation_time s' = simulation_time s + dt s).
    { destruct engine.
      - destruct (tick_steps_running guarded_stability_formula Engine.update_oscillations
                    engine_update_ok true now z s Hr) as (s' & H & _ & Ht' & _).
        exists s'. rewrite engine_tick_steps. split; assumption.
      - destruct (tick_steps_running stability_formula Server.update_oscillations
                    server_update_ok false now z s Hr) as (s' & H & _ & Ht' & _).
        exists s'. rewrite server_tick_steps. split; assumption. }
    destruct Htick as (s' & Hs' & Ht').
    exists s'. split; [exact Hrun |]. split; [exact Hs' |].
    split; [exact Ht |]. split; [lra |]. split; [exact Ht' | lra].
  - exists s. split; [exact Hrun |].
    split.
    + destruct engine.
      * unfold Engine.update_simulation. rewrite Hr. reflexivity.
      * unfold Server.update_simulation. rewrite Hr. reflexivity.
    + split; [exact Ht |]. split; [lra | reflexivity].
Qed.

(** ** Removing an oscillator *)

(** X5.  In a registry without repeated ids, [remove_oscillator] of an id
    that is present answers [True], after which the id is absent and the
    registry is one shorter; of an absent id it answers [False] and leaves
    the simulation as it was.  In both cases every other id keeps its
    oscillator. *)
Theorem remove_oscillator_removes (s : ParticleOscillationSimulation)
    (id other : string) :
  NoDup (map fst (oscillators s)) ->
  (if dict_mem id (oscillators s)
   then fst (remove_oscillator s id) = true /\
        dict_get id (oscillators (snd (remove_oscillator s id))) = None /\
        S (length (oscillators (snd (remove_oscillator s id)))) = length (oscillators s)
   else fst (remove_oscillator s id) = false /\ snd (remove_oscillator s id) = s) /\
  (if String.eqb other id then True
   else dict_get other (oscillators (snd (remove_oscillator s id))) =
        dict_get other (oscillators s)).
Proof.
  intros Hnd. unfold remove_oscillator.
  destruct (dict_mem id (oscillators s)) eqn:E; cbn [fst snd oscillators set_oscillators].
  - split.
    + split; [reflexivity |]. split; [apply dict_del_gone; exact Hnd |].
      apply dict_del_length. exact E.
    + destruct (String.eqb other id) eqn:N; [exact I |].
      apply dict_del_other. exact N.
  - split; [split; reflexivity |].
    destruct (String.eqb other id); [exact I | reflexivity].
Qed.

Lemma three_started_nodup : NoDup (map fst (oscillators three_started)).
Proof.
  rewrite three_started_oscillators. cbn [map fst].
  repeat constructor; cbn [In]; intuition discriminate.
Defined.

Lemma remove_oscillator_removes_witness :
  (if dict_mem "b" (oscillators three_started)
   then fst (remove_oscillator three_started "b") = true /\
        dict_get "b" (oscillators (snd (remove_oscillator three_started "b"))) = None /\
        S (length (oscillators (snd (remove_oscillator three_started "b")))) =
          length (oscillators three_started)
   else fst (remove_oscillator three_started "b") = false /\
        snd (remove_oscillator three_started "b") = three_started) /\
  (if String.eqb "a" "b" then True
   else dict_get "a" (oscillators (snd (remove_oscillator three_started "b"))) =
        dict_get "a" (oscillators three_started)).
Proof.
  apply (remove_oscillator_removes three_started "b" "a").
  exact three_started_nodup.
Defined.

(** X6.  Creating an oscillator under an id that is not in the registry and
    then removing that id gives back the simulation as it was. *)
Theorem create_then_remove (now : R) (u : nat -> R)
    (s : ParticleOscillationSimulation) (id : string)
    (given : option OscillationParameters) :
  dict_mem id (oscillators s) = false ->
  remove_oscillator (snd (create_oscillator now u s id given)) id = (true, s).
Proof.
  intros Habs. unfold create_oscillator, remove_oscillator.
  cbn [snd oscillators set_oscillators].
  assert (Hmem : forall v, dict_mem id (dict_set id v (oscillators s)) = true).
  { intros v. unfold dict_mem. rewrite dict_get_set_same. reflexivity. }
  rewrite Hmem. f_equal.
  rewrite dict_set_absent by exact Habs.
  rewrite dict_del_appended by exact Habs.
  transitivity (set_oscillators s (oscillators s));
    [reflexivity | apply set_oscillators_same].
Qed.

Lemma create_then_remove_witness :
  remove_oscillator
    (snd (create_oscillator 1 (constant_draws 0) three_started "d" None)) "d" =
  (true, three_started).
Proof.
  apply (create_then_remove 1 (constant_draws 0) three_started "d" None).
  reflexivity.
Defined.

(** ** Energy *)

Lemma energy_of_calculated (x : TetrahedronOscillator) :
  energy_total (_calculate_total_energy x) =
    kinetic_energy (current_state x) +
    0.25 * coupling_strength (params x) * cyclic_products (current_state x).
Proof. reflexivity. Qed.

Lemma updated_energy (stability : FourDimensionalState -> R) (dt : R)
    (o : TetrahedronOscillator) :
  energy_total (updated stability dt o) =
    kinetic_energy (current_state (updated stability dt o)) +
    0.25 * coupling_strength (params o) *
      cyclic_products (current_state (updated stability dt o)).
Proof.
  rewrite updated_current_state. unfold updated. cbv zeta.
  rewrite (proj1 (proj2 (proj2 (proj2 (proj2 (proj2 (proj2 (store_keeps _)))))))).
  change (energy_total (set_phase_coherence ?y ?c)) with (energy_total y).
  rewrite energy_of_calculated. reflexivity.
Qed.

Lemma cyclic_products_bound (s : FourDimensionalState) :
  - sum_squares s <= cyclic_products s <= sum_squares s.
Proof.
  unfold cyclic_products, sum_squares.
  destruct s as [a b c d]. cbn [w1_projection w2_energy w3_spin w4_mass].
  split.
  - pose proof (pow2_ge_0 (a + b)). pose proof (pow2_ge_0 (b + c)).
    pose proof (pow2_ge_0 (c + d)). pose proof (pow2_ge_0 (d + a)). nra.
  - pose proof (pow2_ge_0 (a - b)). pose proof (pow2_ge_0 (b - c)).
    pose proof (pow2_ge_0 (c - d)). pose proof (pow2_ge_0 (d - a)). nra.
Qed.

Lemma energy_formula_bounds (c : R) (s : FourDimensionalState) :
  (0.5 - 0.25 * Rabs c) * sum_squares s <=
    kinetic_energy s + 0.25 * c * cyclic_products s <=
  (0.5 + 0.25 * Rabs c) * sum_squares s.
Proof.
  pose proof (cyclic_products_bound s) as [Hl Hu].
  pose proof (sum_squares_nonneg s) as Hs.
  unfold kinetic_energy, Rabs. destruct (Rcase_abs c); split; nra.
Qed.

(** X7.  The energy an update leaves is the kinetic part, half the sum of
    the squares of the new state, plus a coupling part that is at most a
    quarter of [|coupling_strength|] times that sum in size, whatever the
    coupling strength.  So with a coupling strength of size at most 2 the
    total energy is not negative. *)
Theorem energy_total_within_bounds (dt : R) (o : TetrahedronOscillator) :
  exists o',
    Engine.update_oscillations dt o = Ok o' /\
    (0.5 - 0.25 * Rabs (coupling_strength (params o))) *
      sum_squares (current_state o') <= energy_total o' /\
    energy_total o' <=
      (0.5 + 0.25 * Rabs (coupling_strength (params o))) *
        sum_squares (current_state o') /\
    (Rabs (coupling_strength (params o)) <= 2 -> 0 <= energy_total o').
Proof.
  exists (updated guarded_stability_formula dt o).
  split; [apply engine_update_ok |].
  rewrite updated_energy.
  pose proof (energy_formula_bounds (coupling_strength (params o))
                (current_state (updated guarded_stability_formula dt o))) as [Hl Hu].
  pose proof (sum_squares_nonneg
                (current_state (updated guarded_stability_formula dt o))) as Hs.
  split; [exact Hl |]. split; [exact Hu |].
  intros Hc. apply Rle_trans with (2 := Hl). apply Rmult_le_pos; lra.
Qed.

Lemma energy_total_within_bounds_witness :
  exists o',
    Engine.update_oscillations 0.016 (new_oscillator 0 "p" default_parameters) = Ok o' /\
    0 <= energy_total o'.
Proof.
  destruct (energy_total_within_bounds 0.016 (new_oscillator 0 "p" default_parameters))
    as (o' & Hrun & _ & _ & Hpos).
  exists o'. split; [exact Hrun |]. apply Hpos.
  rewrite new_oscillator_params. cbn [default_parameters coupling_strength].
  rewrite Rabs_right; lra.
Defined.

(** ** The stability of [backend/server.py] *)

Lemma ratios_square_sum (a1 a2 a3 a4 m : R) :
  0 < m -> m * m = a1 * a1 + a2 * a2 + a3 * a3 + a4 * a4 ->
  (a1 / m) * (a1 / m) + (a2 / m) * (a2 / m) + (a3 / m) * (a3 / m) +
  (a4 / m) * (a4 / m) = 1.
Proof.
  intros Hm H.
  replace ((a1 / m) * (a1 / m) + (a2 / m) * (a2 / m) + (a3 / m) * (a3 / m) +
           (a4 / m) * (a4 / m))
    with ((a1 * a1 + a2 * a2 + a3 * a3 + a4 * a4) / (m * m)) by (field; lra).
  rewrite <- H. field. lra.
Qed.

Lemma balance_deficit (r1 r2 r3 r4 : R) :
  0 <= r1 -> 0 <= r2 -> 0 <= r3 -> 0 <= r4 ->
  r1 * r1 + r2 * r2 + r3 * r3 + r4 * r4 = 1 ->
  0.25 <= Rabs (0.25 - r1) + Rabs (0.25 - r2) + Rabs (0.25 - r3) + Rabs (0.25 - r4).
Proof.
  intros H1 H2 H3 H4 Hsum.
  destruct (Rle_lt_dec 0.25
              (Rabs (0.25 - r1) + Rabs (0.25 - r2) + Rabs (0.25 - r3) + Rabs (0.25 - r4)))
    as [H | H]; [exact H | exfalso].
  pose proof (Rabs_pos (0.25 - r1)). pose proof (Rabs_pos (0.25 - r2)).
  pose proof (Rabs_pos (0.25 - r3)). pose proof (Rabs_pos (0.25 - r4)).
  pose proof (Rle_abs (- (0.25 - r1))) as A1. rewrite Rabs_Ropp in A1.
  pose proof (Rle_abs (- (0.25 - r2))) as A2. rewrite Rabs_Ropp in A2.
  pose proof (Rle_abs (- (0.25 - r3))) as A3. rewrite Rabs_Ropp in A3.
  pose proof (Rle_abs (- (0.25 - r4))) as A4. rewrite Rabs_Ropp in A4.
  assert (r1 < 0.5) by lra. assert (r2 < 0.5) by lra.
  assert (r3 < 0.5) by lra. assert (r4 < 0.5) by lra.
  nra.
Qed.

Lemma abs_square (x : R) : Rabs x * Rabs x = x ^ 2.
Proof. unfold Rabs. destruct (Rcase_abs x); ring. Qed.

Lemma stability_formula_at_most (st : FourDimensionalState) :
  stability_formula st <= 0.75.
Proof.
  unfold stability_formula. cbv zeta.
  destruct (Req_dec_T (sqrt (sum_squares st)) 0) as [E | N]; [lra |].
  pose proof (sqrt_pos (sum_squares st)) as Hpos.
  assert (Hm : 0 < sqrt (sum_squares st)) by lra.
  assert (Hsq : sqrt (sum_squares st) * sqrt (sum_squares st) =
                Rabs (w1_projection st) * Rabs (w1_projection st) +
                Rabs (w2_energy st) * Rabs (w2_energy st) +
                Rabs (w3_spin st) * Rabs (w3_spin st) +
                Rabs (w4_mass st) * Rabs (w4_mass st)).
  { rewrite sqrt_sqrt by apply sum_squares_nonneg. rewrite !abs_square.
    reflexivity. }
  pose proof (ratios_square_sum _ _ _ _ _ Hm Hsq) as Hone.
  assert (Hr : forall x, 0 <= Rabs x / sqrt (sum_squares st)).
  { intros x. apply Rmult_le_pos; [apply Rabs_pos |].
    apply Rlt_le, Rinv_0_lt_compat. exact Hm. }
  pose proof (balance_deficit _ _ _ _ (Hr (w1_projection st)) (Hr (w2_energy st))
                (Hr (w3_spin st)) (Hr (w4_mass st)) Hone) as Hdef.
  unfold clamp. repeat destruct (Rlt_dec _ _); lra.
Qed.

(** X8.  The stability an update of [backend/server.py] leaves never exceeds
    0.75: at least one axis carries half of the magnitude or more, which
    alone costs a quarter. *)
Theorem server_stability_at_most_three_quarters (dt : R) (o : TetrahedronOscillator) :
  exists o',
    Server.update_oscillations dt o = Ok o' /\
    0 <= stability_factor o' <= 0.75.
Proof.
  exists (updated stability_formula dt o).
  split; [apply server_update_ok |].
  rewrite updated_stability.
  split; [apply stability_formula_bounds | apply stability_formula_at_most].
Qed.

(** ** More on the coupling pass *)

Section PassInvariant.

(** What each exchange keeps true of both of its oscillators, once true of
    both, stays true of all through the loops. *)
Variable g : R.
Variable P : TetrahedronOscillator -> Prop.
Hypothesis P_couple : forall a b,
  P a -> P b -> P (fst (Engine.couple g a b)) /\ P (snd (Engine.couple g a b)).

Lemma couple_inner_invariant (later : list TetrahedronOscillator) :
  forall o1,
    P o1 -> Forall P later ->
    P (fst (Engine.couple_inner g o1 later)) /\
    Forall P (snd (Engine.couple_inner g o1 later)).
Proof.
  induction later as [| o2 rest IH]; intros o1 H1 Hl.
  - split; [exact H1 | constructor].
  - inversion Hl as [| x l H2 Hrest]; subst.
    rewrite couple_inner_eq. cbn [fst snd].
    destruct (P_couple o1 o2 H1 H2) as [Ha Hb].
    destruct (IH (fst (Engine.couple g o1 o2)) Ha Hrest) as [Hc Hd].
    split; [exact Hc | constructor; assumption].
Qed.

Lemma couple_outer_invariant (fuel : nat) :
  forall l, Forall P l -> Forall P (Engine.couple_outer g fuel l).
Proof.
  induction fuel as [| fuel IH]; intros l Hl.
  - destruct l; exact Hl.
  - destruct l as [| o1 later]; [exact Hl |].
    inversion Hl as [| x l' H1 Hrest]; subst.
    rewrite couple_outer_eq.
    destruct (couple_inner_invariant later o1 H1 Hrest) as [Ha Hb].
    constructor; [exact Ha | apply IH; exact Hb].
Qed.

End PassInvariant.

Lemma couple_in_range (g lo2 hi2 lo3 hi3 : R) (a b : TetrahedronOscillator) :
  0 <= g <= 10 ->
  (lo2 <= w2_of a <= hi2 /\ lo3 <= w3_of a <= hi3) ->
  (lo2 <= w2_of b <= hi2 /\ lo3 <= w3_of b <= hi3) ->
  (lo2 <= w2_of (fst (Engine.couple g a b)) <= hi2 /\
   lo3 <= w3_of (fst (Engine.couple g a b)) <= hi3) /\
  (lo2 <= w2_of (snd (Engine.couple g a b)) <= hi2 /\
   lo3 <= w3_of (snd (Engine.couple g a b)) <= hi3).
Proof.
  intros Hg [Ha2 Ha3] [Hb2 Hb3].
  rewrite couple_fst_w2, couple_snd_w2, couple_fst_w3, couple_snd_w3.
  repeat split; nra.
Qed.

(** X9.  With a global coupling between 0 and 10, the coupling pass never
    takes an oscillator out of the range the registry spans: bounds that
    hold for [w2_energy] and for [w3_spin] of every oscillator before the
    pass hold for every oscillator after it. *)
Theorem coupling_pass_stays_in_range (s : ParticleOscillationSimulation)
    (lo2 hi2 lo3 hi3 : R) :
  0 <= global_coupling s <= 10 ->
  Forall (fun o => lo2 <= w2_of o <= hi2 /\ lo3 <= w3_of o <= hi3)
         (dict_values (oscillators s)) ->
  Forall (fun o => lo2 <= w2_of o <= hi2 /\ lo3 <= w3_of o <= hi3)
         (dict_values (oscillators (Engine._apply_global_coupling s))).
Proof.
  intros Hg Hall. rewrite apply_global_coupling_oscillators.
  rewrite dict_rebind_values
    by (rewrite couple_outer_length; apply dict_values_length).
  apply couple_outer_invariant; [| exact Hall].
  intros a b Ha Hb. apply couple_in_range; assumption.
Qed.

Lemma once_ticked_facts :
  exists a b c,
    Engine.update_simulation 1 (constant_draws 0) three_started = Ok once_ticked /\
    oscillators once_ticked = [("a"%string, a); ("b"%string, b); ("c"%string, c)] /\
    global_coupling once_ticked = 0.05 /\
    (w2_of a = 0 /\ w3_of a = 0.5) /\
    (w2_of b = 0 /\ w3_of b = 0) /\
    (w2_of c = 0 /\ w3_of c = 0).
Proof.
  destruct (first_tick guarded_stability_formula Engine.update_oscillations
              engine_update_ok true 1 0)
    as (s1 & a & b & c & Hs1 & Ho & _ & Hg & _ & _ & _ & (_ & A2 & A3 & _) &
        (_ & B2 & B3 & _) & (_ & C2 & C3 & _) & _).
  rewrite <- engine_tick_steps in Hs1.
  assert (E : once_ticked = s1) by (unfold once_ticked; rewrite Hs1; reflexivity).
  exists a, b, c. rewrite E.
  split; [exact Hs1 |]. split; [exact Ho |]. split; [exact Hg |].
  repeat split; assumption.
Qed.

(** On [once_ticked] the pass does move the oscillators: it lowers the
    [w3_spin] of "a". *)
Lemma coupling_pass_moves_once_ticked :
  exists a a',
    dict_get "a" (oscillators once_ticked) = Some a /\
    dict_get "a" (oscillators (Engine._apply_global_coupling once_ticked)) = Some a' /\
    w3_of a' < w3_of a.
Proof.
  destruct once_ticked_facts
    as (a & b & c & _ & Ho & Hg & (A2 & A3) & (B2 & B3) & (C2 & C3)).
  exists a. eexists.
  rewrite apply_global_coupling_eq. cbn [oscillators set_oscillators].
  rewrite Ho. cbn [dict_values map snd]. rewrite coupling_pass_three.
  cbn [dict_rebind map fst combine].
  split; [reflexivity |]. split; [reflexivity |].
  rewrite couple_fst_w3, couple_fst_w3, A3, B3, C3, Hg. lra.
Qed.

(** The bounds on [once_ticked], where the oscillators differ ("a" is at
    [w3_spin] 0.5, the other two at 0) and the pass moves all three. *)
Lemma coupling_pass_stays_in_range_witness :
  Forall (fun o => 0 <= w2_of o <= 0 /\ 0 <= w3_of o <= 0.5)
         (dict_values (oscillators (Engine._apply_global_coupling once_ticked))).
Proof.
  destruct once_ticked_facts
    as (a & b & c & _ & Ho & Hg & (A2 & A3) & (B2 & B3) & (C2 & C3)).
  apply (coupling_pass_stays_in_range once_ticked 0 0 0 0.5).
  - rewrite Hg. lra.
  - rewrite Ho. cbn [dict_values map snd].
    repeat (apply Forall_cons; [lra |]). apply Forall_nil.
Defined.

Lemma couple_without_coupling (a b : TetrahedronOscillator) :
  fst (Engine.couple 0 a b) = a /\ snd (Engine.couple 0 a b) = b.
Proof.
  unfold Engine.couple. cbv zeta. cbn [fst snd].
  destruct a as [ia pa ca ta da [a1 a2 a3 a4] ha ma sa ea fa].
  destruct b as [ib pb cb tb db [b1 b2 b3 b4] hb mb sb eb fb].
  unfold set_current_state.
  cbn [particle_id params creation_time current_time osc_dt
       current_state state_history max_history stability_factor energy_total
       phase_coherence w1_projection w2_energy w3_spin w4_mass].
  split; f_equal; f_equal; lra.
Qed.

Lemma Forall2_flip_eq {A : Type} (l l' : list A) :
  Forall2 (fun a b => b = a) l l' -> l' = l.
Proof. intros H. induction H; [reflexivity | congruence]. Qed.

(** X10.  With a global coupling of 0 the coupling pass leaves the whole
    simulation exactly as it was. *)
Theorem coupling_pass_without_coupling (s : ParticleOscillationSimulation) :
  global_coupling s = 0 -> Engine._apply_global_coupling s = s.
Proof.
  intros Hg. rewrite apply_global_coupling_eq, Hg.
  assert (H : coupling_pass 0 (dict_values (oscillators s)) = dict_values (oscillators s)).
  { apply Forall2_flip_eq.
    apply (coupling_pass_rel 0 (fun a b => b = a)).
    - reflexivity.
    - intros a b c -> ->. reflexivity.
    - intros a b. apply couple_without_coupling. }
  rewrite H, dict_rebind_same. apply set_oscillators_same.
Qed.

Lemma uncoupled_ticked_coupling : global_coupling uncoupled_ticked = 0.
Proof.
  unfold uncoupled_ticked, update_simulation_config.
  cbn [global_coupling set_global_coupling].
  unfold Rmax, Rmin. repeat destruct (Rle_dec _ _); lra.
Defined.

(** With the coupling 0.05 it has, the pass does change [once_ticked]. *)
Lemma coupling_pass_changes_once_ticked :
  Engine._apply_global_coupling once_ticked <> once_ticked.
Proof.
  destruct coupling_pass_moves_once_ticked as (a & a' & Ha & Ha' & Hlt).
  intros E. rewrite E, Ha in Ha'. injection Ha' as ->. lra.
Qed.

(** The same registry with the coupling set to 0: there the pass changes
    nothing. *)
Lemma coupling_pass_without_coupling_witness :
  Engine._apply_global_coupling uncoupled_ticked = uncoupled_ticked.
Proof.
  apply (coupling_pass_without_coupling uncoupled_ticked).
  exact uncoupled_ticked_coupling.
Defined.

(** ** A tick without noise *)

Lemma tick_steps_without_noise (with_coupling : bool)
    (advance : R -> TetrahedronOscillator -> result TetrahedronOscillator)
    (now : R) (z z' : nat -> R) (s : ParticleOscillationSimulation) :
  environmental_noise s = 0 ->
  tick_steps with_coupling advance now z s = tick_steps with_coupling advance now z' s.
Proof.
  intros Hn. unfold tick_steps. destruct (is_running s); [| reflexivity].
  cbv zeta. rewrite Hn.
  match goal with
  | |- bind (sequence (map ?f ?l)) _ = bind (sequence (map ?f' ?l)) _ =>
      rewrite (map_ext f f'); [reflexivity |]
  end.
  intros [k o]. cbn [fst snd]. f_equal. unfold gaussian. ring.
Qed.

(** X11.  With an environmental noise of 0 a tick does not depend on the
    Gaussian generator: in both files two ticks from the same simulation
    give the same result whatever the two streams of variates, and in the
    engine a running tick advances the clock of every oscillator by exactly
    [dt]. *)
Theorem tick_without_noise (now : R) (z z' : nat -> R)
    (s : ParticleOscillationSimulation) :
  environmental_noise s = 0 ->
  Engine.update_simulation now z s = Engine.update_simulation now z' s /\
  Server.update_simulation now z s = Server.update_simulation now z' s /\
  exists s',
    Engine.update_simulation now z s = Ok s' /\
    forall k o,
      nth_error (dict_values (oscillators s)) k = Some o ->
      exists o',
        nth_error (dict_values (oscillators s')) k = Some o' /\
        current_time o' = current_time o + (if is_running s then dt s else 0).
Proof.
  intros Hn.
  split; [rewrite !engine_tick_steps; apply tick_steps_without_noise; exact Hn |].
  split; [rewrite !server_tick_steps; apply tick_steps_without_noise; exact Hn |].
  destruct (is_running s) eqn:Hrun.
  - destruct (engine_tick_clock now z s Hrun) as (s' & Hs' & _ & Hclock).
    exists s'. split; [exact Hs' |].
    intros k o Hk. destruct (Hclock k o Hk) as (o' & Ho' & Ht).
    exists o'. split; [exact Ho' |].
    rewrite Ht, Hn. unfold gaussian. ring.
  - exists s. unfold Engine.update_simulation. rewrite Hrun.
    split; [reflexivity |].
    intros k o Hk. exists o. split; [exact Hk | lra].
Qed.

Lemma noiseless_started_noise : environmental_noise noiseless_started = 0.
Proof.
  unfold noiseless_started, update_simulation_config.
  cbn [environmental_noise set_environmental_noise].
  unfold Rmax, Rmin. repeat destruct (Rle_dec _ _); lra.
Defined.

Lemma tick_without_noise_witness :
  Engine.update_simulation 1 (constant_draws 0) noiseless_started =
    Engine.update_simulation 1 (constant_draws 3) noiseless_started /\
  Server.update_simulation 1 (constant_draws 0) noiseless_started =
    Server.update_simulation 1 (constant_draws 3) noiseless_started /\
  exists s',
    Engine.update_simulation 1 (constant_draws 0) noiseless_started = Ok s' /\
    forall k o,
      nth_error (dict_values (oscillators noiseless_started)) k = Some o ->
      exists o',
        nth_error (dict_values (oscillators s')) k = Some o' /\
        current_time o' =
          current_time o +
          (if is_running noiseless_started then dt noiseless_started else 0).
Proof.
  apply (tick_without_noise 1 (constant_draws 0) (constant_draws 3) noiseless_started).
  exact noiseless_started_noise.
Defined.

(** ** Randomly drawn parameters *)

Lemma uniform_in_range (low low' high high' u : R) :
  low' = low -> high' = high -> low < high -> 0 <= u < 1 ->
  low' <= np_random_uniform low high u < high'.
Proof. intros -> -> H [H0 H1]. unfold np_random_uniform. split; nra. Qed.

(** X12.  An oscillator created without parameters gets parameters inside
    the ranges of the draws, the generator handing out variates of [0, 1):
    base frequency in [0.5, 2), amplitudes in [0.8, 1.2), [1, 1.8), [0.6, 1)
    and [1, 1.4), phases in [0, 2 pi), coupling strength in [0.05, 0.15), and
    the default damping factor 0.98. *)
Theorem created_parameters_in_range (now : R) (u : nat -> R)
    (s : ParticleOscillationSimulation) (id : string) :
  (forall k, 0 <= u k < 1) ->
  exists o,
    dict_get id (oscillators (snd (create_oscillator now u s id None))) = Some o /\
    0.5 <= base_frequency (params o) < 2 /\
    0.8 <= amplitude_w1 (params o) < 1.2 /\
    1 <= amplitude_w2 (params o) < 1.8 /\
    0.6 <= amplitude_w3 (params o) < 1 /\
    1 <= amplitude_w4 (params o) < 1.4 /\
    0 <= phase_w1 (params o) < 2 * PI /\
    0 <= phase_w2 (params o) < 2 * PI /\
    0 <= phase_w3 (params o) < 2 * PI /\
    0 <= phase_w4 (params o) < 2 * PI /\
    damping_factor (params o) = 0.98 /\
    0.05 <= coupling_strength (params o) < 0.15.
Proof.
  intros Hu. exists (new_oscillator now id (random_parameters u)).
  split.
  { unfold create_oscillator. cbn [snd oscillators set_oscillators].
    apply dict_get_set_same. }
  rewrite new_oscillator_params.
  cbn [random_parameters base_frequency amplitude_w1 amplitude_w2 amplitude_w3
       amplitude_w4 phase_w1 phase_w2 phase_w3 phase_w4 damping_factor
       coupling_strength].
  pose proof PI_RGT_0 as Hpi.
  repeat (split; [first [reflexivity
                        | apply uniform_in_range; [lra | lra | lra | apply Hu]] |]).
  apply uniform_in_range; [lra | lra | lra | apply Hu].
Qed.

Lemma created_parameters_in_range_witness :
  exists o,
    dict_get "d" (oscillators (snd (create_oscillator 1 (constant_draws 0.5)
                                      three_started "d" None))) = Some o /\
    0.5 <= base_frequency (params o) < 2 /\
    0.8 <= amplitude_w1 (params o) < 1.2 /\
    1 <= amplitude_w2 (params o) < 1.8 /\
    0.6 <= amplitude_w3 (params o) < 1 /\
    1 <= amplitude_w4 (params o) < 1.4 /\
    0 <= phase_w1 (params o) < 2 * PI /\
    0 <= phase_w2 (params o) < 2 * PI /\
    0 <= phase_w3 (params o) < 2 * PI /\
    0 <= phase_w4 (params o) < 2 * PI /\
    damping_factor (params o) = 0.98 /\
    0.05 <= coupling_strength (params o) < 0.15.
Proof.
  apply (created_parameters_in_range 1 (constant_draws 0.5) three_started "d").
  intros k. unfold constant_draws. lra.
Defined.

(** ** The snapshot *)

Lemma collect_state_full (items : registry) :
  forall acc e a,
  exists data,
    collect_state items acc e a =
      Ok (acc ++ data,
          e + sum_list (map energy_total (dict_values items)),
          a + sum_list (map stability_factor (dict_values items))) /\
    map fst data = map fst items /\
    Forall2 (fun entry d =>
               data_particle_id (snd d) = particle_id (snd entry) /\
               data_timestamp (snd d) = current_time (snd entry) /\
               data_state (snd d) = current_state (snd entry) /\
               data_stability_factor (snd d) = stability_factor (snd entry) /\
               data_energy_total (snd d) = energy_total (snd entry) /\
               data_phase_coherence (snd d) = phase_coherence (snd entry) /\
               data_state_magnitude (snd d) =
                 sqrt (sum_squares (current_state (snd entry))) /\
               data_parameters (snd d) = params (snd entry))
            items data.
Proof.
  induction items as [| [k o] items IH]; intros acc e a.
  - exists []. cbn [collect_state dict_values map sum_list fold_right].
    rewrite app_nil_r.
    split; [do 2 f_equal; [f_equal |]; lra |].
    split; [reflexivity | constructor].
  - cbn [collect_state]. unfold get_oscillation_data.
    rewrite magnitude_ok. cbn [bind].
    match goal with
    | |- exists data, collect_state items (acc ++ [?p]) ?e' ?a' = _ /\ _ =>
        destruct (IH (acc ++ [p]) e' a') as (data & Hd & Hid & Hall);
        exists (p :: data)
    end.
    split.
    { rewrite Hd, <- app_assoc.
      cbn [app dict_values map snd sum_list fold_right data_energy_total
           data_stability_factor].
      do 2 f_equal; [f_equal |]; unfold dict_values, sum_list; lra. }
    split; [cbn [map fst]; rewrite Hid; reflexivity |].
    constructor; [| exact Hall].
    cbn [snd data_particle_id data_timestamp data_state data_stability_factor
         data_energy_total data_phase_coherence data_state_magnitude data_parameters].
    repeat split.
Qed.

(** X14.  The snapshot [get_simulation_state] answers holds the time, the
    running flag and the number of oscillators of the simulation, one data
    record per oscillator in the order of the registry and under its key
    (id, clock, state, derived properties, a magnitude that is the root of
    the sum of squares, parameters), and as total energy the sum of the
    energies of the oscillators. *)
Theorem snapshot_lists_registry (s : ParticleOscillationSimulation) :
  exists st,
    get_simulation_state s = Ok st /\
    snap_simulation_time st = simulation_time s /\
    snap_is_running st = is_running s /\
    snap_oscillator_count st = length (oscillators s) /\
    map fst (snap_oscillators st) = map fst (oscillators s) /\
    Forall2 (fun entry d =>
               data_particle_id (snd d) = particle_id (snd entry) /\
               data_timestamp (snd d) = current_time (snd entry) /\
               data_state (snd d) = current_state (snd entry) /\
               data_stability_factor (snd d) = stability_factor (snd entry) /\
               data_energy_total (snd d) = energy_total (snd entry) /\
               data_phase_coherence (snd d) = phase_coherence (snd entry) /\
               data_state_magnitude (snd d) =
                 sqrt (sum_squares (current_state (snd entry))) /\
               data_parameters (snd d) = params (snd entry))
            (oscillators s) (snap_oscillators st) /\
    metrics_total_energy (snap_global_metrics st) =
      sum_list (map energy_total (dict_values (oscillators s))).
Proof.
  unfold get_simulation_state.
  destruct (collect_state_full (oscillators s) [] 0.0 0.0) as (data & -> & Hid & Hall).
  cbn [bind app].
  assert (Hdiv : exists v,
            (if (0 <? length (oscillators s))%nat
             then float_div
                    (0.0 + sum_list (map stability_factor (dict_values (oscillators s))))
                    (INR (length (oscillators s)))
             else Ok (0.0 + sum_list (map stability_factor (dict_values (oscillators s)))))
            = Ok v).
  { destruct (Nat.ltb_spec 0 (length (oscillators s))) as [H | H].
    - rewrite float_div_ok by (apply not_0_INR; lia). eexists. reflexivity.
    - eexists. reflexivity. }
  destruct Hdiv as (v & ->). cbn [bind].
  eexists. split; [reflexivity |].
  cbn [snap_simulation_time snap_is_running snap_oscillator_count snap_oscillators
       snap_global_metrics metrics_total_energy].
  repeat (split; [first [reflexivity | exact Hid | exact Hall] |]). lra.
Qed.

(** ** The analytics *)

Lemma Rltb_true (x y : R) : Rltb x y = true <-> x < y.
Proof. unfold Rltb. destruct (Rlt_dec x y); split; intros; congruence || lra. Qed.

Lemma Rleb_true (x y : R) : Rleb x y = true <-> x <= y.
Proof. unfold Rleb. destruct (Rle_dec x y); split; intros; congruence || lra. Qed.

Lemma fold_min_ok (rest : list R) :
  forall first,
    let m := fold_left (fun m x => if Rltb x m then x else m) rest first in
    m <= first /\ Forall (fun v => m <= v) rest /\ (m = first \/ In m rest).
Proof.
  induction rest as [| x rest IH]; intros first; cbn [fold_left]; cbv zeta.
  - split; [lra |]. split; [constructor | left; reflexivity].
  - destruct (IH (if Rltb x first then x else first)) as (H1 & H2 & H3).
    unfold Rltb in *. destruct (Rlt_dec x first) as [Hlt | Hge].
    + split; [lra |]. split; [constructor; [lra | exact H2] |].
      right. destruct H3 as [-> | H3]; [left; reflexivity | right; exact H3].
    + split; [lra |]. split; [constructor; [lra | exact H2] |].
      destruct H3 as [-> | H3]; [left; reflexivity | right; right; exact H3].
Qed.

Lemma fold_max_ok (rest : list R) :
  forall first,
    let m := fold_left (fun m x => if Rltb m x then x else m) rest first in
    first <= m /\ Forall (fun v => v <= m) rest /\ (m = first \/ In m rest).
Proof.
  induction rest as [| x rest IH]; intros first; cbn [fold_left]; cbv zeta.
  - split; [lra |]. split; [constructor | left; reflexivity].
  - destruct (IH (if Rltb first x then x else first)) as (H1 & H2 & H3).
    unfold Rltb in *. destruct (Rlt_dec first x) as [Hlt | Hge].
    + split; [lra |]. split; [constructor; [lra | exact H2] |].
      right. destruct H3 as [-> | H3]; [left; reflexivity | right; exact H3].
    + split; [lra |]. split; [constructor; [lra | exact H2] |].
      destruct H3 as [-> | H3]; [left; reflexivity | right; right; exact H3].
Qed.

Lemma py_min_ok (first : R) (rest : list R) :
  exists m, py_min (first :: rest) = Ok m /\
            In m (first :: rest) /\ Forall (fun v => m <= v) (first :: rest).
Proof.
  destruct (fold_min_ok rest first) as (H1 & H2 & H3).
  eexists. split; [reflexivity |]. split.
  - destruct H3 as [H3 | H3]; [left; symmetry; exact H3 | right; exact H3].
  - constructor; assumption.
Qed.

Lemma py_max_ok (first : R) (rest : list R) :
  exists m, py_max (first :: rest) = Ok m /\
            In m (first :: rest) /\ Forall (fun v => v <= m) (first :: rest).
Proof.
  destruct (fold_max_ok rest first) as (H1 & H2 & H3).
  eexists. split; [reflexivity |]. split.
  - destruct H3 as [H3 | H3]; [left; symmetry; exact H3 | right; exact H3].
  - constructor; assumption.
Qed.

Lemma sum_list_between (a b : R) (l : list R) :
  Forall (fun v => a <= v <= b) l ->
  INR (length l) * a <= sum_list l <= INR (length l) * b.
Proof.
  induction 1 as [| x l Hx _ IH].
  - cbn [length sum_list fold_right INR]. lra.
  - change (sum_list (x :: l)) with (x + sum_list l).
    change (length (x :: l)) with (S (length l)). rewrite S_INR. lra.
Qed.

Lemma mean_between (a b : R) (l : list R) :
  l <> [] -> Forall (fun v => a <= v <= b) l -> a <= mean l <= b.
Proof.
  intros Hne Hall. pose proof (sum_list_between a b l Hall) as Hs.
  assert (Hn : 0 < INR (length l)).
  { destruct l; [congruence |]. apply lt_0_INR. cbn [length]. lia. }
  unfold mean. split.
  - apply Rmult_le_reg_r with (INR (length l)); [exact Hn |].
    unfold Rdiv. rewrite Rmult_assoc, Rinv_l by lra. lra.
  - apply Rmult_le_reg_r with (INR (length l)); [exact Hn |].
    unfold Rdiv. rewrite Rmult_assoc, Rinv_l by lra. lra.
Qed.

Lemma axis_statistics_ok (first : R) (rest : list R) :
  exists st, axis_statistics (first :: rest) = Ok st /\
             statistics_of (first :: rest) st.
Proof.
  destruct (py_min_ok first rest) as (lo & Hlo & Hlo_in & Hlo_all).
  destruct (py_max_ok first rest) as (hi & Hhi & Hhi_in & Hhi_all).
  unfold axis_statistics.
  rewrite float_div_ok by (apply not_0_INR; cbn [length]; lia).
  cbn [bind]. rewrite Hlo, Hhi. cbn [bind].
  eexists. split; [reflexivity |].
  assert (Hall : Forall (fun v => lo <= v <= hi) (first :: rest)).
  { rewrite Forall_forall in *. intros v Hv. split; [apply Hlo_all | apply Hhi_all]; exact Hv. }
  assert (Hmean : lo <= mean (first :: rest) <= hi)
    by (apply mean_between; [discriminate | exact Hall]).
  unfold statistics_of. cbn [stat_mean stat_min stat_max stat_range].
  split; [unfold mean; rewrite py_sum_sum_list; reflexivity |].
  split; [exact Hlo_in |]. split; [exact Hhi_in |]. split; [exact Hall |].
  split; [unfold mean in Hmean; rewrite py_sum_sum_list; exact Hmean |].
  split; [reflexivity | lra].
Qed.

Lemma stability_classes_partition {A : Type} (f : A -> R) (l : list A) :
  (length (filter (fun x => Rltb 0.8 (f x)) l) +
   length (filter (fun x => Rleb 0.5 (f x) && Rleb (f x) 0.8) l) +
   length (filter (fun x => Rltb (f x) 0.5) l) = length l)%nat.
Proof.
  induction l as [| x l IH]; [reflexivity |].
  cbn [filter]. unfold Rltb, Rleb in *.
  destruct (Rlt_dec 0.8 (f x)), (Rle_dec 0.5 (f x)), (Rle_dec (f x) 0.8),
           (Rlt_dec (f x) 0.5); cbn [andb length]; try lra; lia.
Qed.

Lemma get_simulation_state_data (s : ParticleOscillationSimulation) :
  exists st,
    get_simulation_state s = Ok st /\
    Forall2 (fun entry d => data_state (snd d) = current_state (snd entry))
            (oscillators s) (snap_oscillators st).
Proof.
  unfold get_simulation_state.
  destruct (collect_state_full (oscillators s) [] 0.0 0.0) as (data & -> & _ & Hall).
  cbn [bind app].
  assert (Hdiv : exists v,
            (if (0 <? length (oscillators s))%nat
             then float_div
                    (0.0 + sum_list (map stability_factor (dict_values (oscillators s))))
                    (INR (length (oscillators s)))
             else Ok (0.0 + sum_list (map stability_factor (dict_values (oscillators s)))))
            = Ok v).
  { destruct (Nat.ltb_spec 0 (length (oscillators s))) as [H | H].
    - rewrite float_div_ok by (apply not_0_INR; lia). eexists. reflexivity.
    - eexists. reflexivity. }
  destruct Hdiv as (v & ->). cbn [bind].
  eexists. split; [reflexivity |]. cbn [snap_oscillators].
  eapply Forall2_impl; [| exact Hall]. cbv beta. intros a b H. apply H.
Qed.

Lemma Forall2_map_eq {A B C : Type} (f : A -> C) (g : B -> C) (l : list A) (l' : list B) :
  Forall2 (fun a b => g b = f a) l l' -> map g l' = map f l.
Proof.
  induction 1 as [| a b l l' H _ IH]; [reflexivity |].
  cbn [map]. rewrite H, IH. reflexivity.
Qed.

(** X15.  Without oscillators the analytics endpoint answers the message;
    otherwise, in what it answers, the three stability classes count every
    oscillator exactly once, and for each axis the minimum and the maximum
    are values of that axis with all the values between them, the mean is
    the arithmetic mean and lies between them, and the range is their
    difference and is not negative. *)
Theorem analytics_statistics (s : ParticleOscillationSimulation) :
  exists answer,
    get_system_analytics s = Ok answer /\
    match oscillators s with
    | [] => answer = NoOscillators
    | _ :: _ =>
        exists a,
          answer = AnalyticsOf a /\
          (high_stability (stability_distribution a) +
           medium_stability (stability_distribution a) +
           low_stability (stability_distribution a) = length (oscillators s))%nat /\
          statistics_of
            (map (fun o => w1_projection (current_state o)) (dict_values (oscillators s)))
            (statistics_w1_projection a) /\
          statistics_of
            (map (fun o => w2_energy (current_state o)) (dict_values (oscillators s)))
            (statistics_w2_energy a) /\
          statistics_of
            (map (fun o => w3_spin (current_state o)) (dict_values (oscillators s)))
            (statistics_w3_spin a) /\
          statistics_of
            (map (fun o => w4_mass (current_state o)) (dict_values (oscillators s)))
            (statistics_w4_mass a)
    end.
Proof.
  unfold get_system_analytics.
  destruct (get_simulation_state_data s) as (st & -> & Hall).
  cbn [bind]. cbv zeta.
  assert (Hst : map data_state (map snd (snap_oscillators st)) =
                map current_state (dict_values (oscillators s))).
  { unfold dict_values. rewrite !map_map.
    apply (Forall2_map_eq (fun e => current_state (snd e)) (fun d => data_state (snd d))).
    exact Hall. }
  assert (Hlen : length (map snd (snap_oscillators st)) = length (oscillators s)).
  { rewrite length_map. symmetry. eapply Forall2_length. exact Hall. }
  assert (Haxis : forall f : FourDimensionalState -> R,
            map (fun osc => f (data_state osc)) (map snd (snap_oscillators st)) =
            map (fun o => f (current_state o)) (dict_values (oscillators s))).
  { intros f. rewrite <- (map_map data_state f), <- (map_map current_state f), Hst.
    reflexivity. }
  destruct (oscillators s) as [| entry entries] eqn:Hreg.
  - inversion Hall as [Hnil |]. cbn [map]. eexists. split; reflexivity.
  - destruct (map snd (snap_oscillators st)) as [| d ds] eqn:Hds;
      [cbn [length] in Hlen; discriminate |].
    pose proof (Haxis w1_projection) as H1. pose proof (Haxis w2_energy) as H2.
    pose proof (Haxis w3_spin) as H3. pose proof (Haxis w4_mass) as H4.
    cbn [dict_values map] in H1, H2, H3, H4.
    cbn [dict_values map].
    destruct (axis_statistics_ok (w1_projection (data_state d))
                (map (fun osc => w1_projection (data_state osc)) ds)) as (s1 & E1 & S1).
    destruct (axis_statistics_ok (w2_energy (data_state d))
                (map (fun osc => w2_energy (data_state osc)) ds)) as (s2 & E2 & S2).
    destruct (axis_statistics_ok (w3_spin (data_state d))
                (map (fun osc => w3_spin (data_state osc)) ds)) as (s3 & E3 & S3).
    destruct (axis_statistics_ok (w4_mass (data_state d))
                (map (fun osc => w4_mass (data_state osc)) ds)) as (s4 & E4 & S4).
    rewrite E1. cbn [bind]. rewrite E2. cbn [bind]. rewrite E3. cbn [bind].
    rewrite E4. cbn [bind].
    eexists. split; [reflexivity |]. eexists. split; [reflexivity |].
    cbn [stability_distribution high_stability medium_stability low_stability
         statistics_w1_projection statistics_w2_energy statistics_w3_spin
         statistics_w4_mass].
    split; [rewrite (stability_classes_partition data_stability_factor (d :: ds));
            exact Hlen |].
    rewrite <- H1, <- H2, <- H3, <- H4.
    split; [exact S1 |]. split; [exact S2 |]. split; [exact S3 | exact S4].
Qed.

(** ** When the phase coherence is 1 *)

Lemma state_diff_zero (a b : FourDimensionalState) : state_diff a b = 0 <-> b = a.
Proof.
  split.
  - unfold state_diff. intros H.
    pose proof (Rabs_pos (w1_projection b - w1_projection a)) as P1.
    pose proof (Rabs_pos (w2_energy b - w2_energy a)) as P2.
    pose proof (Rabs_pos (w3_spin b - w3_spin a)) as P3.
    pose proof (Rabs_pos (w4_mass b - w4_mass a)) as P4.
    assert (E1 : w1_projection b - w1_projection a = 0).
    { destruct (Req_dec (w1_projection b - w1_projection a) 0) as [E | N];
        [exact E | apply Rabs_no_R0 in N; lra]. }
    assert (E2 : w2_energy b - w2_energy a = 0).
    { destruct (Req_dec (w2_energy b - w2_energy a) 0) as [E | N];
        [exact E | apply Rabs_no_R0 in N; lra]. }
    assert (E3 : w3_spin b - w3_spin a = 0).
    { destruct (Req_dec (w3_spin b - w3_spin a) 0) as [E | N];
        [exact E | apply Rabs_no_R0 in N; lra]. }
    assert (E4 : w4_mass b - w4_mass a = 0).
    { destruct (Req_dec (w4_mass b - w4_mass a) 0) as [E | N];
        [exact E | apply Rabs_no_R0 in N; lra]. }
    destruct a, b.
    cbn [w1_projection w2_energy w3_spin w4_mass] in E1, E2, E3, E4.
    f_equal; lra.
  - intros ->. unfold state_diff, Rminus. rewrite !Rplus_opp_r, Rabs_R0. lra.
Qed.

Lemma pair_diffs_cons (a b : R * FourDimensionalState)
    (r : list (R * FourDimensionalState)) :
  pair_diffs (a :: b :: r) = state_diff (snd a) (snd b) :: pair_diffs (b :: r).
Proof. reflexivity. Qed.

Lemma pair_diffs_zero (l : list (R * FourDimensionalState)) :
  Forall (fun d => d = 0) (pair_diffs l) <->
  exists st, Forall (fun e => snd e = st) l.
Proof.
  induction l as [| a l IH].
  - split; [intros _; exists (mkState 0 0 0 0); constructor | intros _; constructor].
  - destruct l as [| b r].
    + split; [intros _; exists (snd a); repeat constructor | intros _; constructor].
    + rewrite pair_diffs_cons. split.
      * intros H. inversion H as [| d ds Hd Hds]; subst.
        apply state_diff_zero in Hd.
        apply IH in Hds. destruct Hds as (st & Hst).
        exists st. constructor; [| exact Hst].
        inversion Hst; subst. congruence.
      * intros (st & Hst). inversion Hst as [| x xs Ha Hrest]; subst.
        constructor.
        -- apply state_diff_zero. inversion Hrest; subst. assumption.
        -- apply IH. exists (snd a). exact Hrest.
Qed.

Lemma sum_zero_all_zero (l : list R) :
  Forall (fun x => 0 <= x) l -> sum_list l = 0 -> Forall (fun x => x = 0) l.
Proof.
  induction 1 as [| x l Hx Hl IH]; intros Hs; [constructor |].
  change (sum_list (x :: l)) with (x + sum_list l) in Hs.
  assert (Hpos : 0 <= sum_list l).
  { clear -Hl. induction Hl as [| y l Hy _ IH]; [cbn; lra |].
    change (sum_list (y :: l)) with (y + sum_list l). lra. }
  constructor; [lra | apply IH; lra].
Qed.

Lemma all_zero_sum (l : list R) : Forall (fun x => x = 0) l -> sum_list l = 0.
Proof.
  induction 1 as [| x l Hx _ IH]; [reflexivity |].
  change (sum_list (x :: l)) with (x + sum_list l). lra.
Qed.

Lemma mean_zero_sum (l : list R) : mean l = 0 -> sum_list l = 0.
Proof.
  destruct l as [| x l]; [reflexivity |]. unfold mean. intros H.
  assert (Hn : INR (length (x :: l)) <> 0) by (apply not_0_INR; discriminate).
  apply (Rmult_eq_compat_r (INR (length (x :: l)))) in H.
  unfold Rdiv in H. rewrite Rmult_assoc, Rinv_l, Rmult_1_r, Rmult_0_l in H by exact Hn.
  exact H.
Qed.

Lemma coherence_formula_one (h : list (R * FourDimensionalState)) :
  coherence_formula h = 1 <->
  (length h < 10)%nat \/ exists st, Forall (fun e => snd e = st) (lastn 10 h).
Proof.
  unfold coherence_formula.
  destruct (Nat.ltb_spec (length h) 10) as [Hlt | Hge].
  - split; [intros _; left; exact Hlt | reflexivity].
  - pose proof (mean_nonneg _ (pair_diffs_nonneg (lastn 10 h))) as Hm.
    split.
    + intros Hc. right. apply pair_diffs_zero.
      apply sum_zero_all_zero; [apply pair_diffs_nonneg |].
      apply mean_zero_sum.
      unfold clamp in Hc.
      destruct (Rlt_dec _ 0); [lra |]. destruct (Rlt_dec 1 _); lra.
    + intros [Hlt | Hst]; [lia |].
      apply pair_diffs_zero, all_zero_sum in Hst.
      unfold mean. rewrite Hst. unfold Rdiv at 2. rewrite Rmult_0_l.
      unfold clamp. destruct (Rlt_dec _ 0); [lra |]. destruct (Rlt_dec 1 _); lra.
Qed.

(** X16.  An [update_oscillations] leaves the phase coherence 1 exactly
    when the history it starts on has fewer than ten entries or the states
    of its last ten entries are all the same. *)
Theorem coherence_one_iff_static (dt : R) (o : TetrahedronOscillator) :
  exists o',
    Engine.update_oscillations dt o = Ok o' /\
    (phase_coherence o' = 1 <->
     (length (state_history o) < 10)%nat \/
     exists st, Forall (fun e => snd e = st) (lastn 10 (state_history o))).
Proof.
  exists (updated guarded_stability_formula dt o).
  split; [apply engine_update_ok |].
  rewrite updated_phase_coherence. apply coherence_formula_one.
Qed.

(** ** The order of the history *)

Lemma ForallOrdPairs_skipn {A : Type} (rel : A -> A -> Prop) (n : nat) :
  forall l, ForallOrdPairs rel l -> ForallOrdPairs rel (skipn n l).
Proof.
  induction n as [| n IH]; intros l H; [exact H |].
  destruct H as [| a l Ha Hl]; [constructor |].
  cbn [skipn]. apply IH. exact Hl.
Qed.

Lemma Forall_skipn_of {A : Type} (P : A -> Prop) (n : nat) :
  forall l, Forall P l -> Forall P (skipn n l).
Proof.
  induction n as [| n IH]; intros l H; [exact H |].
  destruct H as [| a l Ha Hl]; [constructor |].
  cbn [skipn]. apply IH. exact Hl.
Qed.

Section HistoryOrder.

Variable stability : FourDimensionalState -> R.
Variable update : R -> TetrahedronOscillator -> result TetrahedronOscillator.
Hypothesis update_ok : forall dt o, update dt o = Ok (updated stability dt o).

Lemma run_calls_log_ordered (calls : list call) :
  forall o log o',
    nonnegative_steps calls ->
    run_calls update calls o = Ok (log, o') ->
    current_time o <= current_time o' /\
    Forall (fun e => current_time o <= fst e <= current_time o') log /\
    ForallOrdPairs (fun a b => fst a <= fst b) log.
Proof.
  unfold nonnegative_steps.
  induction calls as [| [dt | st] calls IH]; intros o log o' Hsteps Hrun.
  - cbn [run_calls] in Hrun. injection Hrun as <- <-.
    split; [lra |]. split; constructor.
  - cbn [run_calls] in Hrun. rewrite update_ok in Hrun. cbn [bind] in Hrun.
    destruct (run_calls update calls (updated stability dt o)) as [[log1 o1] | e] eqn:E;
      cbn [bind fst snd] in Hrun; [| discriminate].
    injection Hrun as <- <-.
    inversion Hsteps as [| c cs Hdt Hrest]; subst.
    destruct (IH _ _ _ Hrest E) as (Ht & Hall & Hord).
    rewrite updated_current_time in *.
    split; [lra |]. split.
    + constructor; [cbn [fst]; lra |].
      eapply Forall_impl; [| exact Hall]. cbv beta. intros a Ha. lra.
    + constructor; [| exact Hord].
      eapply Forall_impl; [| exact Hall]. cbv beta. cbn [fst]. intros a Ha. lra.
  - cbn [run_calls] in Hrun.
    inversion Hsteps as [| c cs _ Hrest]; subst.
    exact (IH _ _ _ Hrest Hrun).
Qed.

End HistoryOrder.

(** X17.  When no call advances by a negative time step, whatever is
    written to the current state in between, the history of an oscillator is
    in the order of time: no entry has a later time than an entry after it,
    and every time lies between 0 and the clock of the oscillator. *)
Theorem history_times_ordered (now : R) (id : string) (p : OscillationParameters)
    (calls : list call) :
  nonnegative_steps calls ->
  exists log o,
    run_calls Engine.update_oscillations calls (new_oscillator now id p) = Ok (log, o) /\
    ForallOrdPairs (fun a b => fst a <= fst b) (state_history o) /\
    Forall (fun e => 0 <= fst e <= current_time o) (state_history o).
Proof.
  intros Hsteps.
  destruct (run_calls_history guarded_stability_formula Engine.update_oscillations
              engine_update_ok calls (new_oscillator now id p))
    as (log & o & Hrun & _ & _ & Hhist); [cbn; lia | cbn; lia |].
  cbn [max_history state_history new_oscillator app] in Hhist.
  destruct (run_calls_log_ordered guarded_stability_formula Engine.update_oscillations
              engine_update_ok calls _ _ _ Hsteps Hrun) as (_ & Hall & Hord).
  rewrite new_oscillator_time in Hall.
  exists log, o. split; [exact Hrun |]. rewrite Hhist. unfold lastn.
  split; [apply ForallOrdPairs_skipn; exact Hord |].
  apply Forall_skipn_of.
  eapply Forall_impl; [| exact Hall]. cbv beta. intros a Ha. lra.
Qed.

Lemma history_times_ordered_witness :
  exists log o,
    run_calls Engine.update_oscillations
      [Advance 1; WriteState (mkState 0 0 0 0); Advance 0]
      (new_oscillator 0 "a" (quiet_parameters 1 1)) = Ok (log, o) /\
    ForallOrdPairs (fun a b => fst a <= fst b) (state_history o) /\
    Forall (fun e => 0 <= fst e <= current_time o) (state_history o).
Proof.
  apply (history_times_ordered 0 "a" (quiet_parameters 1 1)
           [Advance 1; WriteState (mkState 0 0 0 0); Advance 0]).
  unfold nonnegative_steps.
  repeat (apply Forall_cons; [first [lra | exact I] |]). apply Forall_nil.
Defined.

(** ** What a tick leaves alone *)

Section TickFrame.

Variable stability : FourDimensionalState -> R.
Variable update : R -> TetrahedronOscillator -> result TetrahedronOscillator.
Hypothesis update_ok : forall dt o, update dt o = Ok (updated stability dt o).

Lemma ticked_frame (l vs : list TetrahedronOscillator) :
  Forall2 (ticked stability) l vs ->
  map particle_id vs = map particle_id l /\
  map params vs = map params l /\
  map max_history vs = map max_history l.
Proof.
  induction 1 as [| o o' l vs (st & step & ->) _ (IH1 & IH2 & IH3)].
  - repeat split.
  - cbn [map]. rewrite IH1, IH2, IH3.
    rewrite updated_particle_id, updated_params, updated_max_history.
    repeat split.
Qed.

Lemma tick_steps_frame (with_coupling : bool) (now : R) (z : nat -> R)
    (s : ParticleOscillationSimulation) :
  exists s',
    tick_steps with_coupling update now z s = Ok s' /\
    map fst (oscillators s') = map fst (oscillators s) /\
    map particle_id (dict_values (oscillators s')) =
      map particle_id (dict_values (oscillators s)) /\
    map params (dict_values (oscillators s')) = map params (dict_values (oscillators s)) /\
    map max_history (dict_values (oscillators s')) =
      map max_history (dict_values (oscillators s)) /\
    is_running s' = is_running s /\
    dt s' = dt s /\
    global_coupling s' = global_coupling s /\
    environmental_noise s' = environmental_noise s.
Proof.
  destruct (is_running s) eqn:Hrun.
  - destruct (tick_steps_running stability update update_ok with_coupling now z s Hrun)
      as (s' & Hs' & Ho & _ & Hr & Hd & Hg & Hn).
    exists s'. split; [exact Hs' |].
    assert (Hticked :
      Forall2 (ticked stability) (dict_values (oscillators s))
        (map (fun ko => updated stability
                          (dt s * gaussian 1 (environmental_noise s) (z (fst ko)))
                          (snd ko))
             (combine
                (seq 0 (length (oscillators s)))
                (if with_coupling
                 then coupling_pass (global_coupling s) (dict_values (oscillators s))
                 else dict_values (oscillators s))))).
    { replace (length (oscillators s))
        with (length (if with_coupling
                      then coupling_pass (global_coupling s) (dict_values (oscillators s))
                      else dict_values (oscillators s)))
        by (destruct with_coupling;
            [rewrite coupling_pass_length |]; apply dict_values_length).
      apply (updated_each_ticked stability
               (fun k => dt s * gaussian 1 (environmental_noise s) (z k))).
      destruct with_coupling.
      - apply coupling_pass_writes_states.
      - apply Forall2_refl_on. exact state_written_refl. }
    pose proof (Forall2_length_values _ _ _ Hticked) as Hlen.
    rewrite dict_values_length in Hlen.
    destruct (ticked_frame _ _ Hticked) as (F1 & F2 & F3).
    rewrite Ho, dict_rebind_keys, dict_rebind_values by exact Hlen.
    repeat split; assumption.
  - exists s. unfold tick_steps. rewrite Hrun. repeat split.
Qed.

End TickFrame.

(** X18.  A tick, of either coordinator, leaves the registry with the same
    keys in the same order and every oscillator with the id, the parameters
    and the history bound it had; the running flag, the time step, the
    global coupling and the environmental noise of the simulation stay as
    they were. *)
Theorem tick_keeps_identities (engine : bool) (now : R) (z : nat -> R)
    (s : ParticleOscillationSimulation) :
  exists s',
    run_command engine (UpdateSimulation now z) s = Ok s' /\
    map fst (oscillators s') = map fst (oscillators s) /\
    map particle_id (dict_values (oscillators s')) =
      map particle_id (dict_values (oscillators s)) /\
    map params (dict_values (oscillators s')) = map params (dict_values (oscillators s)) /\
    map max_history (dict_values (oscillators s')) =
      map max_history (dict_values (oscillators s)) /\
    is_running s' = is_running s /\
    dt s' = dt s /\
    global_coupling s' = global_coupling s /\
    environmental_noise s' = environmental_noise s.
Proof.
  cbn [run_command]. destruct engine.
  - rewrite engine_tick_steps.
    apply (tick_steps_frame guarded_stability_formula Engine.update_oscillations
             engine_update_ok).
  - rewrite server_tick_steps.
    apply (tick_steps_frame stability_formula Server.update_oscillations
             server_update_ok).
Qed.

(** ** The endpoints that remove and read one oscillator *)

(** X19.  The DELETE endpoint on a registry with unique ids: for a known
    id it answers that id, and the history endpoint then answers 404 for it;
    for an unknown id it answers 404 and leaves the simulation as it was. *)
Theorem delete_endpoint (s : ParticleOscillationSimulation) (id : string) (last_n : Z) :
  NoDup (map fst (oscillators s)) ->
  if dict_mem id (oscillators s)
  then fst (api_remove_oscillator s id) = Response id /\
       api_get_oscillator_history (snd (api_remove_oscillator s id)) id last_n =
         Ok (HTTPException 404 "Oscillator not found")
  else fst (api_remove_oscillator s id) = HTTPException 404 "Oscillator not found" /\
       snd (api_remove_oscillator s id) = s.
Proof.
  intros Hnd. unfold api_remove_oscillator, remove_oscillator.
  destruct (dict_mem id (oscillators s)) eqn:E; cbn [negb fst snd].
  - split; [reflexivity |].
    unfold api_get_oscillator_history. cbn [oscillators set_oscillators].
    rewrite dict_del_gone by exact Hnd. reflexivity.
  - split; reflexivity.
Qed.

Lemma delete_endpoint_witness :
  fst (api_remove_oscillator three_started "b") = Response "b"%string /\
  api_get_oscillator_history (snd (api_remove_oscillator three_started "b")) "b" 100 =
    Ok (HTTPException 404 "Oscillator not found").
Proof.
  exact (delete_endpoint three_started "b" 100 three_started_nodup).
Defined.
